(** * LastPixel: the pixel-economy engine of [main.py]

    A shallow embedding of the placement, undo, report and weekly-reset
    logic of the Pixel Canvas API.

    - The SQLite tables are finite maps and lists, an INTEGER column is a
      [Z], and the four rows of [global_state] are fields of the state.
    - Python's float arithmetic is IEEE-754 binary64, taken from the
      Standard Library's [SpecFloat]; an exception no handler catches is
      the outcome [Uncaught].
    - Requests are served one at a time, each at one reading [now] of the
      clock; [Host] tells the host's local clock from SQLite's UTC clock
      where a property depends on which of the two is read.  A request
      body is one that passed its pydantic validation, and the integers
      of a request are ones SQLite can bind (64 bits).
    - A raised [HTTPException] rolls back the transaction it is raised
      in; what was committed before it stays. *)

From Stdlib Require Import ZArith Lia Bool List.
From Stdlib Require Import Floats.SpecFloat.
From stdpp Require Import gmap strings.

Local Open Scope Z_scope.

(** ** Python floats

    CPython's [float] is an IEEE-754 binary64.  The operations the source
    uses ([int * float], [float + float], [int - float], [int(float)]) are
    taken from the Standard Library's executable specification of binary
    floating point, instantiated at 53 bits of precision. *)
Module Float64.

Definition prec : Z := 53.
Definition emax : Z := 1024.

Definition float := spec_float.

Definition mul : float -> float -> float := SFmul prec emax.
Definition add : float -> float -> float := SFadd prec emax.
Definition sub : float -> float -> float := SFsub prec emax.
Definition div : float -> float -> float := SFdiv prec emax.

(** The conversion Python applies to the [int] operand of a mixed
    [int]/[float] operation: round to nearest even, [OverflowError]
    ([None]) when the integer is beyond the largest double. *)
Definition of_int (n : Z) : option float :=
  match binary_normalize prec emax n 0 false with
  | S754_infinity _ => None
  | S754_nan => None
  | f => Some f
  end.

(** [int(f)]: truncation toward zero; an exception ([None]) on an
    infinity or a NaN. *)
Definition to_int (f : float) : option Z :=
  match f with
  | S754_zero _ => Some 0
  | S754_finite s m e =>
      Some (cond_Zopp s (match e with
                         | Zneg k => Zpos m / 2 ^ Zpos k
                         | _ => Zpos m * 2 ^ e
                         end))
  | S754_infinity _ => None
  | S754_nan => None
  end.

(** A decimal literal [num/den] denotes the double nearest to it, which
    is what correctly rounded division of the two integers gives. *)
Definition literal (num den : Z) : float :=
  div (binary_normalize prec emax num 0 false)
      (binary_normalize prec emax den 0 false).

(** [n * f] with [n] an [int]. *)
Definition int_mul (n : Z) (f : float) : option float :=
  match of_int n with
  | Some x => Some (mul x f)
  | None => None
  end.

(** [n - f] with [n] an [int]. *)
Definition int_sub (n : Z) (f : float) : option float :=
  match of_int n with
  | Some x => Some (sub x f)
  | None => None
  end.

End Float64.

(** ** Constants of [main.py] *)

Definition BOARD_SIZE : Z := 1024.
Definition BASE_COST_CREDITS : Z := 1000.
Definition COST_INCREMENT_CREDITS : Z := 1000.
Definition INITIAL_CAP_CREDITS : Z := 200000.
Definition LOWER_CAP_CREDITS : Z := 150000.
Definition CAP_TRIGGER_COUNT : Z := 100.
Definition INACTIVITY_THRESHOLD_SECONDS : Z := 1800.
Definition FREE_ELIGIBILITY_MAX_PAID : Z := 500.
Definition RATE_LIMIT_SECONDS : Z := 1.
Definition UNDO_WINDOW_SECONDS : Z := 300.
Definition UNDO_BASE_PERCENT : Float64.float :=
  Eval vm_compute in Float64.literal 25 100.
Definition UNDO_INCREMENT_PERCENT : Float64.float :=
  Eval vm_compute in Float64.literal 10 100.
Definition AD_OVERWRITE_DISCOUNT : Float64.float :=
  Eval vm_compute in Float64.literal 10 100.
Definition REPORT_FREEZE_THRESHOLD : Z := 2500.

Definition bind_opt {A B} (o : option A) (k : A -> option B) : option B :=
  match o with Some a => k a | None => None end.

(** ** Time

    A [datetime] is an integer count of microseconds, a [timedelta] their
    difference.  [total_seconds()] is only ever compared with a whole
    number of seconds, and correctly rounded division by [10**6] keeps
    such comparisons, so they are stated on microseconds.  One request
    reads the clock once: [now] is a parameter of every operation.
    Python's [datetime.now()] and SQLite's [datetime('now')] agree on a
    host whose local time is UTC; [Host] below has them apart. *)

Definition MICROS : Z := 1000000.
Definition seconds (s : Z) : Z := s * MICROS.
Definition days (d : Z) : Z := d * 86400 * MICROS.

(** SQLite's [datetime('now')] has a resolution of one second. *)
Definition sqlite_datetime_now (now : Z) : Z := now / MICROS * MICROS.

(** Timestamps are TEXT in the database and the queries compare them as
    text.  [datetime('now')] writes ['YYYY-MM-DD HH:MM:SS'] while
    [datetime.isoformat()] yields ['YYYY-MM-DDTHH:MM:SS']: both are a
    fixed-width date, a separator byte and a fixed-width time of day, so
    the byte order of the texts is the lexicographic order of these
    three parts. *)
Definition sql_text (t : Z) : list Z := [t / days 1; 32; t mod days 1].
Definition isoformat (t : Z) : list Z := [t / days 1; 84; t mod days 1].

Fixpoint text_compare (a b : list Z) : comparison :=
  match a, b with
  | [], [] => Eq
  | [], _ :: _ => Lt
  | _ :: _, [] => Gt
  | x :: a', y :: b' =>
      match x ?= y with
      | Eq => text_compare a' b'
      | c => c
      end
  end.

Definition text_ge (a b : list Z) : bool :=
  match text_compare a b with Lt => false | _ => true end.
Definition text_lt (a b : list Z) : bool :=
  match text_compare a b with Lt => true | _ => false end.

(** ** Tables *)

Record User := mkUser {
  credits : Z;
  lifetime_paid_placements : Z;
  undo_escalation_count : Z;
  ad_violation_count : Z
}.

Record Pixel := mkPixel {
  color : string;
  cost_level : Z;
  owner_id : option Z;
  is_ad : bool;
  updated_at : Z
}.

Record Placement := mkPlacement {
  p_user_id : Z;
  p_x : Z;
  p_y : Z;
  p_color : string;
  p_cost : Z;
  p_was_free : bool;
  p_is_ad : bool;
  can_undo : bool;
  previous_color : option string;
  previous_owner_id : option Z;
  placed_at : Z
}.

Record Report := mkReport {
  reporter_user_id : Z;
  pixel_x : Z;
  pixel_y : Z;
  reason : string;
  reported_at : Z
}.

Record SnapshotPixel := mkSnapshotPixel {
  s_x : Z;
  s_y : Z;
  s_color : string;
  s_owner_id : option Z;
  s_is_ad : bool
}.

Record Archive := mkArchive {
  a_week_start : Z;
  a_week_end : Z;
  snapshot_data : list SnapshotPixel;
  total_placements : Z;
  unique_contributors : Z
}.

(** The database (the four [global_state] rows are fields) together with
    the in-memory rate-limit dictionary.  A placement's [id] is its
    position in the log, counted from 1. *)
Record State := mkState {
  users : gmap Z User;
  pixels : gmap (Z * Z) Pixel;
  placements : list Placement;
  reports : list Report;
  archives : list Archive;
  week_start : Z;
  last_placement : Z;
  current_cap : Z;
  board_frozen : bool;
  user_last_placement : gmap Z Z
}.

Definition set_users (f : gmap Z User -> gmap Z User) (st : State) : State :=
  mkState (f (users st)) (pixels st) (placements st) (reports st) (archives st)
          (week_start st) (last_placement st) (current_cap st) (board_frozen st)
          (user_last_placement st).
Definition set_pixels (f : gmap (Z * Z) Pixel -> gmap (Z * Z) Pixel) (st : State) : State :=
  mkState (users st) (f (pixels st)) (placements st) (reports st) (archives st)
          (week_start st) (last_placement st) (current_cap st) (board_frozen st)
          (user_last_placement st).
Definition set_placements (f : list Placement -> list Placement) (st : State) : State :=
  mkState (users st) (pixels st) (f (placements st)) (reports st) (archives st)
          (week_start st) (last_placement st) (current_cap st) (board_frozen st)
          (user_last_placement st).
Definition set_reports (f : list Report -> list Report) (st : State) : State :=
  mkState (users st) (pixels st) (placements st) (f (reports st)) (archives st)
          (week_start st) (last_placement st) (current_cap st) (board_frozen st)
          (user_last_placement st).
Definition set_archives (f : list Archive -> list Archive) (st : State) : State :=
  mkState (users st) (pixels st) (placements st) (reports st) (f (archives st))
          (week_start st) (last_placement st) (current_cap st) (board_frozen st)
          (user_last_placement st).
Definition set_week_start (t : Z) (st : State) : State :=
  mkState (users st) (pixels st) (placements st) (reports st) (archives st)
          t (last_placement st) (current_cap st) (board_frozen st)
          (user_last_placement st).
Definition set_last_placement (t : Z) (st : State) : State :=
  mkState (users st) (pixels st) (placements st) (reports st) (archives st)
          (week_start st) t (current_cap st) (board_frozen st)
          (user_last_placement st).
Definition set_current_cap (c : Z) (st : State) : State :=
  mkState (users st) (pixels st) (placements st) (reports st) (archives st)
          (week_start st) (last_placement st) c (board_frozen st)
          (user_last_placement st).
Definition set_board_frozen (b : bool) (st : State) : State :=
  mkState (users st) (pixels st) (placements st) (reports st) (archives st)
          (week_start st) (last_placement st) (current_cap st) b
          (user_last_placement st).
Definition set_user_last_placement (f : gmap Z Z -> gmap Z Z) (st : State) : State :=
  mkState (users st) (pixels st) (placements st) (reports st) (archives st)
          (week_start st) (last_placement st) (current_cap st) (board_frozen st)
          (f (user_last_placement st)).

(** Field updates of single rows ([UPDATE ... SET ...]). *)
Definition with_credits (f : Z -> Z) (u : User) : User :=
  mkUser (f (credits u)) (lifetime_paid_placements u) (undo_escalation_count u)
         (ad_violation_count u).
Definition with_lifetime_paid_placements (f : Z -> Z) (u : User) : User :=
  mkUser (credits u) (f (lifetime_paid_placements u)) (undo_escalation_count u)
         (ad_violation_count u).
Definition with_undo_escalation_count (f : Z -> Z) (u : User) : User :=
  mkUser (credits u) (lifetime_paid_placements u) (f (undo_escalation_count u))
         (ad_violation_count u).
Definition with_ad_violation_count (f : Z -> Z) (u : User) : User :=
  mkUser (credits u) (lifetime_paid_placements u) (undo_escalation_count u)
         (f (ad_violation_count u)).
Definition with_cost_level (l : Z) (p : Pixel) : Pixel :=
  mkPixel (color p) l (owner_id p) (is_ad p) (updated_at p).
Definition with_can_undo (b : bool) (p : Placement) : Placement :=
  mkPlacement (p_user_id p) (p_x p) (p_y p) (p_color p) (p_cost p) (p_was_free p)
              (p_is_ad p) b (previous_color p) (previous_owner_id p) (placed_at p).

Definition lookup_placement (id : Z) (log : list Placement) : option Placement :=
  if id <? 1 then None else log !! Z.to_nat (id - 1).

(** ** Outcomes of a request *)

Inductive Detail :=
| BoardFrozenDueToReports
| BoardFrozen
| UserNotFound
| RateLimit
| InsufficientCredits (need have : Z)
| PlacementNotFound
| NotYourPlacement
| CannotUndoThisPlacement
| UndoWindowExpired
| InsufficientCreditsForUndo (need : Z)
| InvalidCoordinates.

Inductive Outcome (A : Type) :=
| Ok (a : A)
| HTTPException (status_code : Z) (detail : Detail)
| Uncaught.
Arguments Ok {A} a.
Arguments HTTPException {A} status_code detail.
Arguments Uncaught {A}.

Record PlacePixelRequest := mkPlacePixelRequest {
  user_id : Z;
  x : Z;
  y : Z;
  req_color : string;
  req_is_ad : bool
}.

Record PlacePixelResponse := mkPlacePixelResponse {
  cost : Z;
  was_free : bool;
  new_balance : Z;
  message : string;
  placement_id : Z
}.

Record UndoResponse := mkUndoResponse {
  undo_cost : Z;
  undo_new_balance : Z
}.

Record ReportResponse := mkReportResponse {
  report_board_frozen : bool;
  report_count : Z
}.

(** ** Helper functions *)

Definition get_week_start (st : State) : Z := week_start st.
Definition get_last_placement_time (st : State) : Z := last_placement st.
Definition get_current_cap (st : State) : Z := current_cap st.
Definition is_board_frozen (st : State) : bool := board_frozen st.

Definition count_week_reports (st : State) : Z :=
  let week_start := get_week_start st in
  Z.of_nat (length (List.filter
    (fun r => text_ge (sql_text (reported_at r)) (isoformat week_start))
    (reports st))).

Definition create_archive_snapshot (st : State) (week_start week_end : Z) : State :=
  let pixels :=
    List.map (fun kv : Z * Z * Pixel =>
                mkSnapshotPixel (fst (fst kv)) (snd (fst kv)) (color (snd kv))
                                (owner_id (snd kv)) (is_ad (snd kv)))
             (map_to_list (pixels st)) in
  let in_week :=
    List.filter (fun p => text_ge (sql_text (placed_at p)) (isoformat week_start)
                          && text_lt (sql_text (placed_at p)) (isoformat week_end))
                (placements st) in
  let total_placements := Z.of_nat (length in_week) in
  let unique_contributors :=
    Z.of_nat (size (list_to_set (List.map p_user_id in_week) : gset Z)) in
  set_archives (fun a => a ++ [mkArchive week_start week_end pixels
                                        total_placements unique_contributors]) st.

Definition check_and_reset_week (now : Z) (st : State) : bool * State :=
  let week_start := get_week_start st in
  if days 7 <=? now - week_start then
    let st := create_archive_snapshot st week_start now in
    let st := set_pixels (fmap (with_cost_level 0)) st in
    let st := set_users (fmap (with_undo_escalation_count (fun _ => 0))) st in
    let st := set_week_start (sqlite_datetime_now now) st in
    let st := set_current_cap INITIAL_CAP_CREDITS st in
    let st := set_board_frozen false st in
    (true, st)
  else (false, st).

(** The placement counts the source also queries here decide nothing and
    are left out. *)
Definition is_free_placement_eligible (now : Z) (st : State) (user_id : Z)
  : bool * option string :=
  let last_placement := get_last_placement_time st in
  let inactive_seconds := now - last_placement in
  let by_inactivity :=
    if seconds INACTIVITY_THRESHOLD_SECONDS <=? inactive_seconds then
      match users st !! user_id with
      | Some row => lifetime_paid_placements row <=? FREE_ELIGIBILITY_MAX_PAID
      | None => false
      end
    else false in
  if by_inactivity then (true, Some "inactivity"%string)
  else
    let week_end := get_week_start st + days 7 in
    let time_remaining := week_end - now in
    let by_end_of_week :=
      if time_remaining <? seconds 21600 then
        match users st !! user_id with
        | Some row => lifetime_paid_placements row <=? FREE_ELIGIBILITY_MAX_PAID
        | None => false
        end
      else false in
    if by_end_of_week then (true, Some "end_of_week"%string)
    else (false, None).

(** [int(cost * (1 - AD_OVERWRITE_DISCOUNT))] *)
Definition ad_discounted (cost : Z) : option Z :=
  bind_opt (Float64.int_sub 1 AD_OVERWRITE_DISCOUNT) (fun f =>
  bind_opt (Float64.int_mul cost f) Float64.to_int).

Definition calculate_pixel_cost (st : State) (x y : Z) : option Z :=
  let row := pixels st !! (x, y) in
  let cost_level := match row with Some p => cost_level p | None => 0 end in
  let is_ad := match row with Some p => is_ad p | None => false end in
  let base_cost := BASE_COST_CREDITS in
  let cost := base_cost + cost_level * COST_INCREMENT_CREDITS / 1000 in
  bind_opt (if is_ad then ad_discounted cost else Some cost) (fun cost =>
  let current_cap := get_current_cap st in
  Some (Z.min cost current_cap)).

Definition update_dynamic_cap (st : State) : State :=
  let current_cap := get_current_cap st in
  if current_cap =? INITIAL_CAP_CREDITS then
    let count :=
      Z.of_nat (length (List.filter
        (fun kv : Z * Z * Pixel =>
           current_cap / COST_INCREMENT_CREDITS * 1000 <=? cost_level (snd kv))
        (map_to_list (pixels st)))) in
    if CAP_TRIGGER_COUNT <=? count then set_current_cap LOWER_CAP_CREDITS st
    else st
  else st.

(** [int(original_cost * (UNDO_BASE_PERCENT + undo_count * UNDO_INCREMENT_PERCENT))] *)
Definition undo_cost_of (original_cost undo_count : Z) : option Z :=
  bind_opt (Float64.int_mul undo_count UNDO_INCREMENT_PERCENT) (fun t =>
  bind_opt (Float64.int_mul original_cost (Float64.add UNDO_BASE_PERCENT t))
           Float64.to_int).

(** ** Endpoints

    Each endpoint maps the state before the request to the state the
    database is left in and the response.  A raised [HTTPException] rolls
    back the open transaction; what [check_and_reset_week] committed
    before stays. *)

Definition truthy (s : option string) : bool :=
  match s with
  | Some EmptyString => false
  | Some _ => true
  | None => false
  end.

Definition place_pixel (now : Z) (request : PlacePixelRequest) (st : State)
  : State * Outcome PlacePixelResponse :=
  if is_board_frozen st then (st, HTTPException 403 BoardFrozenDueToReports)
  else
    let st := snd (check_and_reset_week now st) in
    match users st !! user_id request with
    | None => (st, HTTPException 404 UserNotFound)
    | Some _ =>
      let last_time := default 0 (user_last_placement st !! user_id request) in
      if now - last_time <? seconds RATE_LIMIT_SECONDS
      then (st, HTTPException 429 RateLimit)
      else
        let st := set_user_last_placement (insert (user_id request) now) st in
        let '(is_free, free_reason) :=
          is_free_placement_eligible now st (user_id request) in
        match (if is_free then Some 0
               else calculate_pixel_cost st (x request) (y request)),
              users st !! user_id request with
        | None, _ | _, None => (st, Uncaught)
        | Some cost, Some user_row =>
          let user_credits := credits user_row in
          if negb is_free && (user_credits <? cost)
          then (st, HTTPException 402 (InsufficientCredits cost user_credits))
          else
            let existing_pixel := pixels st !! (x request, y request) in
            let previous_color := color <$> existing_pixel in
            let previous_owner := existing_pixel ≫= owner_id in
            let previous_is_ad :=
              match existing_pixel with Some p => is_ad p | None => false end in
            let new_cost_level :=
              match existing_pixel with Some p => cost_level p | None => 0 end
              + COST_INCREMENT_CREDITS in
            let st :=
              if previous_is_ad && negb (req_is_ad request)
              then set_users (alter (with_ad_violation_count (fun n => n + 1))
                                    (user_id request)) st
              else st in
            let st :=
              if negb is_free
              then set_users
                     (alter (fun u => with_lifetime_paid_placements (fun n => n + 1)
                                        (with_credits (fun c => c - cost) u))
                            (user_id request)) st
              else st in
            let new_balance :=
              if negb is_free then user_credits - cost else user_credits in
            let st :=
              set_pixels
                (insert (x request, y request)
                        (mkPixel (req_color request) new_cost_level
                                 (Some (user_id request)) (req_is_ad request)
                                 (sqlite_datetime_now now))) st in
            let placement_id := Z.of_nat (length (placements st)) + 1 in
            let st :=
              set_placements
                (fun log => log ++
                   [mkPlacement (user_id request) (x request) (y request)
                                (req_color request) cost is_free (req_is_ad request)
                                true previous_color previous_owner
                                (sqlite_datetime_now now)]) st in
            let st := set_last_placement (sqlite_datetime_now now) st in
            let st := update_dynamic_cap st in
            let message :=
              match is_free, free_reason with
              | true, Some r => ("Pixel placed (free: " ++ r ++ ")")%string
              | true, None => "Pixel placed (free: None)"%string
              | false, _ => "Pixel placed"%string
              end in
            (st, Ok (mkPlacePixelResponse cost is_free new_balance message
                                          placement_id))
        end
    end.

Definition undo_placement (now : Z) (placement_id user_id : Z) (st : State)
  : State * Outcome UndoResponse :=
  if is_board_frozen st then (st, HTTPException 403 BoardFrozen)
  else
    match lookup_placement placement_id (placements st) with
    | None => (st, HTTPException 404 PlacementNotFound)
    | Some placement =>
      if negb (p_user_id placement =? user_id)
      then (st, HTTPException 403 NotYourPlacement)
      else if negb (can_undo placement)
      then (st, HTTPException 400 CannotUndoThisPlacement)
      else if seconds UNDO_WINDOW_SECONDS <? now - placed_at placement
      then (st, HTTPException 400 UndoWindowExpired)
      else
        match users st !! user_id with
        | None => (st, HTTPException 404 UserNotFound)
        | Some user_row =>
          let user_credits := credits user_row in
          let undo_count := undo_escalation_count user_row in
          let original_cost := p_cost placement in
          match undo_cost_of original_cost undo_count with
          | None => (st, Uncaught)
          | Some undo_cost =>
            if user_credits <? undo_cost
            then (st, HTTPException 402 (InsufficientCreditsForUndo undo_cost))
            else
              let st :=
                set_users
                  (alter (fun u => with_undo_escalation_count (fun n => n + 1)
                                     (with_credits (fun c => c - undo_cost) u))
                         user_id) st in
              let new_balance := user_credits - undo_cost in
              let xy := (p_x placement, p_y placement) in
              let previous_color := previous_color placement in
              let previous_owner := previous_owner_id placement in
              let st :=
                if truthy previous_color
                then set_pixels
                       (alter (fun p => mkPixel (default EmptyString previous_color)
                                                (cost_level p) previous_owner
                                                (is_ad p) (sqlite_datetime_now now))
                              xy) st
                else set_pixels (delete xy) st in
              let st :=
                set_placements
                  (alter (with_can_undo false) (Z.to_nat (placement_id - 1))) st in
              (st, Ok (mkUndoResponse undo_cost new_balance))
          end
        end
    end.

Definition report_pixel (now : Z) (user_id x y : Z) (reason : string) (st : State)
  : State * Outcome ReportResponse :=
  if negb ((0 <=? x) && (x <? BOARD_SIZE) && (0 <=? y) && (y <? BOARD_SIZE))
  then (st, HTTPException 400 InvalidCoordinates)
  else
    match users st !! user_id with
    | None => (st, HTTPException 404 UserNotFound)
    | Some _ =>
      let st :=
        set_reports
          (fun rs => rs ++ [mkReport user_id x y reason (sqlite_datetime_now now)])
          st in
      let report_count := count_week_reports st in
      if (REPORT_FREEZE_THRESHOLD <=? report_count) && negb (is_board_frozen st)
      then (set_board_frozen true st, Ok (mkReportResponse true report_count))
      else (st, Ok (mkReportResponse false report_count))
    end.

(** [GET /board]: the lazy week check, then a read. *)
Definition get_board (now : Z) (st : State) : State * list (Z * Z * Pixel) :=
  let st := snd (check_and_reset_week now st) in
  (st, map_to_list (pixels st)).

(** ** The two clocks of a request

    [datetime.now()] is the naive local time of the host, while SQLite's
    [datetime('now')] and Python's [time.time()] are UTC.  The
    endpoints above are the program on a host whose local time is UTC.
    [Host] has the same code with the two readings apart: what the
    source takes from [datetime.now()] is [local_now], what it stores
    with [datetime('now')] or takes from [time.time()] is [utc_now]. *)

Record Clock := mkClock {
  local_now : Z;
  utc_now : Z
}.

Module Host.

Definition check_and_reset_week (c : Clock) (st : State) : bool * State :=
  let week_start := get_week_start st in
  let now := local_now c in
  if days 7 <=? now - week_start then
    let st := create_archive_snapshot st week_start now in
    let st := set_pixels (fmap (with_cost_level 0)) st in
    let st := set_users (fmap (with_undo_escalation_count (fun _ => 0))) st in
    let st := set_week_start (sqlite_datetime_now (utc_now c)) st in
    let st := set_current_cap INITIAL_CAP_CREDITS st in
    let st := set_board_frozen false st in
    (true, st)
  else (false, st).

Definition place_pixel (c : Clock) (request : PlacePixelRequest) (st : State)
  : State * Outcome PlacePixelResponse :=
  if is_board_frozen st then (st, HTTPException 403 BoardFrozenDueToReports)
  else
    let st := snd (check_and_reset_week c st) in
    match users st !! user_id request with
    | None => (st, HTTPException 404 UserNotFound)
    | Some _ =>
      let now := utc_now c in
      let last_time := default 0 (user_last_placement st !! user_id request) in
      if now - last_time <? seconds RATE_LIMIT_SECONDS
      then (st, HTTPException 429 RateLimit)
      else
        let st := set_user_last_placement (insert (user_id request) now) st in
        let '(is_free, free_reason) :=
          is_free_placement_eligible (local_now c) st (user_id request) in
        match (if is_free then Some 0
               else calculate_pixel_cost st (x request) (y request)),
              users st !! user_id request with
        | None, _ | _, None => (st, Uncaught)
        | Some cost, Some user_row =>
          let user_credits := credits user_row in
          if negb is_free && (user_credits <? cost)
          then (st, HTTPException 402 (InsufficientCredits cost user_credits))
          else
            let existing_pixel := pixels st !! (x request, y request) in
            let previous_color := color <$> existing_pixel in
            let previous_owner := existing_pixel ≫= owner_id in
            let previous_is_ad :=
              match existing_pixel with Some p => is_ad p | None => false end in
            let new_cost_level :=
              match existing_pixel with Some p => cost_level p | None => 0 end
              + COST_INCREMENT_CREDITS in
            let st :=
              if previous_is_ad && negb (req_is_ad request)
              then set_users (alter (with_ad_violation_count (fun n => n + 1))
                                    (user_id request)) st
              else st in
            let st :=
              if negb is_free
              then set_users
                     (alter (fun u => with_lifetime_paid_placements (fun n => n + 1)
                                        (with_credits (fun c => c - cost) u))
                            (user_id request)) st
              else st in
            let new_balance :=
              if negb is_free then user_credits - cost else user_credits in
            let st :=
              set_pixels
                (insert (x request, y request)
                        (mkPixel (req_color request) new_cost_level
                                 (Some (user_id request)) (req_is_ad request)
                                 (sqlite_datetime_now (utc_now c)))) st in
            let placement_id := Z.of_nat (length (placements st)) + 1 in
            let st :=
              set_placements
                (fun log => log ++
                   [mkPlacement (user_id request) (x request) (y request)
                                (req_color request) cost is_free (req_is_ad request)
                                true previous_color previous_owner
                                (sqlite_datetime_now (utc_now c))]) st in
            let st := set_last_placement (sqlite_datetime_now (utc_now c)) st in
            let st := update_dynamic_cap st in
            let message :=
              match is_free, free_reason with
              | true, Some r => ("Pixel placed (free: " ++ r ++ ")")%string
              | true, None => "Pixel placed (free: None)"%string
              | false, _ => "Pixel placed"%string
              end in
            (st, Ok (mkPlacePixelResponse cost is_free new_balance message
                                          placement_id))
        end
    end.

Definition undo_placement (c : Clock) (placement_id user_id : Z) (st : State)
  : State * Outcome UndoResponse :=
  if is_board_frozen st then (st, HTTPException 403 BoardFrozen)
  else
    match lookup_placement placement_id (placements st) with
    | None => (st, HTTPException 404 PlacementNotFound)
    | Some placement =>
      if negb (p_user_id placement =? user_id)
      then (st, HTTPException 403 NotYourPlacement)
      else if negb (can_undo placement)
      then (st, HTTPException 400 CannotUndoThisPlacement)
      else if seconds UNDO_WINDOW_SECONDS <? local_now c - placed_at placement
      then (st, HTTPException 400 UndoWindowExpired)
      else
        match users st !! user_id with
        | None => (st, HTTPException 404 UserNotFound)
        | Some user_row =>
          let user_credits := credits user_row in
          let undo_count := undo_escalation_count user_row in
          let original_cost := p_cost placement in
          match undo_cost_of original_cost undo_count with
          | None => (st, Uncaught)
          | Some undo_cost =>
            if user_credits <? undo_cost
            then (st, HTTPException 402 (InsufficientCreditsForUndo undo_cost))
            else
              let st :=
                set_users
                  (alter (fun u => with_undo_escalation_count (fun n => n + 1)
                                     (with_credits (fun c => c - undo_cost) u))
                         user_id) st in
              let new_balance := user_credits - undo_cost in
              let xy := (p_x placement, p_y placement) in
              let previous_color := previous_color placement in
              let previous_owner := previous_owner_id placement in
              let st :=
                if truthy previous_color
                then set_pixels
                       (alter (fun p => mkPixel (default EmptyString previous_color)
                                                (cost_level p) previous_owner
                                                (is_ad p)
                                                (sqlite_datetime_now (utc_now c)))
                              xy) st
                else set_pixels (delete xy) st in
              let st :=
                set_placements
                  (alter (with_can_undo false) (Z.to_nat (placement_id - 1))) st in
              (st, Ok (mkUndoResponse undo_cost new_balance))
          end
        end
    end.

(** [GET /board]: the lazy week check, then a read. *)
Definition get_board (c : Clock) (st : State) : State * list (Z * Z * Pixel) :=
  let st := snd (check_and_reset_week c st) in
  (st, map_to_list (pixels st)).

End Host.

(** ** Runs of placement requests *)

(** The escalation level a cell is priced with: [cost_level] of its row,
    0 when the cell has none. *)
Definition level_of (st : State) (cx cy : Z) : Z :=
  match pixels st !! (cx, cy) with
  | Some p => cost_level p
  | None => 0
  end.

Definition ad_flag_of (st : State) (cx cy : Z) : bool :=
  match pixels st !! (cx, cy) with
  | Some p => is_ad p
  | None => false
  end.

(** The placement cost in the specification's words: base cost 1000 plus
    the integer truncation of [level * 1000 / 1000]; times 0.9, truncated
    toward zero, over an ad; at most the cap.  To be compared with
    [calculate_pixel_cost]. *)
Definition spec_placement_cost (level : Z) (ad : bool) (cap : Z) : Z :=
  let cost := 1000 + Z.quot (level * 1000) 1000 in
  let cost := if ad then Z.quot (cost * 9) 10 else cost in
  Z.min cost cap.

(** Requests served one after the other, each at its own clock reading. *)
Fixpoint place_all (events : list (Z * PlacePixelRequest)) (st : State) : State :=
  match events with
  | [] => st
  | (now, request) :: rest => place_all rest (fst (place_pixel now request st))
  end.

Definition committed_on_cell (cx cy : Z) (request : PlacePixelRequest)
                             (r : Outcome PlacePixelResponse) : Z :=
  match r with
  | Ok _ => if (x request =? cx) && (y request =? cy) then 1 else 0
  | _ => 0
  end.

(** How many of the requests were committed on the cell [(cx, cy)]. *)
Fixpoint committed_placements (cx cy : Z) (events : list (Z * PlacePixelRequest))
                              (st : State) : Z :=
  match events with
  | [] => 0
  | (now, request) :: rest =>
      committed_on_cell cx cy request (snd (place_pixel now request st))
      + committed_placements cx cy rest (fst (place_pixel now request st))
  end.

Definition balance (st : State) (user_id : Z) : option Z :=
  credits <$> users st !! user_id.

Definition balances_nonneg (st : State) : Prop :=
  forall uid u, users st !! uid = Some u -> 0 <= credits u.

(** ** Vocabulary of the proofs *)

(** Rounding a mantissa: what [k] shifts to the right make of [M], the
    float a rounded 53-bit mantissa denotes, and floats of a given sign,
    mantissa and exponent range. *)
Module Rounding.
Import Float64.

Definition shifted (M k : Z) (mrs : shr_record) : Prop :=
  shr_m mrs = M / 2 ^ k /\
  (M mod 2 ^ k = 0 -> shr_r mrs = false /\ shr_s mrs = false).

(** The result of rounding to [m2] at exponent [e]; [m2 = 2^53] carries
    into the next exponent. *)
Definition rounded (sx : bool) (m2 e : Z) : float :=
  if m2 <? 2 ^ 53 then S754_finite sx (Z.to_pos m2) e
  else S754_finite sx (Z.to_pos (2 ^ 52)) (e + 1).

(** A float with a full 53-bit mantissa [m] and exponent [e]. *)
Definition finite_with (f : float) (s : bool) (m e : Z) : Prop :=
  exists p, f = S754_finite s p e /\ Zpos p = m.

(** A positive float with a full mantissa and an exponent in [lo, hi]. *)
Definition normal_pos (f : float) (lo hi : Z) : Prop :=
  exists p e, f = S754_finite false p e /\ 2 ^ 52 <= Zpos p < 2 ^ 53 /\ lo <= e <= hi.

(** [0.9] as a double is [(9 * 2^53 + 2) / 10] in units of [2^-53]. *)
Definition NINE_TENTHS : Z := 8106479329266893.

End Rounding.

(** The per-user ceiling both free triggers share. *)
Definition under_ceiling (st : State) (uid : Z) : bool :=
  match users st !! uid with
  | Some row => lifetime_paid_placements row <=? FREE_ELIGIBILITY_MAX_PAID
  | None => false
  end.

(** The users table after the writes of a committed placement. *)
Definition users_after_placement (request : PlacePixelRequest) (is_free : bool)
                                 (cost : Z) (st : State) : gmap Z User :=
  let previous_is_ad :=
    match pixels st !! (x request, y request) with
    | Some p => is_ad p
    | None => false
    end in
  let us :=
    if previous_is_ad && negb (req_is_ad request)
    then alter (with_ad_violation_count (fun n => n + 1)) (user_id request) (users st)
    else users st in
  if is_free then us
  else alter (fun u => with_lifetime_paid_placements (fun n => n + 1)
                         (with_credits (fun c => c - cost) u))
             (user_id request) us.

(** The pixels table after the writes of a successful undo. *)
Definition pixels_after_undo (now : Z) (placement : Placement)
                             (px : gmap (Z * Z) Pixel) : gmap (Z * Z) Pixel :=
  if truthy (previous_color placement)
  then alter (fun p => mkPixel (default EmptyString (previous_color placement))
                               (cost_level p) (previous_owner_id placement)
                               (is_ad p) (sqlite_datetime_now now))
             (p_x placement, p_y placement) px
  else delete (p_x placement, p_y placement) px.

(** The state a successful undo leaves. *)
Definition undone_state (now : Z) (placement_id user_id undo_cost : Z)
                        (placement : Placement) (st : State) : State :=
  mkState (alter (fun u => with_undo_escalation_count (fun n => n + 1)
                             (with_credits (fun c => c - undo_cost) u))
                 user_id (users st))
          (pixels_after_undo now placement (pixels st))
          (alter (with_can_undo false) (Z.to_nat (placement_id - 1)) (placements st))
          (reports st) (archives st) (week_start st) (last_placement st)
          (current_cap st) (board_frozen st) (user_last_placement st).

(** The two values the cap takes. *)
Definition cap_in_range (st : State) : Prop :=
  current_cap st = INITIAL_CAP_CREDITS \/ current_cap st = LOWER_CAP_CREDITS.

(** The calendar day of a timestamp. *)
Definition day_of (t : Z) : Z := t / days 1.

(** ** Accounts, the shop and the monthly vote

    The endpoints around the engine.  A row of [users] is its [User]
    part in [users] and its [Profile] part in [profiles], under the same
    id; placements, archives, users, purchases and votes are never
    deleted, so an AUTOINCREMENT id is one more than the largest id in
    use.  Columns that no query reads ([voted_at], the [created_at] of a
    purchase) are left out.  The details of the exceptions of these
    endpoints are carried as the texts of the source. *)

Inductive Reply (A : Type) :=
| Reply_ok (a : A)
| Reply_error (status_code : Z) (detail : string)
| Reply_uncaught.
Arguments Reply_ok {A} a.
Arguments Reply_error {A} status_code detail.
Arguments Reply_uncaught {A}.

Record Profile := mkProfile {
  username : string;
  last_reward_month : option (Z * Z);
  created_at : Z
}.

Record Purchase := mkPurchase {
  purchase_user_id : Z;
  stripe_session_id : string;
  stripe_payment_intent_id : option string;
  amount_cents : Z;
  credits_purchased : Z;
  status : string;
  completed_at : option Z
}.

Record Vote := mkVote {
  vote_user_id : Z;
  vote_archive_id : Z;
  vote_month : Z;
  vote_year : Z
}.

Record Site := mkSite {
  db : State;
  profiles : gmap Z Profile;
  purchases : list Purchase;
  votes : list Vote
}.

Definition set_db (f : State -> State) (s : Site) : Site :=
  mkSite (f (db s)) (profiles s) (purchases s) (votes s).
Definition set_profiles (f : gmap Z Profile -> gmap Z Profile) (s : Site) : Site :=
  mkSite (db s) (f (profiles s)) (purchases s) (votes s).
Definition set_purchases (f : list Purchase -> list Purchase) (s : Site) : Site :=
  mkSite (db s) (profiles s) (f (purchases s)) (votes s).
Definition set_votes (f : list Vote -> list Vote) (s : Site) : Site :=
  mkSite (db s) (profiles s) (purchases s) (f (votes s)).

Definition with_last_reward_month (r : option (Z * Z)) (p : Profile) : Profile :=
  mkProfile (username p) r (created_at p).

(** [SELECT ... FROM users WHERE id = ?] *)
Definition user_row (s : Site) (user_id : Z) : option (User * Profile) :=
  match users (db s) !! user_id, profiles s !! user_id with
  | Some u, Some p => Some (u, p)
  | _, _ => None
  end.

(** Every row of [users] has both its parts. *)
Definition rows_agree (s : Site) : Prop :=
  forall id, users (db s) !! id = None <-> profiles s !! id = None.

(** The UNIQUE constraint on [username], as a property of the table. *)
Definition usernames_unique (s : Site) : Prop :=
  forall i j p q,
    profiles s !! i = Some p -> profiles s !! j = Some q ->
    username p = username q -> i = j.

(** The id AUTOINCREMENT gives the next row of [users]. *)
Definition next_user_id (s : Site) : Z :=
  foldr Z.max 0 (fst <$> map_to_list (users (db s))) + 1.

(** *** Users *)

Record UserInfo := mkUserInfo {
  info_id : Z;
  info_username : string;
  info_credits : Z;
  info_lifetime_paid_placements : Z;
  info_created_at : Z
}.

Definition get_user (user_id : Z) (s : Site) : Reply UserInfo :=
  match user_row s user_id with
  | None => Reply_error 404 "User not found"
  | Some (u, p) =>
      Reply_ok (mkUserInfo user_id (username p) (credits u)
                           (lifetime_paid_placements u) (created_at p))
  end.

Record CreateUserResponse := mkCreateUserResponse {
  created_user_id : Z;
  created_username : string;
  created_credits : Z
}.

(** The UNIQUE constraint on [username]: the INSERT raises
    [sqlite3.IntegrityError] when a row holds the name. *)
Definition username_taken (name : string) (s : Site) : bool :=
  existsb (fun kv : Z * Profile => String.eqb (username (snd kv)) name)
          (map_to_list (profiles s)).

Definition create_user (now : Z) (username : string) (initial_credits : Z) (s : Site)
  : Site * Reply CreateUserResponse :=
  if username_taken username s
  then (s, Reply_error 400 "Username already exists")
  else
    let user_id := next_user_id s in
    let s := set_db (set_users (insert user_id (mkUser initial_credits 0 0 0))) s in
    let s :=
      set_profiles (insert user_id (mkProfile username None (sqlite_datetime_now now)))
                   s in
    (s, Reply_ok (mkCreateUserResponse user_id username initial_credits)).

(** *** Buying credits

    The two calls into the Stripe library are outside the program: the
    session [stripe.checkout.Session.create] returns or the
    [StripeError] it raises, and the event [stripe.Webhook.construct_event]
    verifies or the exception it raises, are parameters. *)

Record Package := mkPackage {
  package_credits : Z;
  package_price : Z;
  package_name : string
}.

Definition CREDIT_PACKAGES : list (string * Package) :=
  [("small"%string, mkPackage 50000 500 "$5 - 50k credits");
   ("medium"%string, mkPackage 110000 1000 "$10 - 110k credits");
   ("large"%string, mkPackage 250000 2000 "$20 - 250k credits")].

Fixpoint dict_get {A} (d : list (string * A)) (k : string) : option A :=
  match d with
  | [] => None
  | (k', v) :: d' => if String.eqb k' k then Some v else dict_get d' k
  end.

Inductive CheckoutSession :=
| SessionCreated (id url : string)
| StripeError (message : string).

Record CheckoutResponse := mkCheckoutResponse {
  checkout_url : string;
  session_id : string
}.

(** [SELECT ... FROM purchases WHERE stripe_session_id = ?]: the row and
    its position. *)
Definition find_purchase (sid : string) (log : list Purchase)
  : option (nat * Purchase) :=
  list_find (fun p => stripe_session_id p = sid) log.

Definition create_checkout_session (STRIPE_SECRET_KEY : string)
    (checkout_session : CheckoutSession) (user_id : Z) (package : string) (s : Site)
  : Site * Reply CheckoutResponse :=
  if String.eqb STRIPE_SECRET_KEY ""
  then (s, Reply_error 500 "Stripe not configured")
  else
    match dict_get CREDIT_PACKAGES package with
    | None => (s, Reply_error 400 "Invalid package")
    | Some package_info =>
      match users (db s) !! user_id with
      | None => (s, Reply_error 404 "User not found")
      | Some _ =>
        match checkout_session with
        | StripeError e => (s, Reply_error 500 e)
        | SessionCreated id url =>
          (* stripe_session_id is UNIQUE; an IntegrityError is not a StripeError *)
          match find_purchase id (purchases s) with
          | Some _ => (s, Reply_uncaught)
          | None =>
            let s :=
              set_purchases
                (fun log => log ++
                   [mkPurchase user_id id None (package_price package_info)
                               (package_credits package_info) "pending" None]) s in
            (s, Reply_ok (mkCheckoutResponse url id))
          end
        end
      end
    end.

Inductive WebhookEvent :=
| InvalidPayload
| InvalidSignature
| Event (event_type : string) (id : string) (payment_intent : option string).

Definition complete_purchase (payment_intent : option string) (now : Z) (p : Purchase)
  : Purchase :=
  mkPurchase (purchase_user_id p) (stripe_session_id p) payment_intent
             (amount_cents p) (credits_purchased p) "completed"
             (Some (sqlite_datetime_now now)).

Definition stripe_webhook (STRIPE_WEBHOOK_SECRET : string) (now : Z)
    (event : WebhookEvent) (s : Site) : Site * Reply string :=
  if String.eqb STRIPE_WEBHOOK_SECRET ""
  then (s, Reply_error 500 "Webhook secret not configured")
  else
    match event with
    | InvalidPayload => (s, Reply_error 400 "Invalid payload")
    | InvalidSignature => (s, Reply_error 400 "Invalid signature")
    | Event event_type id payment_intent =>
      if String.eqb event_type "checkout.session.completed" then
        match find_purchase id (purchases s) with
        | Some (purchase_id, purchase) =>
          let user_id := purchase_user_id purchase in
          let credits := credits_purchased purchase in
          let s := set_db (set_users (alter (with_credits (fun c => c + credits))
                                            user_id)) s in
          let s := set_purchases (alter (complete_purchase payment_intent now)
                                        purchase_id) s in
          (s, Reply_ok "success"%string)
        | None => (s, Reply_ok "success"%string)
        end
      else (s, Reply_ok "success"%string)
    end.

(** Deliveries of one event, one after the other. *)
Fixpoint deliver (secret : string) (now : Z) (event : WebhookEvent) (n : nat) (s : Site)
  : Site :=
  match n with
  | O => s
  | S n' => deliver secret now event n' (fst (stripe_webhook secret now event s))
  end.

(** *** The calendar

    [datetime.year] and [datetime.month] of a timestamp: the civil date
    of its day, the days counted from 1970-01-01. *)
Definition civil_from_days (z : Z) : Z * Z * Z :=
  let z := z + 719468 in
  let era := z / 146097 in
  let doe := z - era * 146097 in
  let yoe := (doe - doe / 1460 + doe / 36524 - doe / 146096) / 365 in
  let y := yoe + era * 400 in
  let doy := doe - (365 * yoe + yoe / 4 - yoe / 100) in
  let mp := (5 * doy + 2) / 153 in
  let d := doy - (153 * mp + 2) / 5 + 1 in
  let m := if mp <? 10 then mp + 3 else mp - 9 in
  (if m <=? 2 then y + 1 else y, m, d).

Definition year_of (t : Z) : Z := fst (fst (civil_from_days (t / days 1))).
Definition month_of (t : Z) : Z := snd (fst (civil_from_days (t / days 1))).

(** *** Voting *)

Definition lookup_archive (id : Z) (log : list Archive) : option Archive :=
  if id <? 1 then None else log !! Z.to_nat (id - 1).

(** The UNIQUE(user_id, month, year) constraint of [votes], as a
    property of the table. *)
Definition votes_unique (log : list Vote) : Prop :=
  forall i j v w,
    log !! i = Some v -> log !! j = Some w ->
    vote_user_id v = vote_user_id w -> vote_month v = vote_month w ->
    vote_year v = vote_year w -> i = j.

(** The UNIQUE(user_id, month, year) constraint of [votes]. *)
Definition already_voted (user_id month year : Z) (log : list Vote) : bool :=
  existsb (fun v => (vote_user_id v =? user_id) && (vote_month v =? month)
                    && (vote_year v =? year)) log.

Definition vote_for_archive (user_id archive_id : Z) (s : Site)
  : Site * Reply string :=
  match users (db s) !! user_id with
  | None => (s, Reply_error 404 "User not found")
  | Some _ =>
    match lookup_archive archive_id (archives (db s)) with
    | None => (s, Reply_error 404 "Archive not found")
    | Some archive =>
      let week_end := a_week_end archive in
      let month := month_of week_end in
      let year := year_of week_end in
      if already_voted user_id month year (votes s)
      then (s, Reply_error 400 "Already voted this month")
      else (set_votes (fun log => log ++ [mkVote user_id archive_id month year]) s,
            Reply_ok "Vote recorded"%string)
    end
  end.

Record ArchiveInfo := mkArchiveInfo {
  archive_info_id : Z;
  archive_week_start : Z;
  archive_week_end : Z;
  archive_pixels : list SnapshotPixel;
  archive_total_placements : Z;
  archive_unique_contributors : Z;
  archive_votes : Z
}.

Definition count_votes (archive_id : Z) (log : list Vote) : Z :=
  Z.of_nat (length (List.filter (fun v => vote_archive_id v =? archive_id) log)).

Definition get_archive (archive_id : Z) (s : Site) : Reply ArchiveInfo :=
  match lookup_archive archive_id (archives (db s)) with
  | None => Reply_error 404 "Archive not found"
  | Some row =>
      let vote_count := count_votes archive_id (votes s) in
      Reply_ok (mkArchiveInfo archive_id (a_week_start row) (a_week_end row)
                              (snapshot_data row) (total_placements row)
                              (unique_contributors row) vote_count)
  end.

(** *** The monthly winner

    The two queries of [get_monthly_winner] end in [ORDER BY ... DESC
    LIMIT 1], which leaves the choice among equals to SQLite: the rows
    they return, [winner_row] and [top_contributor], are parameters. *)

Record WinnerRow := mkWinnerRow {
  winner_archive_id : Z;
  winner_week_start : Z;
  winner_week_end : Z;
  winner_vote_count : Z
}.

Inductive MonthlyWinner :=
| NoVotesYet
| NoPaidPlacements (archive_id votes : Z)
| Winner (archive_id votes user_id : Z) (username : string) (placements : Z)
         (reward_given : bool) (reward_amount : Z) (cooldown_active : bool).

(** [map(int, last_reward.split('-'))] of the key
    [f"{year}-{month:02d}"]: a minus sign in either number yields an
    empty field, on which [int] raises [ValueError]. *)
Definition parse_reward_key (key : Z * Z) : option (Z * Z) :=
  if (0 <=? fst key) && (0 <=? snd key) then Some key else None.

Definition get_monthly_winner (year month : Z) (winner_row : option WinnerRow)
    (top_contributor : option (Z * Z)) (s : Site) : Site * Reply MonthlyWinner :=
  match winner_row with
  | None => (s, Reply_ok NoVotesYet)
  | Some winner_row =>
    if winner_vote_count winner_row =? 0 then (s, Reply_ok NoVotesYet)
    else
      let archive_id := winner_archive_id winner_row in
      let vote_count := winner_vote_count winner_row in
      match top_contributor with
      | None => (s, Reply_ok (NoPaidPlacements archive_id vote_count))
      | Some (winner_user_id, placements) =>
        match user_row s winner_user_id with
        | None => (s, Reply_uncaught)
        | Some (_, user_row) =>
          let username := username user_row in
          let last_reward := last_reward_month user_row in
          let reward_key := (year, month) in
          let can_receive_reward :=
            match last_reward with
            | None => Some true
            | Some key =>
                match parse_reward_key key with
                | None => None
                | Some (last_year, last_month) =>
                    let months_diff := (year - last_year) * 12 + (month - last_month) in
                    Some (negb (months_diff <? 6))
                end
            end in
          match can_receive_reward with
          | None => (s, Reply_uncaught)
          | Some can_receive_reward =>
            let reward_amount := 100000 in
            let s :=
              if can_receive_reward
              then set_profiles (alter (with_last_reward_month (Some reward_key))
                                       winner_user_id)
                     (set_db (set_users (alter (with_credits (fun c => c + reward_amount))
                                               winner_user_id)) s)
              else s in
            let reward_given := can_receive_reward in
            (s, Reply_ok (Winner archive_id vote_count winner_user_id username placements
                                 reward_given
                                 (if reward_given then reward_amount else 0)
                                 (negb can_receive_reward)))
          end
        end
      end
  end.

(** ** Example states *)

Module Examples.

(** A fresh cycle started at [t0] with one user holding 5000 credits. *)
Definition t0 : Z := 1700000000 * MICROS.

Definition alice : User := mkUser 5000 0 0 0.

Definition fresh : State :=
  mkState {[ 1 := alice ]} ∅ [] [] [] t0 t0 INITIAL_CAP_CREDITS false ∅.

Definition white_at_3_4 : PlacePixelRequest :=
  mkPlacePixelRequest 1 3 4 "#ffffff" false.

(** The cell (3, 4) already painted once by user 2. *)
Definition painted : State :=
  mkState {[ 1 := alice; 2 := mkUser 0 1 0 0 ]}
          {[ (3, 4) := mkPixel "#000000" 1000 (Some 2) false t0 ]}
          [mkPlacement 2 3 4 "#000000" 1000 false false true None None t0]
          [] [] t0 t0 INITIAL_CAP_CREDITS false ∅.

(** A cell whose level puts the price at [2^53] before the discount, an
    ad, under a cap that does not bind. *)
Definition huge_level : State :=
  mkState ∅ {[ (0, 0) := mkPixel "#000000" (2 ^ 53 - 1000) None true t0 ]}
          [] [] [] t0 t0 (10 ^ 16) false ∅.

(** An ad at level 5000 under the initial cap. *)
Definition ad_cell : State :=
  mkState ∅ {[ (0, 0) := mkPixel "#000000" 5000 None true t0 ]}
          [] [] [] t0 t0 INITIAL_CAP_CREDITS false ∅.

(** The last placement was exactly 1800 seconds before [t0 + 1800 s]. *)
Definition half_hour_later : Z := t0 + seconds 1800.

(** 2499 reports filed one second after the cycle started, on its first
    calendar day. *)
Definition first_day_report : Report :=
  mkReport 1 0 0 "" (t0 + seconds 1).

Definition almost_frozen : State :=
  mkState {[ 1 := alice ]} ∅ [] (repeat first_day_report 2499) []
          t0 t0 INITIAL_CAP_CREDITS false ∅.

(** The same 2499 reports, filed on the day after. *)
Definition next_day_report : Report :=
  mkReport 1 0 0 "" (t0 + days 1).

Definition almost_frozen_next_day : State :=
  mkState {[ 1 := alice ]} ∅ [] (repeat next_day_report 2499) []
          t0 t0 INITIAL_CAP_CREDITS false ∅.

(** [fresh] after user 1 has painted (3, 4) for 1000 credits and undone
    it for 250. *)
Definition undone_record : Placement :=
  mkPlacement 1 3 4 "#ffffff" 1000 false false false None None (t0 + seconds 5).

Definition after_undo : State :=
  mkState {[ 1 := mkUser 3750 1 1 0 ]} ∅ [undone_record] [] []
          t0 (t0 + seconds 5) INITIAL_CAP_CREDITS false {[ 1 := t0 + seconds 5 ]}.

(** A user without credits on the empty board, and the state after this
    user has painted (3, 4) for free, half an hour into the cycle. *)
Definition broke : State :=
  mkState {[ 1 := mkUser 0 0 0 0 ]} ∅ [] [] [] t0 t0 INITIAL_CAP_CREDITS false ∅.

Definition free_record : Placement :=
  mkPlacement 1 3 4 "#ffffff" 0 true false true None None (t0 + seconds 1800).

Definition after_free_placement : State :=
  mkState {[ 1 := mkUser 0 0 0 0 ]}
          {[ (3, 4) := mkPixel "#ffffff" 1000 (Some 1) false (t0 + seconds 1800) ]}
          [free_record] [] [] t0 (t0 + seconds 1800) INITIAL_CAP_CREDITS false
          {[ 1 := t0 + seconds 1800 ]}.

End Examples.

Module MoreExamples.

(** The ad of [Examples.ad_cell] and a user with 10000 credits who
    paints over it without flagging the pixel as an ad. *)
Definition ad_board : State :=
  set_users (fun _ => {[ 1 := mkUser 10000 0 0 0 ]}) Examples.ad_cell.

Definition over_the_ad : PlacePixelRequest :=
  mkPlacePixelRequest 1 0 0 "#ffffff" false.

(** A user with 501 paid placements on an empty board. *)
Definition veteran : User := mkUser 5000 501 0 0.

Definition veteran_board : State :=
  set_users (fun _ => {[ 1 := veteran ]}) Examples.fresh.

Definition other_cell : PlacePixelRequest :=
  mkPlacePixelRequest 1 7 7 "#ff0000" false.

End MoreExamples.

Module SiteExamples.

(** The site at launch: [Examples.fresh] with its one user, alice. *)
Definition launch : Site :=
  mkSite Examples.fresh {[ 1 := mkProfile "alice" None Examples.t0 ]} [] [].

(** Alice has ordered the medium package; the payment is pending. *)
Definition medium_ordered : Site :=
  mkSite Examples.fresh {[ 1 := mkProfile "alice" None Examples.t0 ]}
         [mkPurchase 1 "cs_1" None 1000 110000 "pending" None] [].

(** The first week, archived on 2023-11-22, and the week after it,
    archived on 2023-11-29; nobody has voted. *)
Definition archived : Site :=
  mkSite (set_archives
            (fun _ => [mkArchive Examples.t0 (Examples.t0 + days 8) [] 0 0;
                       mkArchive (Examples.t0 + days 8) (Examples.t0 + days 15) [] 0 0])
            Examples.fresh)
         {[ 1 := mkProfile "alice" None Examples.t0 ]} [] [].

(** The archive of the first week won November 2023 with three votes. *)
Definition november_row : WinnerRow :=
  mkWinnerRow 1 Examples.t0 (Examples.t0 + days 8) 3.

Definition paid : WebhookEvent := Event "checkout.session.completed" "cs_1" None.

End SiteExamples.

Module HostExamples.

(** A host whose local time is UTC, and one an hour east of it, when
    the UTC clock reads [t]. *)
Definition on_utc (t : Z) : Clock := mkClock t t.
Definition east (t : Z) : Clock := mkClock (t + seconds 3600) t.

End HostExamples.

Module DebtExamples.

(** The site of [SiteExamples.launch] after [POST /user/create] was
    asked for a user "bob" with [initial_credits = -50]: bob is user 2
    and owes 50 credits. *)
Definition with_bob : Site :=
  fst (create_user Examples.t0 "bob" (-50) SiteExamples.launch).

Definition bob_paints : PlacePixelRequest :=
  mkPlacePixelRequest 2 3 4 "#ffffff" false.

(** Bob paints (3, 4) half an hour into the cycle. *)
Definition bob_painted : State * Outcome PlacePixelResponse :=
  place_pixel Examples.half_hour_later bob_paints (db with_bob).

End DebtExamples.

Module TwiceExamples.

Definition black_at_3_4 : PlacePixelRequest :=
  mkPlacePixelRequest 1 3 4 "#000000" false.

(** User 1 paints the empty cell (3, 4) white, then black ten seconds
    later, and undoes the first placement: the cell is deleted while the
    record of the second placement still holds the color white. *)
Definition painted_twice : State :=
  fst (place_pixel (Examples.t0 + seconds 15) black_at_3_4
         (fst (place_pixel (Examples.t0 + seconds 5) Examples.white_at_3_4
                           Examples.fresh))).

Definition first_undone : State :=
  fst (undo_placement (Examples.t0 + seconds 16) 1 1 painted_twice).

End TwiceExamples.

(** * Facts about the float arithmetic *)

Module Float64Facts.
Import Float64 Rounding.

(** *** Shifting right keeps the quotient and remembers exactness *)

Lemma shr_1_nonneg m r s :
  0 <= m -> shr_1 (Build_shr_record m r s) = Build_shr_record (m / 2) (Z.odd m) (r || s).
Proof.
  intros Hm. rewrite <- Z.div2_div.
  destruct m as [|p|p]; [reflexivity| |lia].
  destruct p; reflexivity.
Qed.


Lemma shifted_step M k mrs :
  0 <= M -> 0 <= k -> shifted M k mrs -> shifted M (k + 1) (shr_1 mrs).
Proof.
  intros HM Hk [Hm Hex]. destruct mrs as [m r s]. simpl in Hm, Hex.
  assert (Hpk : 0 < 2 ^ k) by (apply Z.pow_pos_nonneg; lia).
  assert (Hm0 : 0 <= m) by (subst m; apply Z.div_pos; lia).
  rewrite shr_1_nonneg by assumption. unfold shifted. simpl.
  replace (2 ^ (k + 1)) with (2 ^ k * 2) by (rewrite Z.pow_add_r by lia; reflexivity).
  split.
  - rewrite <- Z.div_div by lia. now subst m.
  - intros H0.
    assert (Hdiv : (2 ^ k * 2 | M)) by (apply Z.mod_divide; [lia|exact H0]).
    destruct Hdiv as [q Hq].
    assert (HMk : M mod 2 ^ k = 0).
    { apply Z.mod_divide; [lia|]. exists (q * 2). lia. }
    destruct (Hex HMk) as [-> ->].
    assert (Hmq : m = q * 2).
    { subst m. rewrite Hq. replace (q * (2 ^ k * 2)) with (q * 2 * 2 ^ k) by lia.
      apply Z.div_mul. lia. }
    split; [|reflexivity].
    rewrite Hmq, Z.mul_comm, Z.odd_mul. reflexivity.
Qed.

Lemma shifted_iter M p : forall k mrs,
  0 <= M -> 0 <= k -> shifted M k mrs -> shifted M (k + Zpos p) (SpecFloat.iter_pos shr_1 p mrs).
Proof.
  induction p as [p IH|p IH|]; intros k mrs HM Hk H; simpl.
  - replace (k + Zpos p~1) with (k + 1 + Zpos p + Zpos p) by lia.
    apply IH; [lia|lia|]. apply IH; [lia|lia|]. now apply shifted_step.
  - replace (k + Zpos p~0) with (k + Zpos p + Zpos p) by lia.
    apply IH; [lia|lia|]. now apply IH.
  - now apply shifted_step.
Qed.

Lemma shr_exact_record M e n :
  0 <= M -> 0 <= n ->
  exists mrs, shr (Build_shr_record M false false) e n = (mrs, e + n) /\ shifted M n mrs.
Proof.
  intros HM Hn.
  assert (H0 : shifted M 0 (Build_shr_record M false false)).
  { split; simpl; [now rewrite Z.div_1_r|auto]. }
  destruct n as [|p|p]; [| |lia].
  - exists (Build_shr_record M false false). split; [simpl; f_equal; lia|exact H0].
  - exists (SpecFloat.iter_pos shr_1 p (Build_shr_record M false false)). split; [reflexivity|].
    apply (shifted_iter M p 0); [lia|lia|exact H0].
Qed.

Lemma round_nearest_even_bounds m l :
  m <= round_nearest_even m l <= m + 1.
Proof.
  destruct l as [|[]]; simpl; try lia. destruct (Z.even m); lia.
Qed.

(** *** Number of binary digits *)

Lemma digits2_pos_bounds p :
  2 ^ (Zpos (digits2_pos p) - 1) <= Zpos p < 2 ^ Zpos (digits2_pos p).
Proof.
  induction p as [p IH|p IH|]; simpl digits2_pos.
  - rewrite Pos2Z.inj_succ.
    replace (Z.succ (Zpos (digits2_pos p)) - 1) with (Zpos (digits2_pos p) - 1 + 1) by lia.
    rewrite Z.pow_succ_r by lia. rewrite Z.pow_add_r by lia. lia.
  - rewrite Pos2Z.inj_succ.
    replace (Z.succ (Zpos (digits2_pos p)) - 1) with (Zpos (digits2_pos p) - 1 + 1) by lia.
    rewrite Z.pow_succ_r by lia. rewrite Z.pow_add_r by lia. lia.
  - simpl. lia.
Qed.

Lemma digits2_pos_unique p d :
  2 ^ (d - 1) <= Zpos p < 2 ^ d -> Zpos (digits2_pos p) = d.
Proof.
  intros [Hlo Hhi]. pose proof (digits2_pos_bounds p) as [Hlo' Hhi'].
  assert (Hd : 0 < d).
  { destruct (Z.lt_ge_cases 0 d) as [|Hle]; [assumption|].
    exfalso. destruct (Z.eq_dec d 0) as [->|]; [simpl in Hhi; lia|].
    rewrite Z.pow_neg_r in Hhi by lia. lia. }
  destruct (Z.lt_trichotomy (Zpos (digits2_pos p)) d) as [Hlt|[Heq|Hgt]]; [|assumption|].
  - assert (2 ^ Zpos (digits2_pos p) <= 2 ^ (d - 1)) by (apply Z.pow_le_mono_r; lia). lia.
  - assert (2 ^ d <= 2 ^ (Zpos (digits2_pos p) - 1)) by (apply Z.pow_le_mono_r; lia). lia.
Qed.

(** *** Rounding a positive integer mantissa into the normal range *)

Lemma fexp_normal k : -1074 <= k - 53 -> fexp prec emax k = k - 53.
Proof. unfold fexp, emin, prec, emax. lia. Qed.

Lemma Zdigits2_pos m d :
  0 < m -> 2 ^ (d - 1) <= m < 2 ^ d -> Zdigits2 m = d.
Proof.
  intros Hm H. destruct m as [|p|p]; try lia. simpl. now apply digits2_pos_unique.
Qed.

Lemma pow2_53 : 2 ^ 53 = 9007199254740992. Proof. reflexivity. Qed.
Lemma pow2_52 : 2 ^ 52 = 4503599627370496. Proof. reflexivity. Qed.


Lemma second_shr_fexp sx m2 e :
  2 ^ 52 <= m2 <= 2 ^ 53 -> -1074 <= e -> e + 1 <= 971 ->
  (let '(mrs, e'') := shr_fexp prec emax m2 e loc_Exact in
   match shr_m mrs with
   | Z0 => S754_zero sx
   | Zpos m => if e'' <=? emax - prec then S754_finite sx m e'' else S754_infinity sx
   | Zneg _ => S754_nan
   end) = rounded sx m2 e.
Proof.
  intros Hm He Hov. unfold rounded, shr_fexp.
  destruct (Z.ltb_spec m2 (2 ^ 53)) as [Hlt|Hge].
  - rewrite (Zdigits2_pos m2 53) by (change (53 - 1) with 52; lia || (split; lia)).
    rewrite fexp_normal by lia.
    replace (53 + e - 53 - e) with 0 by lia. cbn [shr shr_record_of_loc shr_m].
    destruct m2 as [|q|q]; try lia.
    replace (e <=? emax - prec) with true
      by (symmetry; apply Z.leb_le; unfold emax, prec; lia).
    reflexivity.
  - assert (m2 = 2 ^ 53) by lia. subst m2.
    replace (Zdigits2 (2 ^ 53)) with 54 by reflexivity.
    rewrite fexp_normal by lia.
    replace (54 + e - 53 - e) with 1 by lia.
    cbn [shr shr_record_of_loc].
    replace (e + 1 <=? emax - prec) with true
      by (symmetry; apply Z.leb_le; unfold emax, prec; lia).
    reflexivity.
Qed.

Lemma binary_round_aux_normal sx mx ex d :
  53 <= d -> 2 ^ (d - 1) <= Zpos mx < 2 ^ d ->
  -1074 <= ex + (d - 53) -> ex + (d - 53) + 1 <= 971 ->
  exists m2 : Z,
    Zpos mx / 2 ^ (d - 53) <= m2 <= Zpos mx / 2 ^ (d - 53) + 1 /\
    2 ^ 52 <= m2 <= 2 ^ 53 /\
    (Zpos mx mod 2 ^ (d - 53) = 0 -> m2 = Zpos mx / 2 ^ (d - 53)) /\
    binary_round_aux prec emax sx (Zpos mx) ex loc_Exact
    = rounded sx m2 (ex + (d - 53)).
Proof.
  intros Hd Hmx Hlo Hhi.
  unfold binary_round_aux.
  unfold shr_fexp at 1.
  rewrite (Zdigits2_pos (Zpos mx) d) by lia.
  rewrite fexp_normal by lia.
  replace (d + ex - 53 - ex) with (d - 53) by lia.
  cbn [shr_record_of_loc].
  destruct (shr_exact_record (Zpos mx) ex (d - 53)) as (mrs & Hshr & Hm1 & Hex); [lia|lia|].
  rewrite Hshr.
  set (m1 := Zpos mx / 2 ^ (d - 53)) in *.
  assert (Hm1r : 2 ^ 52 <= m1 < 2 ^ 53).
  { assert (Hp : 0 < 2 ^ (d - 53)) by (apply Z.pow_pos_nonneg; lia).
    assert (Hsplit : 2 ^ d = 2 ^ 53 * 2 ^ (d - 53)).
    { rewrite <- Z.pow_add_r by lia. f_equal. lia. }
    assert (Hsplit' : 2 ^ (d - 1) = 2 ^ 52 * 2 ^ (d - 53)).
    { rewrite <- Z.pow_add_r by lia. f_equal. lia. }
    unfold m1. split.
    - apply Z.div_le_lower_bound; [lia|]. rewrite Z.mul_comm. lia.
    - apply Z.div_lt_upper_bound; [lia|]. rewrite Z.mul_comm. lia. }
  pose proof (round_nearest_even_bounds (shr_m mrs) (loc_of_shr_record mrs)) as Hb.
  exists (round_nearest_even (shr_m mrs) (loc_of_shr_record mrs)).
  rewrite Hm1 in Hb |- *.
  split; [exact Hb|]. split; [lia|]. split.
  - intros H0. destruct (Hex H0) as [Hr Hs]. destruct mrs as [m r s]; simpl in *.
    subst r s. reflexivity.
  - apply second_shr_fexp; lia.
Qed.

(** *** Integers as floats *)

Lemma iter_xO m d : Zpos (Pos.iter xO m d) = Zpos m * 2 ^ Zpos d.
Proof.
  induction d as [|d IH] using Pos.peano_ind.
  - simpl Pos.iter. rewrite Pos2Z.inj_xO. change (2 ^ 1) with 2. lia.
  - rewrite Pos.iter_succ, Pos2Z.inj_xO, IH, Pos2Z.inj_succ, Z.pow_succ_r by lia. lia.
Qed.

Lemma digits_exist p :
  exists d, 1 <= d /\ 2 ^ (d - 1) <= Zpos p < 2 ^ d.
Proof.
  exists (Zpos (digits2_pos p)). split; [lia|apply digits2_pos_bounds].
Qed.

Lemma digits_le p d k :
  2 ^ (d - 1) <= Zpos p < 2 ^ d -> Zpos p < 2 ^ k -> 0 <= k -> 1 <= d -> d <= k.
Proof.
  intros [Hlo _] Hk Hk0 Hd.
  destruct (Z.le_gt_cases d k) as [|Hgt]; [assumption|exfalso].
  assert (2 ^ k <= 2 ^ (d - 1)) by (apply Z.pow_le_mono_r; lia). lia.
Qed.


Lemma rounded_finite_with sx m2 e :
  2 ^ 52 <= m2 <= 2 ^ 53 ->
  finite_with (rounded sx m2 e) sx m2 e \/
  (m2 = 2 ^ 53 /\ finite_with (rounded sx m2 e) sx (2 ^ 52) (e + 1)).
Proof.
  intros H. unfold rounded. destruct (Z.ltb_spec m2 (2 ^ 53)).
  - left. exists (Z.to_pos m2). split; [reflexivity|]. apply Z2Pos.id. rewrite pow2_52 in H. lia.
  - right. split; [lia|]. exists (Z.to_pos (2 ^ 52)). split; reflexivity.
Qed.

Lemma binary_round_small sx p d :
  1 <= d <= 53 -> 2 ^ (d - 1) <= Zpos p < 2 ^ d ->
  finite_with (binary_round prec emax sx p 0) sx (Zpos p * 2 ^ (53 - d)) (d - 53).
Proof.
  intros Hd Hp. unfold binary_round.
  replace (Zpos (digits2_pos p)) with d by (symmetry; now apply digits2_pos_unique).
  rewrite Z.add_0_r, fexp_normal by lia.
  assert (Hmz : forall mz e, Zpos mz = Zpos p * 2 ^ (53 - d) -> e = d - 53 ->
            finite_with (binary_round_aux prec emax sx (Zpos mz) e loc_Exact)
                        sx (Zpos p * 2 ^ (53 - d)) (d - 53)).
  { intros mz e Hmz ->.
    assert (Hr : 2 ^ (53 - 1) <= Zpos mz < 2 ^ 53).
    { rewrite Hmz. change (53 - 1) with 52.
      replace (2 ^ 52) with (2 ^ (d - 1) * 2 ^ (53 - d))
        by (rewrite <- Z.pow_add_r by lia; f_equal; lia).
      replace (2 ^ 53) with (2 ^ d * 2 ^ (53 - d))
        by (rewrite <- Z.pow_add_r by lia; f_equal; lia).
      assert (0 < 2 ^ (53 - d)) by (apply Z.pow_pos_nonneg; lia). nia. }
    destruct (binary_round_aux_normal sx mz (d - 53) 53) as (m2 & Hb & Hr2 & Hex & Heq);
      [lia|exact Hr|lia|lia|].
    change (53 - 53) with 0 in *. rewrite Z.pow_0_r, Z.div_1_r in *.
    rewrite Z.add_0_r in Heq. rewrite Heq.
    rewrite (Hex (Z.mod_1_r _)). unfold rounded.
    replace (Zpos mz <? 2 ^ 53) with true by (symmetry; apply Z.ltb_lt; lia).
    exists mz. split; [reflexivity|exact Hmz]. }
  unfold shl_align.
  destruct (d - 53 - 0) as [|k|k] eqn:Hk; try lia.
  - apply Hmz; [|lia]. replace (53 - d) with 0 by lia. rewrite Z.pow_0_r. lia.
  - apply Hmz; [|lia]. rewrite iter_xO. f_equal. f_equal. lia.
Qed.

Lemma binary_round_large sx p d :
  53 <= d <= 1023 -> 2 ^ (d - 1) <= Zpos p < 2 ^ d ->
  exists m2,
    Zpos p / 2 ^ (d - 53) <= m2 <= Zpos p / 2 ^ (d - 53) + 1 /\
    2 ^ 52 <= m2 <= 2 ^ 53 /\
    binary_round prec emax sx p 0 = rounded sx m2 (d - 53).
Proof.
  intros Hd Hp. unfold binary_round.
  replace (Zpos (digits2_pos p)) with d by (symmetry; now apply digits2_pos_unique).
  rewrite Z.add_0_r, fexp_normal by lia.
  unfold shl_align.
  destruct (d - 53 - 0) as [|k|k] eqn:Hk; try lia;
    (destruct (binary_round_aux_normal sx p 0 d) as (m2 & Hb & Hr2 & _ & Heq);
     [lia|exact Hp|lia|lia|]; exists m2; rewrite Heq; repeat split; try lia;
     f_equal).
Qed.

(** *** Products of normal floats *)

Lemma mul_finite sx mx ex sy my ey :
  mul (S754_finite sx mx ex) (S754_finite sy my ey)
  = binary_round_aux prec emax (xorb sx sy) (Zpos (mx * my)) (ex + ey) loc_Exact.
Proof. reflexivity. Qed.

Lemma mul_normal x sx mx ex y sy my ey :
  finite_with x sx mx ex -> finite_with y sy my ey ->
  2 ^ 52 <= mx < 2 ^ 53 -> 2 ^ 52 <= my < 2 ^ 53 ->
  -1074 <= ex + ey + 52 -> ex + ey + 54 <= 971 ->
  exists d m2,
    105 <= d <= 106 /\ 2 ^ (d - 1) <= mx * my < 2 ^ d /\
    (mx * my) / 2 ^ (d - 53) <= m2 <= (mx * my) / 2 ^ (d - 53) + 1 /\
    2 ^ 52 <= m2 <= 2 ^ 53 /\
    ((mx * my) mod 2 ^ (d - 53) = 0 -> m2 = (mx * my) / 2 ^ (d - 53)) /\
    mul x y = rounded (xorb sx sy) m2 (ex + ey + (d - 53)).
Proof.
  intros (px & -> & Hpx) (py & -> & Hpy) Hmx Hmy Hlo Hhi.
  rewrite mul_finite. subst mx my. rewrite <- Pos2Z.inj_mul.
  assert (H104 : 2 ^ 104 <= Zpos (px * py) < 2 ^ 106).
  { rewrite Pos2Z.inj_mul.
    change (2 ^ 104) with (2 ^ 52 * 2 ^ 52). change (2 ^ 106) with (2 ^ 53 * 2 ^ 53).
    assert (0 < 2 ^ 52) by reflexivity. nia. }
  assert (Hd : exists d, 105 <= d <= 106 /\ 2 ^ (d - 1) <= Zpos (px * py) < 2 ^ d).
  { destruct (Z.lt_ge_cases (Zpos (px * py)) (2 ^ 105)).
    - exists 105. change (105 - 1) with 104. lia.
    - exists 106. change (106 - 1) with 105. lia. }
  destruct Hd as (d & Hd & Hr).
  destruct (binary_round_aux_normal (xorb sx sy) (px * py) (ex + ey) d)
    as (m2 & Hb & Hr2 & Hex & Heq); [lia|exact Hr|lia|lia|].
  exists d, m2. repeat split; try lia; assumption.
Qed.

(** *** Truncation of a rounded result *)

Lemma to_int_finite s p e :
  e <= 0 -> to_int (S754_finite s p e) = Some (cond_Zopp s (Zpos p / 2 ^ (- e))).
Proof.
  intros He. unfold to_int. destruct e as [|k|k]; try lia.
  - change (2 ^ (- 0)) with 1. change (2 ^ 0) with 1.
    now rewrite Z.div_1_r, Z.mul_1_r.
  - reflexivity.
Qed.

Lemma to_int_rounded s m2 e :
  2 ^ 52 <= m2 <= 2 ^ 53 -> e < 0 ->
  to_int (rounded s m2 e) = Some (cond_Zopp s (m2 / 2 ^ (- e))).
Proof.
  intros Hm He. unfold rounded. destruct (Z.ltb_spec m2 (2 ^ 53)).
  - rewrite to_int_finite by lia. rewrite Z2Pos.id by (rewrite pow2_52 in Hm; lia).
    reflexivity.
  - assert (m2 = 2 ^ 53) by lia. subst m2.
    rewrite to_int_finite by lia. rewrite Z2Pos.id by reflexivity.
    do 2 f_equal.
    replace (2 ^ (- e)) with (2 * 2 ^ (- (e + 1)))
      by (rewrite <- Z.pow_succ_r by lia; f_equal; lia).
    change (2 ^ 53) with (2 * 2 ^ 52).
    rewrite Z.div_mul_cancel_l; [reflexivity| |lia].
    assert (0 < 2 ^ (- (e + 1))) by (apply Z.pow_pos_nonneg; lia). lia.
Qed.

Lemma of_int_small n d :
  1 <= d <= 53 -> 2 ^ (d - 1) <= Z.abs n < 2 ^ d ->
  exists x, of_int n = Some x /\
            finite_with x (n <? 0) (Z.abs n * 2 ^ (53 - d)) (d - 53).
Proof.
  intros Hd Hn.
  assert (0 < Z.abs n). { assert (0 < 2 ^ (d - 1)) by (apply Z.pow_pos_nonneg; lia). lia. }
  destruct n as [|p|p]; [simpl in *; lia| |].
  - destruct (binary_round_small false p d) as (q & Heq & Hq); [lia|exact Hn|].
    unfold of_int, binary_normalize. rewrite Heq.
    exists (S754_finite false q (d - 53)). split; [reflexivity|].
    exists q. split; [reflexivity|exact Hq].
  - destruct (binary_round_small true p d) as (q & Heq & Hq); [lia|exact Hn|].
    unfold of_int, binary_normalize. rewrite Heq.
    exists (S754_finite true q (d - 53)). split; [reflexivity|].
    exists q. split; [reflexivity|exact Hq].
Qed.

Lemma scaled_range n d :
  1 <= d <= 53 -> 2 ^ (d - 1) <= n < 2 ^ d ->
  2 ^ 52 <= n * 2 ^ (53 - d) < 2 ^ 53.
Proof.
  intros Hd Hn.
  replace (2 ^ 52) with (2 ^ (d - 1) * 2 ^ (53 - d))
    by (rewrite <- Z.pow_add_r by lia; f_equal; lia).
  replace (2 ^ 53) with (2 ^ d * 2 ^ (53 - d))
    by (rewrite <- Z.pow_add_r by lia; f_equal; lia).
  assert (0 < 2 ^ (53 - d)) by (apply Z.pow_pos_nonneg; lia). nia.
Qed.

Lemma abs_digits n k :
  0 < Z.abs n < 2 ^ k -> 0 <= k ->
  exists d, 1 <= d <= k /\ 2 ^ (d - 1) <= Z.abs n < 2 ^ d.
Proof.
  intros Hn Hk. destruct (digits_exist (Z.to_pos (Z.abs n))) as (d & Hd & Hr).
  rewrite Z2Pos.id in Hr by lia. exists d. split; [|exact Hr].
  split; [lia|]. apply (digits_le (Z.to_pos (Z.abs n))); rewrite ?Z2Pos.id; lia.
Qed.

(** *** Positive normal floats and their exponent range *)


Lemma rounded_normal_pos m2 e :
  2 ^ 52 <= m2 <= 2 ^ 53 -> normal_pos (rounded false m2 e) e (e + 1).
Proof.
  intros H. unfold rounded. destruct (Z.ltb_spec m2 (2 ^ 53)).
  - exists (Z.to_pos m2), e. split; [reflexivity|].
    rewrite Z2Pos.id by (rewrite pow2_52 in H; lia). lia.
  - exists (Z.to_pos (2 ^ 52)), (e + 1). split; [reflexivity|].
    rewrite Z2Pos.id by reflexivity. rewrite pow2_52, pow2_53. lia.
Qed.

Lemma binary_round_wide sx p ex d :
  53 <= d -> 2 ^ (d - 1) <= Zpos p < 2 ^ d ->
  -1074 <= ex + (d - 53) -> ex + (d - 53) + 1 <= 971 ->
  exists m2,
    Zpos p / 2 ^ (d - 53) <= m2 <= Zpos p / 2 ^ (d - 53) + 1 /\
    2 ^ 52 <= m2 <= 2 ^ 53 /\
    binary_round prec emax sx p ex = rounded sx m2 (ex + (d - 53)).
Proof.
  intros Hd Hp Hlo Hhi. unfold binary_round.
  replace (Zpos (digits2_pos p)) with d by (symmetry; now apply digits2_pos_unique).
  rewrite fexp_normal by lia.
  unfold shl_align.
  destruct (d + ex - 53 - ex) as [|k|k] eqn:Hk; try lia;
    (destruct (binary_round_aux_normal sx p ex d) as (m2 & Hb & Hr2 & _ & Heq);
     [lia|exact Hp|lia|lia|]; exists m2; rewrite Heq; repeat split; lia).
Qed.

Lemma of_int_normal n :
  0 < n < 2 ^ 63 -> exists x, of_int n = Some x /\ normal_pos x (-52) 11.
Proof.
  intros Hn. destruct (abs_digits n 63) as (d & Hd & Hr); [lia|lia|].
  rewrite Z.abs_eq in Hr by lia.
  destruct (Z.le_gt_cases d 53) as [Hs|Hl].
  - destruct (of_int_small n d) as (x & Hx & (p & -> & Hp)); [lia|rewrite Z.abs_eq; lia|].
    replace (n <? 0) with false in Hx by (symmetry; apply Z.ltb_ge; lia).
    exists (S754_finite false p (d - 53)). split; [exact Hx|].
    exists p, (d - 53). split; [reflexivity|]. split; [|lia].
    rewrite Hp, Z.abs_eq by lia. apply scaled_range; lia.
  - destruct (binary_round_wide false (Z.to_pos n) 0 d) as (m2 & _ & Hr2 & Heq);
      [lia|rewrite Z2Pos.id by lia; exact Hr|lia|lia|].
    destruct (rounded_normal_pos m2 (0 + (d - 53)) Hr2) as (p & e & Hf & Hp & He).
    exists (S754_finite false p e). split.
    + unfold of_int. destruct n; try lia. unfold binary_normalize.
      simpl Z.to_pos in Heq. rewrite Heq, Hf. reflexivity.
    + exists p, e. split; [reflexivity|]. split; [exact Hp|lia].
Qed.

Lemma mul_normal_pos x lx hx y ly hy :
  normal_pos x lx hx -> normal_pos y ly hy ->
  -1074 <= lx + ly + 52 -> hx + hy + 54 <= 971 ->
  normal_pos (mul x y) (lx + ly + 52) (hx + hy + 54).
Proof.
  intros (px & ex & -> & Hpx & Hex) (py & ey & -> & Hpy & Hey) Hlo Hhi.
  destruct (mul_normal (S754_finite false px ex) false (Zpos px) ex
                       (S754_finite false py ey) false (Zpos py) ey)
    as (d & m2 & Hd & _ & _ & Hr2 & _ & Heq);
    [eexists; split; reflexivity|eexists; split; reflexivity|lia|lia|lia|lia|].
  rewrite Heq. cbn [xorb].
  destruct (rounded_normal_pos m2 (ex + ey + (d - 53)) Hr2) as (p & e & -> & Hp & He).
  exists p, e. split; [reflexivity|]. split; [exact Hp|lia].
Qed.

Lemma shl_align_fst m e ez :
  ez <= e -> Zpos (fst (shl_align m e ez)) = Zpos m * 2 ^ (e - ez).
Proof.
  intros H. unfold shl_align. destruct (ez - e) as [|k|k] eqn:Hk; try lia.
  - replace (e - ez) with 0 by lia. simpl fst. rewrite Z.pow_0_r. lia.
  - simpl fst. rewrite iter_xO. f_equal. f_equal. lia.
Qed.

Lemma add_normal_pos x lx hx y ly hy :
  normal_pos x lx hx -> normal_pos y ly hy ->
  -1074 <= Z.min lx ly -> Z.max hx hy + 2 <= 971 ->
  normal_pos (add x y) (Z.max lx ly) (Z.max hx hy + 2).
Proof.
  intros (px & ex & -> & Hpx & Hex) (py & ey & -> & Hpy & Hey) Hlo Hhi.
  unfold add, SFadd. cbn [cond_Zopp].
  set (ez := Z.min ex ey).
  rewrite !shl_align_fst by (unfold ez; lia).
  set (a := Zpos px * 2 ^ (ex - ez)). set (b := Zpos py * 2 ^ (ey - ez)).
  set (t := Z.max ex ey - ez).
  assert (Ht : 0 <= t) by (unfold t, ez; lia).
  assert (Hpa : 0 < 2 ^ (ex - ez)) by (apply Z.pow_pos_nonneg; unfold ez; lia).
  assert (Hpb : 0 < 2 ^ (ey - ez)) by (apply Z.pow_pos_nonneg; unfold ez; lia).
  assert (Hpt : 0 < 2 ^ t) by (apply Z.pow_pos_nonneg; lia).
  assert (Hle_a : 2 ^ (ex - ez) <= 2 ^ t) by (apply Z.pow_le_mono_r; unfold t, ez; lia).
  assert (Hle_b : 2 ^ (ey - ez) <= 2 ^ t) by (apply Z.pow_le_mono_r; unfold t, ez; lia).
  assert (Hmax : 2 ^ (ex - ez) = 2 ^ t \/ 2 ^ (ey - ez) = 2 ^ t).
  { unfold t, ez. destruct (Z.le_gt_cases ex ey).
    - right. f_equal. lia.
    - left. f_equal. lia. }
  assert (Hsum : 2 ^ 52 * 2 ^ t <= a + b < 2 ^ 54 * 2 ^ t).
  { unfold a, b. change (2 ^ 54) with (2 * 2 ^ 53). rewrite pow2_52, pow2_53 in *.
    split; [destruct Hmax as [<-|<-]; nia|nia]. }
  assert (Hd : exists d, 53 + t <= d <= 54 + t /\ 2 ^ (d - 1) <= a + b < 2 ^ d).
  { rewrite <- !Z.pow_add_r in Hsum by lia.
    destruct (Z.lt_ge_cases (a + b) (2 ^ (53 + t))).
    - exists (53 + t). replace (53 + t - 1) with (52 + t) by lia. lia.
    - exists (54 + t). replace (54 + t - 1) with (53 + t) by lia. lia. }
  destruct Hd as (d & Hd & Hr).
  assert (Hab : 0 < a + b) by lia.
  destruct (a + b) as [|s|s] eqn:Hs; try lia.
  unfold binary_normalize.
  destruct (binary_round_wide false s ez d) as (m2 & _ & Hr2 & Heq);
    [lia|exact Hr|unfold ez; lia|unfold t, ez in *; lia|].
  rewrite Heq.
  destruct (rounded_normal_pos m2 (ez + (d - 53)) Hr2) as (p & e & -> & Hp & He).
  exists p, e. split; [reflexivity|]. split; [exact Hp|unfold t, ez in *; lia].
Qed.

End Float64Facts.

(** ** The two float computations of the source *)

Section CostArithmetic.
Import Float64 Rounding Float64Facts.

(** The float constants of the source, as mantissa and exponent:
    [0.25] is exact, [0.10] is [0x1.999999999999ap-4], the double nearest
    to one tenth (ten times its mantissa is within 5 of [2^56]), and
    [1 - 0.10] is [0x1.ccccccccccccdp-1]. *)
Lemma float_constants :
  UNDO_BASE_PERCENT = S754_finite false (Z.to_pos (2 ^ 52)) (-54) /\
  UNDO_INCREMENT_PERCENT = S754_finite false 7205759403792794 (-56) /\
  AD_OVERWRITE_DISCOUNT = UNDO_INCREMENT_PERCENT /\
  Z.abs (10 * 7205759403792794 - 2 ^ 56) <= 5 /\
  int_sub 1 AD_OVERWRITE_DISCOUNT = Some (S754_finite false 8106479329266893 (-53)) /\
  10 * NINE_TENTHS = 9 * 2 ^ 53 + 2.
Proof. vm_compute. repeat split; congruence. Qed.

Lemma undo_cost_first c :
  Z.abs c < 2 ^ 53 -> undo_cost_of c 0 = Some (Z.quot c 4).
Proof.
  intros Hc. unfold undo_cost_of.
  change (int_mul 0 UNDO_INCREMENT_PERCENT) with (Some (S754_zero false)).
  cbn [bind_opt].
  change (add UNDO_BASE_PERCENT (S754_zero false)) with UNDO_BASE_PERCENT.
  destruct (Z.eq_dec c 0) as [->|Hc0]; [reflexivity|].
  destruct (abs_digits c 53) as (d & Hd & Hr); [lia|lia|].
  destruct (of_int_small c d) as (x & Hx & Hfx); [lia|exact Hr|].
  unfold int_mul. rewrite Hx. cbn [bind_opt].
  pose proof (scaled_range (Z.abs c) d ltac:(lia) Hr) as Hs.
  set (K := 2 ^ (53 - d)) in *.
  destruct (mul_normal x (c <? 0) (Z.abs c * K) (d - 53)
              UNDO_BASE_PERCENT false (2 ^ 52) (-54))
    as (d' & m2 & Hd' & Hr' & Hb & Hr2 & Hex & Heq);
    [exact Hfx|eexists; split; reflexivity|exact Hs|rewrite pow2_53, pow2_52; lia|lia|lia|].
  assert (d' = 105).
  { destruct (Z.eq_dec d' 105); [assumption|]. assert (d' = 106) by lia. subst d'.
    change (106 - 1) with 105 in Hr'. change (2 ^ 105) with (2 ^ 53 * 2 ^ 52) in Hr'.
    assert (0 < 2 ^ 52) by reflexivity. nia. }
  subst d'. change (105 - 53) with 52 in *.
  rewrite Z.mod_mul, Z.div_mul in Hex by (rewrite pow2_52; lia).
  rewrite (Hex eq_refl) in Heq. rewrite Heq.
  rewrite to_int_rounded by lia.
  rewrite xorb_false_r. f_equal.
  replace (- (d - 53 + -54 + 52)) with (2 + (53 - d)) by lia.
  rewrite Z.pow_add_r by lia. fold K. change (2 ^ 2) with 4.
  assert (0 < K) by (apply Z.pow_pos_nonneg; lia).
  rewrite Z.div_mul_cancel_r by lia.
  destruct (Z.ltb_spec c 0); cbn [cond_Zopp].
  - rewrite Z.abs_neq by lia.
    replace c with (- - c) at 2 by lia.
    rewrite Z.quot_opp_l by lia. rewrite Z.quot_div_nonneg by lia. reflexivity.
  - rewrite Z.abs_eq by lia. rewrite Z.quot_div_nonneg by lia. reflexivity.
Qed.


Lemma one_minus_discount :
  int_sub 1 AD_OVERWRITE_DISCOUNT = Some (S754_finite false 8106479329266893 (-53)).
Proof. reflexivity. Qed.

Lemma discount_arith p K A S m2 :
  0 < p -> 16 <= K -> p * K < 2 ^ 53 -> 0 < A <= 2 ^ 53 -> 0 < S ->
  A * S = 2 ^ 53 * K ->
  p * K * NINE_TENTHS / A <= m2 <= p * K * NINE_TENTHS / A + 1 ->
  m2 / S = p * 9 / 10.
Proof.
  intros Hp HK HpK HA HS HAS Hm2.
  set (q := p * 9 / 10).
  assert (Hq : 10 * q <= p * 9 < 10 * q + 10).
  { unfold q. pose proof (Z.mul_div_le (p * 9) 10 ltac:(lia)).
    pose proof (Z.mul_succ_div_gt (p * 9) 10 ltac:(lia)). lia. }
  rewrite pow2_53 in *. unfold NINE_TENTHS in *.
  set (P := p * K * 8106479329266893) in *.
  assert (Hlow : q * S <= P / A).
  { apply Z.div_le_lower_bound; [lia|].
    replace (A * (q * S)) with (9007199254740992 * (K * q)) by nia.
    unfold P.
    assert (0 <= K * (p * 9 - 10 * q)) by nia.
    assert (0 <= p * K) by nia. nia. }
  assert (Hhigh : P / A < (q + 1) * S - 1).
  { apply Z.div_lt_upper_bound; [lia|].
    replace (A * ((q + 1) * S - 1)) with (9007199254740992 * (K * (q + 1)) - A) by nia.
    unfold P.
    assert (K <= K * (10 * (q + 1) - p * 9)) by nia.
    nia. }
  symmetry. apply Z.div_unique with (m2 - q * S); [|lia].
  left. nia.
Qed.

Lemma ad_discounted_exact c :
  Z.abs c < 2 ^ 49 -> ad_discounted c = Some (Z.quot (c * 9) 10).
Proof.
  intros Hc. unfold ad_discounted. rewrite one_minus_discount. cbn [bind_opt].
  destruct (Z.eq_dec c 0) as [->|Hc0]; [reflexivity|].
  destruct (abs_digits c 49) as (d & Hd & Hr); [lia|lia|].
  destruct (of_int_small c d) as (x & Hx & Hfx); [lia|exact Hr|].
  unfold int_mul. rewrite Hx. cbn [bind_opt].
  pose proof (scaled_range (Z.abs c) d ltac:(lia) Hr) as Hs.
  set (K := 2 ^ (53 - d)) in *.
  destruct (mul_normal x (c <? 0) (Z.abs c * K) (d - 53)
              (S754_finite false 8106479329266893 (-53)) false NINE_TENTHS (-53))
    as (d' & m2 & Hd' & Hr' & Hb & Hr2 & _ & Heq);
    [exact Hfx|eexists; split; reflexivity|exact Hs
    |rewrite pow2_53, pow2_52; unfold NINE_TENTHS; lia|lia|lia|].
  rewrite Heq, to_int_rounded by lia.
  rewrite xorb_false_r. f_equal.
  assert (HK : 16 <= K).
  { unfold K. change 16 with (2 ^ 4). apply Z.pow_le_mono_r; lia. }
  rewrite (discount_arith (Z.abs c) K (2 ^ (d' - 53))).
  - destruct (Z.ltb_spec c 0); cbn [cond_Zopp].
    + rewrite Z.abs_neq by lia.
      replace (c * 9) with (- (- c * 9)) by lia.
      rewrite Z.quot_opp_l by lia. rewrite Z.quot_div_nonneg by lia. reflexivity.
    + rewrite Z.abs_eq by lia. rewrite Z.quot_div_nonneg by lia. reflexivity.
  - lia.
  - exact HK.
  - lia.
  - split; [apply Z.pow_pos_nonneg; lia|]. apply Z.pow_le_mono_r; lia.
  - apply Z.pow_pos_nonneg; lia.
  - unfold K. rewrite <- !Z.pow_add_r by lia. f_equal. lia.
  - exact Hb.
Qed.

End CostArithmetic.

(** * The endpoints *)

(** ** The example states are states the endpoints reach *)

Section ExamplesReached.

Lemma after_undo_reached :
  fst (undo_placement (Examples.t0 + seconds 6) 1 1
         (fst (place_pixel (Examples.t0 + seconds 5) Examples.white_at_3_4
                           Examples.fresh)))
  = Examples.after_undo.
Proof. vm_compute. reflexivity. Qed.

Lemma after_free_placement_reached :
  place_pixel Examples.half_hour_later Examples.white_at_3_4 Examples.broke
  = (Examples.after_free_placement,
     Ok (mkPlacePixelResponse 0 true 0 "Pixel placed (free: inactivity)" 1)).
Proof. vm_compute. reflexivity. Qed.

End ExamplesReached.

(** ** What a request leaves untouched *)

Section Frames.

Lemma update_dynamic_cap_frame st :
  users (update_dynamic_cap st) = users st /\
  pixels (update_dynamic_cap st) = pixels st /\
  placements (update_dynamic_cap st) = placements st /\
  reports (update_dynamic_cap st) = reports st /\
  archives (update_dynamic_cap st) = archives st /\
  week_start (update_dynamic_cap st) = week_start st /\
  last_placement (update_dynamic_cap st) = last_placement st /\
  board_frozen (update_dynamic_cap st) = board_frozen st /\
  user_last_placement (update_dynamic_cap st) = user_last_placement st.
Proof.
  unfold update_dynamic_cap.
  destruct (get_current_cap st =? INITIAL_CAP_CREDITS); [|by repeat split].
  match goal with |- context [if ?c then _ else _] => destruct c end;
    by repeat split.
Qed.


End Frames.

(** ** The week check *)

Section CycleManager.


End CycleManager.

(** ** Free placements *)

Section Eligibility.


Lemma is_free_placement_eligible_cases now st uid :
  is_free_placement_eligible now st uid =
    if (seconds 1800 <=? now - last_placement st) && under_ceiling st uid
    then (true, Some "inactivity"%string)
    else if (week_start st + days 7 - now <? seconds 21600) && under_ceiling st uid
         then (true, Some "end_of_week"%string)
         else (false, None).
Proof.
  unfold is_free_placement_eligible, under_ceiling, get_last_placement_time,
    get_week_start, INACTIVITY_THRESHOLD_SECONDS.
  destruct (seconds 1800 <=? now - last_placement st);
    destruct (week_start st + days 7 - now <? seconds 21600);
    destruct (users st !! uid) as [row|]; cbn [andb]; try reflexivity;
    destruct (lifetime_paid_placements row <=? FREE_ELIGIBILITY_MAX_PAID);
    reflexivity.
Qed.

Lemma is_free_placement_eligible_frame now st f uid :
  is_free_placement_eligible now (set_user_last_placement f st) uid
  = is_free_placement_eligible now st uid.
Proof. reflexivity. Qed.

End Eligibility.

(** ** Placing a pixel *)

Section Placement.


(** Everything a committed placement has checked and written. *)
Lemma place_pixel_committed now request st st' r :
  place_pixel now request st = (st', Ok r) ->
  let st1 := snd (check_and_reset_week now st) in
  exists u,
    board_frozen st = false /\
    users st1 !! user_id request = Some u /\
    was_free r = fst (is_free_placement_eligible now st1 (user_id request)) /\
    (if was_free r then cost r = 0 /\ new_balance r = credits u
     else calculate_pixel_cost st1 (x request) (y request) = Some (cost r) /\
          cost r <= credits u /\ new_balance r = credits u - cost r) /\
    placement_id r = Z.of_nat (length (placements st1)) + 1 /\
    users st' = users_after_placement request (was_free r) (cost r) st1 /\
    pixels st' =
      <[(x request, y request) :=
          mkPixel (req_color request)
                  (level_of st1 (x request) (y request) + COST_INCREMENT_CREDITS)
                  (Some (user_id request)) (req_is_ad request)
                  (sqlite_datetime_now now)]> (pixels st1) /\
    placements st' =
      placements st1 ++
        [mkPlacement (user_id request) (x request) (y request) (req_color request)
                     (cost r) (was_free r) (req_is_ad request) true
                     (color <$> pixels st1 !! (x request, y request))
                     (pixels st1 !! (x request, y request) ≫= owner_id)
                     (sqlite_datetime_now now)] /\
    reports st' = reports st1 /\ archives st' = archives st1 /\
    week_start st' = week_start st1 /\ board_frozen st' = board_frozen st1 /\
    last_placement st' = sqlite_datetime_now now.
Proof.
  unfold place_pixel, is_board_frozen.
  destruct (board_frozen st) eqn:Hfrozen; [discriminate|].
  set (st1 := snd (check_and_reset_week now st)).
  destruct (users st1 !! user_id request) as [u0|] eqn:Hu0; [|discriminate].
  destruct (now - default 0 (user_last_placement st1 !! user_id request)
            <? seconds RATE_LIMIT_SECONDS); [discriminate|].
  rewrite is_free_placement_eligible_frame.
  destruct (is_free_placement_eligible now st1 (user_id request))
    as [is_free free_reason] eqn:Hfree.
  set (st2 := set_user_last_placement (insert (user_id request) now) st1).
  change (users st2) with (users st1). rewrite Hu0.
  assert (Hcost : calculate_pixel_cost st2 (x request) (y request)
                  = calculate_pixel_cost st1 (x request) (y request)) by reflexivity.
  rewrite Hcost. clear Hcost.
  destruct (if is_free then Some 0
            else calculate_pixel_cost st1 (x request) (y request))
    as [c|] eqn:Hc; [|discriminate].
  destruct (negb is_free && (credits u0 <? c)) eqn:Hfunds; [discriminate|].
  intros H. injection H as Hst' Hr. subst r. cbn [was_free cost new_balance placement_id].
  exists u0. split; [reflexivity|]. split; [reflexivity|]. split; [reflexivity|].
  split.
  { destruct is_free; cbn in Hfunds, Hc |- *.
    - injection Hc as <-. done.
    - apply Z.ltb_ge in Hfunds. done. }
  pose proof (update_dynamic_cap_frame) as Hframe.
  match type of Hst' with update_dynamic_cap ?s = _ =>
    specialize (Hframe s); rewrite Hst' in Hframe;
    destruct Hframe as (Hu & Hp & Hpl & Hre & Har & Hws & Hlp & Hbf & _)
  end.
  rewrite Hu, Hp, Hpl, Hre, Har, Hws, Hlp, Hbf. clear.
  unfold users_after_placement, level_of.
  change (pixels st2) with (pixels st1).
  destruct (pixels st1 !! (x request, y request)) as [p|];
    destruct is_free; cbn;
    repeat match goal with |- context [if ?c then _ else _] => destruct c end;
    by repeat split.
Qed.

End Placement.

Section PlacementRejected.

Lemma check_and_reset_week_balance now st uid :
  balance (snd (check_and_reset_week now st)) uid = balance st uid.
Proof.
  unfold check_and_reset_week, balance.
  destruct (days 7 <=? now - get_week_start st); [|reflexivity].
  cbn. rewrite lookup_fmap. by destruct (users st !! uid).
Qed.

(** A rejected placement leaves the state as the week check left it, up
    to the rate limiter's entry. *)
Lemma place_pixel_rejected now request st :
  (exists r, snd (place_pixel now request st) = Ok r) \/
  fst (place_pixel now request st) = st \/
  fst (place_pixel now request st) = snd (check_and_reset_week now st) \/
  fst (place_pixel now request st)
  = set_user_last_placement (insert (user_id request) now)
                            (snd (check_and_reset_week now st)).
Proof.
  unfold place_pixel, is_board_frozen.
  destruct (board_frozen st); [by right; left|].
  set (st1 := snd (check_and_reset_week now st)).
  destruct (users st1 !! user_id request) as [u0|] eqn:Hu0; [|by right; right; left].
  destruct (now - default 0 (user_last_placement st1 !! user_id request)
            <? seconds RATE_LIMIT_SECONDS); [by right; right; left|].
  destruct (is_free_placement_eligible now _ (user_id request)) as [is_free free_reason].
  set (st2 := set_user_last_placement (insert (user_id request) now) st1).
  change (users st2) with (users st1). rewrite Hu0.
  destruct (if is_free then Some 0 else calculate_pixel_cost st2 (x request) (y request))
    as [c|]; [|by right; right; right].
  destruct (negb is_free && (credits u0 <? c)); [by right; right; right|].
  left. eexists. reflexivity.
Qed.

Lemma place_pixel_rejected_balance now request st uid :
  (forall r, snd (place_pixel now request st) <> Ok r) ->
  balance (fst (place_pixel now request st)) uid = balance st uid.
Proof.
  intros Hrej.
  destruct (place_pixel_rejected now request st) as [[r Hr]|[->|[->| ->]]].
  - by destruct (Hrej r).
  - reflexivity.
  - apply check_and_reset_week_balance.
  - apply check_and_reset_week_balance.
Qed.

End PlacementRejected.

(** ** Undoing a placement *)

Section Undo.



(** The checks [undo_placement] makes, in the order it makes them. *)
Lemma undo_placement_cases now placement_id user_id st :
  undo_placement now placement_id user_id st =
    if board_frozen st then (st, HTTPException 403 BoardFrozen)
    else match lookup_placement placement_id (placements st) with
         | None => (st, HTTPException 404 PlacementNotFound)
         | Some placement =>
           if negb (p_user_id placement =? user_id)
           then (st, HTTPException 403 NotYourPlacement)
           else if negb (can_undo placement)
           then (st, HTTPException 400 CannotUndoThisPlacement)
           else if seconds UNDO_WINDOW_SECONDS <? now - placed_at placement
           then (st, HTTPException 400 UndoWindowExpired)
           else match users st !! user_id with
                | None => (st, HTTPException 404 UserNotFound)
                | Some u =>
                  match undo_cost_of (p_cost placement) (undo_escalation_count u) with
                  | None => (st, Uncaught)
                  | Some undo_cost =>
                    if credits u <? undo_cost
                    then (st, HTTPException 402 (InsufficientCreditsForUndo undo_cost))
                    else (undone_state now placement_id user_id undo_cost placement st,
                          Ok (mkUndoResponse undo_cost (credits u - undo_cost)))
                  end
                end
         end.
Proof.
  unfold undo_placement, is_board_frozen, undone_state, pixels_after_undo.
  destruct (board_frozen st) eqn:Hfrozen; [reflexivity|].
  destruct (lookup_placement placement_id (placements st)) as [pl|]; [|reflexivity].
  destruct (negb (p_user_id pl =? user_id)); [reflexivity|].
  destruct (negb (can_undo pl)); [reflexivity|].
  destruct (seconds UNDO_WINDOW_SECONDS <? now - placed_at pl); [reflexivity|].
  destruct (users st !! user_id) as [u|]; [|reflexivity].
  destruct (undo_cost_of (p_cost pl) (undo_escalation_count u)) as [c|]; [|reflexivity].
  destruct (credits u <? c); [reflexivity|].
  unfold set_placements, set_pixels, set_users.
  cbn [users pixels placements reports archives week_start last_placement
       current_cap board_frozen user_last_placement].
  rewrite Hfrozen.
  destruct (truthy (previous_color pl)); reflexivity.
Qed.

Lemma undo_placement_ok now placement_id user_id st st' r :
  undo_placement now placement_id user_id st = (st', Ok r) ->
  exists placement u,
    board_frozen st = false /\
    lookup_placement placement_id (placements st) = Some placement /\
    p_user_id placement = user_id /\ can_undo placement = true /\
    now - placed_at placement <= seconds UNDO_WINDOW_SECONDS /\
    users st !! user_id = Some u /\
    undo_cost_of (p_cost placement) (undo_escalation_count u) = Some (undo_cost r) /\
    undo_cost r <= credits u /\
    undo_new_balance r = credits u - undo_cost r /\
    st' = undone_state now placement_id user_id (undo_cost r) placement st.
Proof.
  rewrite undo_placement_cases.
  destruct (board_frozen st); [discriminate|].
  destruct (lookup_placement placement_id (placements st)) as [pl|]; [|discriminate].
  destruct (negb (p_user_id pl =? user_id)) eqn:Howner; [discriminate|].
  destruct (negb (can_undo pl)) eqn:Hcan; [discriminate|].
  destruct (seconds UNDO_WINDOW_SECONDS <? now - placed_at pl) eqn:Hwin; [discriminate|].
  destruct (users st !! user_id) as [u|]; [|discriminate].
  destruct (undo_cost_of (p_cost pl) (undo_escalation_count u)) as [c|] eqn:Hcost;
    [|discriminate].
  destruct (credits u <? c) eqn:Hfunds; [discriminate|].
  intros H. injection H as <- <-. exists pl, u. cbn [undo_cost undo_new_balance].
  apply negb_false_iff in Howner, Hcan. apply Z.eqb_eq in Howner.
  apply Z.ltb_ge in Hwin, Hfunds. by repeat split.
Qed.

Lemma undo_placement_rejected now placement_id user_id st :
  (exists r, snd (undo_placement now placement_id user_id st) = Ok r) \/
  fst (undo_placement now placement_id user_id st) = st.
Proof.
  rewrite undo_placement_cases.
  repeat match goal with
         | |- context [if ?c then _ else _] => destruct c
         | |- context [match ?o with Some _ => _ | None => _ end] => destruct o
         end; cbn [fst snd]; eauto.
Qed.

End Undo.

(** ** Balances *)

Section Balances.

Lemma users_after_placement_other request is_free cost st uid :
  uid <> user_id request ->
  users_after_placement request is_free cost st !! uid = users st !! uid.
Proof.
  intros Hne. unfold users_after_placement.
  destruct is_free;
    repeat match goal with |- context [if ?c then _ else _] => destruct c end;
    rewrite ?lookup_alter_ne by congruence; reflexivity.
Qed.

Lemma users_after_placement_self request is_free cost st u :
  users st !! user_id request = Some u ->
  exists u',
    users_after_placement request is_free cost st !! user_id request = Some u' /\
    credits u' = (if is_free then credits u else credits u - cost) /\
    lifetime_paid_placements u' =
      (if is_free then lifetime_paid_placements u
       else lifetime_paid_placements u + 1) /\
    undo_escalation_count u' = undo_escalation_count u.
Proof.
  intros Hu. unfold users_after_placement.
  destruct is_free;
    repeat match goal with |- context [if ?c then _ else _] => destruct c end;
    rewrite ?lookup_alter_eq, ?Hu; cbn; eexists; (split; [reflexivity|]); done.
Qed.

Lemma check_and_reset_week_credits now st uid u1 :
  users (snd (check_and_reset_week now st)) !! uid = Some u1 ->
  exists u, users st !! uid = Some u /\ credits u1 = credits u /\
            lifetime_paid_placements u1 = lifetime_paid_placements u.
Proof.
  unfold check_and_reset_week.
  destruct (days 7 <=? now - get_week_start st); cbn; [|by eauto].
  rewrite lookup_fmap. destruct (users st !! uid) as [u|]; [|done].
  cbn. intros [= <-]. by exists u.
Qed.

(** A row of [users] with its balance, read through [balance]. *)
Lemma balance_lookup st st' uid u :
  balance st' uid = balance st uid -> users st !! uid = Some u ->
  exists u', users st' !! uid = Some u' /\ credits u' = credits u.
Proof.
  unfold balance. intros Hb Hu. rewrite Hu in Hb.
  destruct (users st' !! uid) as [u'|]; [|discriminate].
  injection Hb as Hb. by exists u'.
Qed.

(** C9: for every user, whoever makes the request: a balance that is
    non-negative before a placement or an undo, accepted or rejected, is
    non-negative after it, whatever the balances of the other users.  A
    placement rejected for insufficient credits leaves all balances as
    they were and an undo so rejected leaves the whole state; a paid
    placement that is committed had a balance of at least its cost, and
    an undo that goes through a balance of at least the undo cost. *)
Theorem balance_never_negative (now : Z) (st : State) (uid : Z) (u : User) :
  users st !! uid = Some u ->
  0 <= credits u ->
  (forall request,
      (exists u', users (fst (place_pixel now request st)) !! uid = Some u' /\
                  0 <= credits u') /\
      (forall need have,
          snd (place_pixel now request st)
          = HTTPException 402 (InsufficientCredits need have) ->
          forall uid', balance (fst (place_pixel now request st)) uid' = balance st uid') /\
      (forall r u0,
          snd (place_pixel now request st) = Ok r -> was_free r = false ->
          users st !! user_id request = Some u0 -> cost r <= credits u0)) /\
  (forall placement_id user_id,
      (exists u', users (fst (undo_placement now placement_id user_id st)) !! uid = Some u' /\
                  0 <= credits u') /\
      (forall need,
          snd (undo_placement now placement_id user_id st)
          = HTTPException 402 (InsufficientCreditsForUndo need) ->
          fst (undo_placement now placement_id user_id st) = st) /\
      (forall r u0,
          snd (undo_placement now placement_id user_id st) = Ok r ->
          users st !! user_id = Some u0 -> undo_cost r <= credits u0)).
Proof.
  intros Hu Hnn. split.
  - intros request.
    destruct (place_pixel now request st) as [st' res] eqn:Hplace. cbn [fst snd].
    destruct (balance_lookup st (snd (check_and_reset_week now st)) uid u
                (check_and_reset_week_balance now st uid) Hu) as (u1 & Hu1 & Hc1).
    assert (Hrej : (forall r, res <> Ok r) ->
                   forall uid', balance st' uid' = balance st uid').
    { intros Hno uid'.
      replace st' with (fst (place_pixel now request st)) by (by rewrite Hplace).
      apply place_pixel_rejected_balance. by rewrite Hplace. }
    split; [|split].
    + destruct res as [r| |].
      * destruct (place_pixel_committed _ _ _ _ _ Hplace)
          as (u2 & _ & Hu2 & _ & Hpay & _ & Husers & _).
        rewrite Husers.
        destruct (decide (uid = user_id request)) as [->|Hne].
        -- destruct (users_after_placement_self request (was_free r) (cost r) _ u2 Hu2)
             as (u'' & Hu'' & Hc & _).
           exists u''. split; [exact Hu''|]. rewrite Hc.
           rewrite Hu1 in Hu2. injection Hu2 as <-.
           destruct (was_free r); [lia|]. destruct Hpay as (_ & ? & _). lia.
        -- rewrite users_after_placement_other by done.
           exists u1. split; [exact Hu1|lia].
      * destruct (balance_lookup st st' uid u (Hrej ltac:(congruence) uid) Hu)
          as (u' & Hu' & Hc). exists u'. split; [exact Hu'|lia].
      * destruct (balance_lookup st st' uid u (Hrej ltac:(congruence) uid) Hu)
          as (u' & Hu' & Hc). exists u'. split; [exact Hu'|lia].
    + intros need have ->. apply Hrej. congruence.
    + intros r u0 -> Hpaid Hu0.
      destruct (place_pixel_committed _ _ _ _ _ Hplace)
        as (u2 & _ & Hu2 & _ & Hpay & _).
      rewrite Hpaid in Hpay. destruct Hpay as (_ & Hle & _).
      destruct (balance_lookup st (snd (check_and_reset_week now st)) (user_id request) u0
                  (check_and_reset_week_balance now st _) Hu0) as (u3 & Hu3 & Hc3).
      rewrite Hu3 in Hu2. injection Hu2 as <-. lia.
  - intros placement_id user_id.
    destruct (undo_placement now placement_id user_id st) as [st' res] eqn:Hundo.
    cbn [fst snd].
    assert (Hrej : (forall r, res <> Ok r) -> st' = st).
    { intros Hno.
      destruct (undo_placement_rejected now placement_id user_id st) as [[r Hr]|Heq];
        rewrite Hundo in *; cbn in *; [by destruct (Hno r)|done]. }
    split; [|split].
    + destruct res as [r| |].
      * destruct (undo_placement_ok _ _ _ _ _ _ Hundo)
          as (pl & u2 & _ & _ & _ & _ & _ & Hu2 & _ & Hle & _ & ->).
        cbn [undone_state users].
        destruct (decide (user_id = uid)) as [->|Hne].
        -- rewrite lookup_alter_eq, Hu2. eexists. split; [reflexivity|].
           rewrite Hu in Hu2. injection Hu2 as <-. cbn. lia.
        -- rewrite lookup_alter_ne by done. by exists u.
      * rewrite Hrej by congruence. by exists u.
      * rewrite Hrej by congruence. by exists u.
    + intros need ->. apply Hrej. congruence.
    + intros r u0 -> Hu0.
      destruct (undo_placement_ok _ _ _ _ _ _ Hundo)
        as (pl & u2 & _ & _ & _ & _ & _ & Hu2 & _ & Hle & _).
      rewrite Hu0 in Hu2. by injection Hu2 as <-.
Qed.

(** Alice holds 5000 credits while bob owes 50: bob's free placement
    leaves alice's balance non-negative. *)
Lemma balance_never_negative_witness :
  users (db DebtExamples.with_bob) !! 1 = Some Examples.alice /\
  balance (db DebtExamples.with_bob) 2 = Some (-50) /\
  exists u', users (fst DebtExamples.bob_painted) !! 1 = Some u' /\ 0 <= credits u'.
Proof.
  assert (H : users (db DebtExamples.with_bob) !! 1 = Some Examples.alice)
    by (vm_compute; reflexivity).
  split; [exact H|]. split; [vm_compute; reflexivity|].
  apply (proj1 (proj1 (balance_never_negative Examples.half_hour_later
                         (db DebtExamples.with_bob) 1 Examples.alice H
                         ltac:(vm_compute; congruence))
                      DebtExamples.bob_paints)).
Defined.

End Balances.

(** ** Undo: rejections and effects *)

Section UndoTheorems.

(** C7: an undo request for a record whose [can_undo] is already 0 is
    rejected and the state is the one it found: no balance, counter,
    cell or record changes.  The rejection is "Board is frozen" (403)
    on a frozen board, "Not your placement" (403) for another user, and
    otherwise "Cannot undo this placement" (400). *)
Theorem undo_of_undone_rejected (now placement_id user_id : Z) (st : State)
                                (placement : Placement) :
  lookup_placement placement_id (placements st) = Some placement ->
  can_undo placement = false ->
  exists status detail,
    undo_placement now placement_id user_id st = (st, HTTPException status detail) /\
    (detail = BoardFrozen \/ detail = NotYourPlacement \/
     detail = CannotUndoThisPlacement) /\
    (status = 400 \/ status = 403) /\
    (board_frozen st = false -> p_user_id placement = user_id ->
     status = 400 /\ detail = CannotUndoThisPlacement).
Proof.
  intros Hlookup Hcan. rewrite undo_placement_cases, Hlookup, Hcan.
  destruct (board_frozen st).
  { exists 403, BoardFrozen. repeat split; auto; discriminate. }
  destruct (Z.eqb_spec (p_user_id placement) user_id) as [Heq|Hne]; cbn [negb].
  - exists 400, CannotUndoThisPlacement. repeat split; auto.
  - exists 403, NotYourPlacement. repeat split; auto; intros; contradiction.
Qed.

(** The record of [Examples.after_undo] has been undone once. *)
Lemma undo_of_undone_rejected_witness :
  lookup_placement 1 (placements Examples.after_undo) = Some Examples.undone_record /\
  can_undo Examples.undone_record = false /\
  exists status detail,
    undo_placement (Examples.t0 + seconds 6) 1 1 Examples.after_undo
    = (Examples.after_undo, HTTPException status detail) /\
    (detail = BoardFrozen \/ detail = NotYourPlacement \/
     detail = CannotUndoThisPlacement) /\
    (status = 400 \/ status = 403) /\
    (board_frozen Examples.after_undo = false ->
     p_user_id Examples.undone_record = 1 ->
     status = 400 /\ detail = CannotUndoThisPlacement).
Proof.
  split; [reflexivity|]. split; [reflexivity|].
  apply (undo_of_undone_rejected (Examples.t0 + seconds 6) 1 1 Examples.after_undo
                                 Examples.undone_record); reflexivity.
Defined.




End UndoTheorems.

Section UndoEffects.

Lemma lookup_placement_appended log record :
  lookup_placement (Z.of_nat (length log) + 1) (log ++ [record]) = Some record.
Proof.
  unfold lookup_placement.
  replace (Z.of_nat (length log) + 1 <? 1) with false by (symmetry; apply Z.ltb_ge; lia).
  replace (Z.to_nat (Z.of_nat (length log) + 1 - 1)) with (length log) by lia.
  by rewrite list_lookup_middle.
Qed.

Lemma lookup_placement_alter_eq f id log :
  lookup_placement id (alter f (Z.to_nat (id - 1)) log) = f <$> lookup_placement id log.
Proof.
  unfold lookup_placement. destruct (id <? 1); [reflexivity|].
  apply list_lookup_alter_eq.
Qed.

Lemma lookup_placement_alter_ne f id other log :
  1 <= id -> other <> id ->
  lookup_placement other (alter f (Z.to_nat (id - 1)) log) = lookup_placement other log.
Proof.
  intros Hid Hne. unfold lookup_placement.
  destruct (Z.ltb_spec other 1); [reflexivity|].
  apply list_lookup_alter_ne. lia.
Qed.

Lemma lookup_placement_pos id log placement :
  lookup_placement id log = Some placement -> 1 <= id.
Proof.
  unfold lookup_placement. destruct (Z.ltb_spec id 1); [discriminate|lia].
Qed.

(** C2, as the code has it: a successful undo marks the record undone
    and changes no other record.  When the record holds a previous color
    and the cell has a row, it puts that color and the previous owner
    back on the cell and leaves the cell's [cost_level] and [is_ad] as
    they are; when the cell has no row (the undo of an older record has
    deleted it) the [UPDATE] matches nothing and the cell stays absent;
    when the record holds no previous color it deletes the cell.  No
    other cell changes.  The user pays the undo cost and has one more
    undo counted, while [lifetime_paid_placements] stays as the
    placement left it; no other user changes. *)
Theorem undo_effects (now placement_id user_id : Z) (st st' : State) (r : UndoResponse) :
  undo_placement now placement_id user_id st = (st', Ok r) ->
  exists placement u,
    lookup_placement placement_id (placements st) = Some placement /\
    users st !! user_id = Some u /\
    lookup_placement placement_id (placements st')
    = Some (with_can_undo false placement) /\
    (forall other, other <> placement_id ->
        lookup_placement other (placements st') = lookup_placement other (placements st)) /\
    (if truthy (previous_color placement)
     then match pixels st !! (p_x placement, p_y placement),
                pixels st' !! (p_x placement, p_y placement) with
          | Some p, Some p' =>
              Some (color p') = previous_color placement /\
              owner_id p' = previous_owner_id placement /\
              cost_level p' = cost_level p /\ is_ad p' = is_ad p
          | None, None => True
          | _, _ => False
          end
     else pixels st' !! (p_x placement, p_y placement) = None) /\
    (forall xy, xy <> (p_x placement, p_y placement) ->
        pixels st' !! xy = pixels st !! xy) /\
    users st' !! user_id
    = Some (mkUser (credits u - undo_cost r) (lifetime_paid_placements u)
                   (undo_escalation_count u + 1) (ad_violation_count u)) /\
    (forall other, other <> user_id -> users st' !! other = users st !! other).
Proof.
  intros Hundo.
  destruct (undo_placement_ok _ _ _ _ _ _ Hundo)
    as (pl & u & _ & Hl & _ & _ & _ & Hu & _ & _ & _ & ->).
  exists pl, u. split; [exact Hl|]. split; [exact Hu|].
  cbn [undone_state placements pixels users].
  split; [by rewrite lookup_placement_alter_eq, Hl|].
  split.
  { intros other Hne. apply lookup_placement_alter_ne; [|done].
    by apply (lookup_placement_pos _ _ _ Hl). }
  unfold pixels_after_undo. split; [|split; [|split]].
  - destruct (truthy (previous_color pl)) eqn:Htruthy.
    + rewrite lookup_alter_eq.
      destruct (pixels st !! (p_x pl, p_y pl)) as [p|]; cbn; [|done].
      destruct (previous_color pl); [done|discriminate].
    + apply lookup_delete_eq.
  - intros xy Hne.
    destruct (truthy (previous_color pl));
      [by rewrite lookup_alter_ne|by rewrite lookup_delete_ne].
  - by rewrite lookup_alter_eq, Hu.
  - intros other Hne. by rewrite lookup_alter_ne.
Qed.

(** The undo of [Examples.free_record] goes through. *)
Lemma undo_effects_witness :
  let undone := undo_placement (Examples.t0 + seconds 1801) 1 1
                               Examples.after_free_placement in
  snd undone = Ok (mkUndoResponse 0 0) /\
  exists placement u,
    lookup_placement 1 (placements Examples.after_free_placement) = Some placement /\
    users Examples.after_free_placement !! 1 = Some u /\
    lookup_placement 1 (placements (fst undone)) = Some (with_can_undo false placement) /\
    pixels (fst undone) !! (p_x placement, p_y placement) = None /\
    users (fst undone) !! 1
    = Some (mkUser (credits u - 0) (lifetime_paid_placements u)
                   (undo_escalation_count u + 1) (ad_violation_count u)).
Proof.
  cbv zeta. split; [vm_compute; reflexivity|].
  destruct (undo_effects (Examples.t0 + seconds 1801) 1 1
              Examples.after_free_placement
              (fst (undo_placement (Examples.t0 + seconds 1801) 1 1
                                   Examples.after_free_placement))
              (mkUndoResponse 0 0))
    as (placement & u & H1 & H2 & H3 & _ & H5 & _ & H7 & _).
  - vm_compute. reflexivity.
  - exists placement, u. repeat split; assumption || reflexivity.
Defined.

(** C2 does not hold as stated: user 1 paints over the cell of
    [Examples.painted] for 2000 credits, which takes the cell from level
    1000 to 2000 and the user's paid placements from 0 to 1, and undoes
    it; the color and owner are back, the level is still 2000 and the
    count still 1. *)
Lemma undo_keeps_level_and_paid_count :
  let placed := place_pixel (Examples.t0 + seconds 5) Examples.white_at_3_4
                            Examples.painted in
  let undone := undo_placement (Examples.t0 + seconds 6) 2 1 (fst placed) in
  snd placed = Ok (mkPlacePixelResponse 2000 false 3000 "Pixel placed" 2) /\
  snd undone = Ok (mkUndoResponse 500 2500) /\
  level_of Examples.painted 3 4 = 1000 /\
  level_of (fst placed) 3 4 = 2000 /\
  level_of (fst undone) 3 4 = 2000 /\
  level_of (fst undone) 3 4 <> level_of (fst placed) 3 4 - COST_INCREMENT_CREDITS /\
  lifetime_paid_placements <$> users Examples.painted !! 1 = Some 0 /\
  lifetime_paid_placements <$> users (fst placed) !! 1 = Some 1 /\
  lifetime_paid_placements <$> users (fst undone) !! 1 = Some 1 /\
  color <$> pixels (fst undone) !! (3, 4) = Some "#000000"%string /\
  (pixels (fst undone) !! (3, 4)) ≫= owner_id = Some 2.
Proof. vm_compute. repeat split; congruence. Qed.

(** The restoring [UPDATE] finds no row when an earlier undo has deleted
    the cell: user 1 paints the empty cell (3, 4) white and then black,
    and undoes the first placement, which deletes the cell.  The undo of
    the second placement is then charged 700 credits and marks its
    record, whose previous color is white, but the board stays without
    the cell. *)
Lemma undo_after_the_cell_was_deleted :
  let undone := undo_placement (Examples.t0 + seconds 17) 2 1
                               TwiceExamples.first_undone in
  (color <$> pixels TwiceExamples.painted_twice !! (3, 4)) = Some "#000000"%string /\
  snd (undo_placement (Examples.t0 + seconds 16) 1 1 TwiceExamples.painted_twice)
  = Ok (mkUndoResponse 250 1750) /\
  pixels TwiceExamples.first_undone !! (3, 4) = None /\
  (lookup_placement 2 (placements TwiceExamples.first_undone) ≫= previous_color)
  = Some "#ffffff"%string /\
  snd undone = Ok (mkUndoResponse 700 1050) /\
  pixels (fst undone) = ∅ /\
  (can_undo <$> lookup_placement 2 (placements (fst undone))) = Some false /\
  balance (fst undone) 1 = Some 1050.
Proof. vm_compute. repeat split; reflexivity. Qed.

End UndoEffects.

(** ** Placing and undoing *)

Section PlaceThenUndo.

(** C1, as the code has it: when a paid placement of user [u] is
    undone by [u] right after, the balance after the undo is the balance
    before the placement minus the cost of the placement minus the undo
    cost; nothing of the cost is given back.  The undo cost is the
    code's [int(original_cost * (0.25 + undo_count * 0.10))] at the
    user's count of earlier undos, which for a first undo is a quarter
    of the cost, rounded toward zero. *)
Theorem place_then_undo_balance (now now' : Z) (request : PlacePixelRequest)
                                (st st1 st2 : State) (r : PlacePixelResponse)
                                (ur : UndoResponse) :
  place_pixel now request st = (st1, Ok r) ->
  was_free r = false ->
  undo_placement now' (placement_id r) (user_id request) st1 = (st2, Ok ur) ->
  exists before u1,
    balance st (user_id request) = Some before /\
    users st1 !! user_id request = Some u1 /\
    balance st1 (user_id request) = Some (before - cost r) /\
    new_balance r = before - cost r /\
    undo_cost_of (cost r) (undo_escalation_count u1) = Some (undo_cost ur) /\
    balance st2 (user_id request) = Some (before - cost r - undo_cost ur) /\
    undo_new_balance ur = before - cost r - undo_cost ur /\
    (undo_escalation_count u1 = 0 -> Z.abs (cost r) < 2 ^ 53 ->
     undo_cost ur = Z.quot (cost r) 4).
Proof.
  intros Hplace Hpaid Hundo.
  destruct (place_pixel_committed _ _ _ _ _ Hplace)
    as (u & _ & Hu & _ & Hpay & Hid & Husers & _ & Hlog & _).
  rewrite Hpaid in Hpay, Husers, Hlog. destruct Hpay as (_ & _ & Hnew).
  destruct (check_and_reset_week_credits _ _ _ _ Hu) as (u0 & Hu0 & Hc0 & _).
  destruct (users_after_placement_self request false (cost r) _ u Hu)
    as (u1 & Hu1 & Hc1 & _ & _).
  rewrite <- Husers in Hu1.
  destruct (undo_placement_ok _ _ _ _ _ _ Hundo)
    as (pl & u1' & _ & Hl & _ & _ & _ & Hu1' & Hcost & _ & Hnew' & ->).
  rewrite Hu1 in Hu1'. injection Hu1' as <-.
  rewrite Hid, Hlog, lookup_placement_appended in Hl. injection Hl as <-.
  cbn [p_cost] in Hcost.
  exists (credits u0), u1. unfold balance.
  rewrite Hu0, Hu1. cbn [undone_state users]. rewrite lookup_alter_eq, Hu1. cbn.
  repeat split; try (f_equal; lia); try lia; try done.
  intros Hfirst Hrange. rewrite Hfirst, undo_cost_first in Hcost by done.
  by injection Hcost.
Qed.

(** User 1 paints (3, 4) on the empty board and undoes it a second
    later. *)
Lemma place_then_undo_balance_witness :
  let placed := place_pixel (Examples.t0 + seconds 5) Examples.white_at_3_4
                            Examples.fresh in
  let undone := undo_placement (Examples.t0 + seconds 6) 1 1 (fst placed) in
  snd placed = Ok (mkPlacePixelResponse 1000 false 4000 "Pixel placed" 1) /\
  snd undone = Ok (mkUndoResponse 250 3750) /\
  exists before u1,
    balance Examples.fresh 1 = Some before /\
    users (fst placed) !! 1 = Some u1 /\
    balance (fst placed) 1 = Some (before - 1000) /\
    undo_cost_of 1000 (undo_escalation_count u1) = Some 250 /\
    balance (fst undone) 1 = Some (before - 1000 - 250).
Proof.
  cbv zeta. split; [vm_compute; reflexivity|]. split; [vm_compute; reflexivity|].
  destruct (place_then_undo_balance
              (Examples.t0 + seconds 5) (Examples.t0 + seconds 6)
              Examples.white_at_3_4 Examples.fresh
              (fst (place_pixel (Examples.t0 + seconds 5) Examples.white_at_3_4
                                Examples.fresh))
              (fst (undo_placement (Examples.t0 + seconds 6) 1 1
                      (fst (place_pixel (Examples.t0 + seconds 5)
                                        Examples.white_at_3_4 Examples.fresh))))
              (mkPlacePixelResponse 1000 false 4000 "Pixel placed" 1)
              (mkUndoResponse 250 3750))
    as (before & u1 & H1 & H2 & H3 & _ & H5 & H6 & _).
  - vm_compute. reflexivity.
  - reflexivity.
  - vm_compute. reflexivity.
  - exists before, u1. auto.
Defined.

(** C1 does not hold as stated: with 5000 credits before a placement of
    1000 and an undo cost of 250, the balance after the undo is 3750,
    not 5000 - 250. *)
Lemma undo_gives_nothing_back :
  let placed := place_pixel (Examples.t0 + seconds 5) Examples.white_at_3_4
                            Examples.fresh in
  let undone := undo_placement (Examples.t0 + seconds 6) 1 1 (fst placed) in
  balance Examples.fresh 1 = Some 5000 /\
  snd placed = Ok (mkPlacePixelResponse 1000 false 4000 "Pixel placed" 1) /\
  snd undone = Ok (mkUndoResponse 250 3750) /\
  balance (fst undone) 1 = Some 3750 /\
  balance (fst undone) 1 <> Some (5000 - 250).
Proof. vm_compute. repeat split; congruence. Qed.

(** A free placement is logged with cost 0, undoable, under its user. *)
Lemma free_placement_record now request st st' r :
  place_pixel now request st = (st', Ok r) ->
  was_free r = true ->
  exists placement,
    lookup_placement (placement_id r) (placements st') = Some placement /\
    p_cost placement = 0 /\ p_was_free placement = true /\
    can_undo placement = true /\ p_user_id placement = user_id request /\
    placed_at placement = sqlite_datetime_now now /\
    board_frozen st' = false.
Proof.
  intros Hplace Hfree.
  destruct (place_pixel_committed _ _ _ _ _ Hplace)
    as (u & Hf & _ & _ & Hpay & Hid & _ & _ & Hlog & _ & _ & _ & Hbf & _).
  rewrite Hfree in Hpay. destruct Hpay as [Hcost _].
  rewrite Hid, Hlog, lookup_placement_appended. eexists. split; [reflexivity|].
  cbn. rewrite Hbf. repeat split; try done.
  unfold check_and_reset_week.
  destruct (days 7 <=? now - get_week_start st); cbn; done.
Qed.

End PlaceThenUndo.

(** ** Pricing *)

Section Pricing.
Import Float64 Rounding Float64Facts.

(** The double of an integer of at least [2^k]: its exponent is at least
    [k - 52]. *)
Lemma of_int_normal_above k n :
  0 <= k -> 2 ^ k <= n < 2 ^ 63 ->
  exists x, of_int n = Some x /\ normal_pos x (k - 52) 11.
Proof.
  intros Hk Hn.
  assert (Hpos : 0 < 2 ^ k) by (apply Z.pow_pos_nonneg; lia).
  destruct (abs_digits n 63) as (d & Hd & Hr); [lia|lia|].
  rewrite Z.abs_eq in Hr by lia.
  assert (Hkd : k < d).
  { destruct (Z.lt_ge_cases k d) as [|Hge]; [assumption|].
    assert (2 ^ d <= 2 ^ k) by (apply Z.pow_le_mono_r; lia). lia. }
  destruct (Z.le_gt_cases d 53) as [Hs|Hl].
  - destruct (of_int_small n d) as (x & Hx & (p & -> & Hp)); [lia|rewrite Z.abs_eq; lia|].
    replace (n <? 0) with false in Hx by (symmetry; apply Z.ltb_ge; lia).
    exists (S754_finite false p (d - 53)). split; [exact Hx|].
    exists p, (d - 53). split; [reflexivity|]. split; [|lia].
    rewrite Hp, Z.abs_eq by lia. apply scaled_range; lia.
  - destruct (binary_round_wide false (Z.to_pos n) 0 d) as (m2 & _ & Hr2 & Heq);
      [lia|rewrite Z2Pos.id by lia; exact Hr|lia|lia|].
    destruct (rounded_normal_pos m2 (0 + (d - 53)) Hr2) as (p & e & Hf & Hp & He).
    exists (S754_finite false p e). split.
    + unfold of_int. destruct n; try lia. unfold binary_normalize.
      simpl Z.to_pos in Heq. rewrite Heq, Hf. reflexivity.
    + exists p, e. split; [reflexivity|]. split; [exact Hp|lia].
Qed.

(** The integer part of a positive normal float of exponent at least
    [lo]. *)
Lemma to_int_normal_pos_above f lo hi :
  normal_pos f lo hi -> -52 <= lo ->
  exists v, to_int f = Some v /\ 2 ^ (52 + lo) <= v.
Proof.
  intros (p & e & -> & Hp & He) Hlo. unfold to_int. eexists. split; [reflexivity|].
  cbn [cond_Zopp].
  assert (Hmono : 2 ^ (52 + lo) <= 2 ^ (52 + e)) by (apply Z.pow_le_mono_r; lia).
  destruct e as [|k|k].
  - change (2 ^ 0) with 1. rewrite Z.add_0_r in Hmono. lia.
  - rewrite (Z.pow_add_r 2 52 (Z.pos k)) in Hmono by lia.
    assert (0 < 2 ^ Z.pos k) by (apply Z.pow_pos_nonneg; lia). nia.
  - assert (Hq : 0 < 2 ^ Z.pos k) by (apply Z.pow_pos_nonneg; lia).
    apply Z.div_le_lower_bound; [exact Hq|].
    assert (Hsplit : 2 ^ 52 = 2 ^ Z.pos k * 2 ^ (52 + Z.neg k)).
    { rewrite <- Z.pow_add_r by lia. f_equal. lia. }
    assert (Hle : 2 ^ Z.pos k * 2 ^ (52 + lo) <= 2 ^ Z.pos k * 2 ^ (52 + Z.neg k))
      by (apply Z.mul_le_mono_nonneg_l; lia).
    lia.
Qed.

(** Over an ad whose price before the discount is [2^49] or more, the
    float product is far above any cap the program sets. *)
Lemma ad_discounted_large c :
  2 ^ 49 <= c < 2 ^ 63 -> exists v, ad_discounted c = Some v /\ 2 ^ 48 <= v.
Proof.
  intros Hc. unfold ad_discounted. rewrite one_minus_discount. cbn [bind_opt].
  destruct (of_int_normal_above 49 c) as (x & Hx & Hnx); [lia|exact Hc|].
  unfold int_mul. rewrite Hx. cbn [bind_opt].
  assert (Hf : normal_pos (S754_finite false 8106479329266893 (-53)) (-53) (-53)).
  { eexists _, _. split; [reflexivity|]. rewrite pow2_52, pow2_53. lia. }
  pose proof (mul_normal_pos _ _ _ _ _ _ Hnx Hf ltac:(lia) ltac:(lia)) as Hm.
  destruct (to_int_normal_pos_above _ _ _ Hm ltac:(lia)) as (v & Hv & Hlow).
  exists v. split; [exact Hv|].
  replace (52 + (49 - 52 + -53 + 52)) with 48 in Hlow by lia. exact Hlow.
Qed.

(** C4: for every cell (level [L] below [2^62] and not under [-2^48],
    ad flag [A]) and each of the two caps the program sets, 200000 and
    150000, [calculate_pixel_cost] is the cost the specification words:
    1000 plus the level, nine tenths of it truncated toward zero over an
    ad, and at most the cap.  Where the float product of the discount is
    not the exact truncation (prices of [2^49] and more), both lie above
    the cap and the cap is what is charged.  The function takes the
    state and returns no state: the cell is read, not written. *)
Theorem calculate_pixel_cost_spec (st : State) (x y : Z) :
  cap_in_range st ->
  - 2 ^ 48 <= level_of st x y < 2 ^ 62 ->
  calculate_pixel_cost st x y
  = Some (spec_placement_cost (level_of st x y) (ad_flag_of st x y) (current_cap st)).
Proof.
  intros Hcap Hrange.
  assert (Hc : current_cap st <= 200000).
  { destruct Hcap as [-> | ->]; unfold INITIAL_CAP_CREDITS, LOWER_CAP_CREDITS; lia. }
  unfold calculate_pixel_cost, spec_placement_cost, level_of, ad_flag_of,
    get_current_cap, BASE_COST_CREDITS, COST_INCREMENT_CREDITS in *.
  set (level := match pixels st !! (x, y) with Some p => cost_level p | None => 0 end) in *.
  rewrite Z.div_mul, Z.quot_mul by lia.
  destruct (match pixels st !! (x, y) with Some p => is_ad p | None => false end);
    [|reflexivity].
  destruct (Z.lt_ge_cases (1000 + level) (2 ^ 49)) as [Hsmall|Hlarge].
  - rewrite ad_discounted_exact by (change (2 ^ 49) with (2 * 2 ^ 48) in *; lia).
    reflexivity.
  - destruct (ad_discounted_large (1000 + level)) as (v & -> & Hv).
    { change (2 ^ 63) with (2 * 2 ^ 62). lia. }
    cbn [bind_opt]. f_equal.
    assert (H48 : 200000 < 2 ^ 48) by reflexivity.
    assert (H49 : 2 ^ 49 = 2 * 2 ^ 48) by reflexivity.
    assert (Hq : 2 ^ 48 <= Z.quot ((1000 + level) * 9) 10).
    { rewrite Z.quot_div_nonneg by lia.
      apply Z.div_le_lower_bound; lia. }
    lia.
Qed.

(** The ad of [Examples.ad_cell] costs [int(6000 * 0.9)]. *)
Lemma calculate_pixel_cost_spec_witness :
  cap_in_range Examples.ad_cell /\
  calculate_pixel_cost Examples.ad_cell 0 0 = Some 5400.
Proof.
  assert (H : cap_in_range Examples.ad_cell) by (by left).
  split; [exact H|].
  rewrite (calculate_pixel_cost_spec Examples.ad_cell 0 0 H
             ltac:(vm_compute; split; congruence)).
  reflexivity.
Defined.

(** The cap is what hides the float product: over an ad whose price
    before the discount is [2^53], under a cap of [10^16] (no cap of the
    program), the code's product is 8106479329266893 while nine tenths
    of [2^53], truncated, is 8106479329266892. *)
Lemma calculate_pixel_cost_float_rounding :
  level_of Examples.huge_level 0 0 = 2 ^ 53 - 1000 /\
  ad_flag_of Examples.huge_level 0 0 = true /\
  current_cap Examples.huge_level = 10 ^ 16 /\
  calculate_pixel_cost Examples.huge_level 0 0 = Some 8106479329266893 /\
  spec_placement_cost (2 ^ 53 - 1000) true (10 ^ 16) = 8106479329266892 /\
  calculate_pixel_cost Examples.huge_level 0 0
  <> Some (spec_placement_cost (level_of Examples.huge_level 0 0)
                               (ad_flag_of Examples.huge_level 0 0)
                               (current_cap Examples.huge_level)).
Proof. vm_compute. repeat split; congruence. Qed.

End Pricing.

(** ** Escalation levels *)

Section Levels.

Lemma check_and_reset_week_idle now st :
  now - week_start st < days 7 -> check_and_reset_week now st = (false, st).
Proof.
  intros H. unfold check_and_reset_week, get_week_start.
  by replace (days 7 <=? now - week_start st) with false
    by (symmetry; apply Z.leb_gt; exact H).
Qed.

(** One request within the week: the level of a cell goes up by
    [COST_INCREMENT_CREDITS] when a placement is committed on it, free or
    paid, and stays otherwise. *)
Lemma place_pixel_level now request st cx cy :
  now - week_start st < days 7 ->
  level_of (fst (place_pixel now request st)) cx cy
  = level_of st cx cy
    + COST_INCREMENT_CREDITS
      * committed_on_cell cx cy request (snd (place_pixel now request st)) /\
  week_start (fst (place_pixel now request st)) = week_start st.
Proof.
  intros Hweek.
  pose proof (check_and_reset_week_idle now st Hweek) as Hidle.
  destruct (place_pixel now request st) as [st' res] eqn:Hplace. cbn [fst snd].
  destruct res as [r| |].
  - destruct (place_pixel_committed _ _ _ _ _ Hplace)
      as (u & _ & _ & _ & _ & _ & _ & Hpx & _ & _ & _ & Hws & _).
    rewrite Hidle in Hpx, Hws. cbn [snd] in Hpx, Hws. split; [|exact Hws].
    unfold level_of at 1. rewrite Hpx. cbn [committed_on_cell].
    destruct (Z.eqb_spec (x request) cx) as [->|Hx];
      destruct (Z.eqb_spec (y request) cy) as [->|Hy]; cbn [andb].
    + rewrite lookup_insert_eq. cbn. lia.
    + rewrite lookup_insert_ne by congruence. fold (level_of st cx cy). lia.
    + rewrite lookup_insert_ne by congruence. fold (level_of st cx cy). lia.
    + rewrite lookup_insert_ne by congruence. fold (level_of st cx cy). lia.
  - cbn [committed_on_cell].
    destruct (place_pixel_rejected now request st) as [[r Hr]|Hst];
      rewrite Hplace in *; cbn [fst snd] in *; [discriminate|].
    rewrite Hidle in Hst. cbn [snd] in Hst.
    destruct Hst as [->|[->| ->]]; split; try reflexivity; unfold level_of; cbn; lia.
  - cbn [committed_on_cell].
    destruct (place_pixel_rejected now request st) as [[r Hr]|Hst];
      rewrite Hplace in *; cbn [fst snd] in *; [discriminate|].
    rewrite Hidle in Hst. cbn [snd] in Hst.
    destruct Hst as [->|[->| ->]]; split; try reflexivity; unfold level_of; cbn; lia.
Qed.

(** C3, as the code has it: over any sequence of placement requests
    served within one week, the level of a cell ends
    [COST_INCREMENT_CREDITS] (1000) above where it started for every
    placement committed on it, free placements counted like paid ones;
    from the 0 a reset leaves, that is 1000 times their number. *)
Theorem level_counts_committed_placements (cx cy : Z)
    (events : list (Z * PlacePixelRequest)) (st : State) :
  Forall (fun ev => fst ev - week_start st < days 7) events ->
  level_of (place_all events st) cx cy
  = level_of st cx cy
    + COST_INCREMENT_CREDITS * committed_placements cx cy events st /\
  (level_of st cx cy = 0 ->
   level_of (place_all events st) cx cy
   = 1000 * committed_placements cx cy events st).
Proof.
  intros Hweek.
  assert (H : level_of (place_all events st) cx cy
              = level_of st cx cy
                + COST_INCREMENT_CREDITS * committed_placements cx cy events st).
  { revert st Hweek. induction events as [|[now request] rest IH]; intros st Hweek.
    - cbn. lia.
    - apply Forall_cons in Hweek as [Hnow Hrest]. cbn [fst] in Hnow.
      destruct (place_pixel_level now request st cx cy Hnow) as [Hlevel Hws].
      cbn [place_all committed_placements].
      rewrite IH by (by rewrite Hws). rewrite Hlevel. lia. }
  split; [exact H|]. intros H0. rewrite H, H0. unfold COST_INCREMENT_CREDITS. lia.
Qed.

(** A paid and a free placement on the same cell of the empty board. *)
Lemma level_counts_committed_placements_witness :
  let events := [(Examples.t0 + seconds 5, Examples.white_at_3_4);
                 (Examples.t0 + seconds 1805, Examples.white_at_3_4)] in
  Forall (fun ev => fst ev - week_start Examples.fresh < days 7) events /\
  committed_placements 3 4 events Examples.fresh = 2 /\
  level_of (place_all events Examples.fresh) 3 4 = 0 + COST_INCREMENT_CREDITS * 2.
Proof.
  cbv zeta.
  assert (H : Forall (fun ev => fst ev - week_start Examples.fresh < days 7)
                [(Examples.t0 + seconds 5, Examples.white_at_3_4);
                 (Examples.t0 + seconds 1805, Examples.white_at_3_4)])
    by (repeat constructor; vm_compute; reflexivity).
  split; [exact H|]. split; [vm_compute; reflexivity|].
  rewrite (proj1 (level_counts_committed_placements 3 4 _ Examples.fresh H)).
  vm_compute. reflexivity.
Defined.

(** C3 does not hold as stated: on the empty board a paid placement
    takes the cell's level from 0 to 1000, not to 1, and a free one,
    half an hour after the last placement, takes it from 0 to 1000 as
    well instead of leaving it. *)
Lemma free_placement_raises_level :
  let paid := place_pixel (Examples.t0 + seconds 5) Examples.white_at_3_4
                          Examples.fresh in
  let free := place_pixel Examples.half_hour_later Examples.white_at_3_4
                          Examples.fresh in
  level_of Examples.fresh 3 4 = 0 /\
  snd paid = Ok (mkPlacePixelResponse 1000 false 4000 "Pixel placed" 1) /\
  level_of (fst paid) 3 4 = 1000 /\
  level_of (fst paid) 3 4 <> level_of Examples.fresh 3 4 + 1 /\
  snd free = Ok (mkPlacePixelResponse 0 true 5000 "Pixel placed (free: inactivity)" 1) /\
  level_of (fst free) 3 4 = 1000 /\
  level_of (fst free) 3 4 <> level_of Examples.fresh 3 4.
Proof. vm_compute. repeat split; congruence. Qed.

End Levels.

(** ** Free placements: the two triggers *)

Section EligibilityTheorems.

(** C5, as the code has it: a placement is free with reason
    "inactivity" exactly when at least 1800 seconds have passed since
    the last placement of anyone and the user has at most 500 paid
    placements; otherwise free with reason "end_of_week" exactly when
    less than 21600 seconds remain of the week and the same ceiling
    holds; otherwise paid.  A committed placement is free exactly when
    this says so, and then costs 0. *)
Theorem is_free_placement_eligible_spec (now : Z) (st : State) (uid : Z) :
  is_free_placement_eligible now st uid
  = (if (seconds 1800 <=? now - last_placement st) && under_ceiling st uid
     then (true, Some "inactivity"%string)
     else if (week_start st + days 7 - now <? seconds 21600) && under_ceiling st uid
          then (true, Some "end_of_week"%string)
          else (false, None)) /\
  (under_ceiling st uid
   = match users st !! uid with
     | Some row => lifetime_paid_placements row <=? 500
     | None => false
     end) /\
  (forall request st' r,
      place_pixel now request st = (st', Ok r) ->
      was_free r
      = fst (is_free_placement_eligible now (snd (check_and_reset_week now st))
                                        (user_id request)) /\
      (was_free r = true -> cost r = 0)).
Proof.
  split; [apply is_free_placement_eligible_cases|]. split; [reflexivity|].
  intros request st' r Hplace.
  destruct (place_pixel_committed _ _ _ _ _ Hplace) as (u & _ & _ & Hfree & Hpay & _).
  split; [exact Hfree|]. intros Hf. rewrite Hf in Hpay. tauto.
Qed.

(** C5 does not hold as stated at the threshold: exactly 1800 seconds
    after the last placement, which does not exceed 1800 seconds, with
    more than six hours of the week left, the placement of a user with no
    paid placement is free with reason "inactivity". *)
Lemma free_at_exactly_1800_seconds :
  Examples.half_hour_later - last_placement Examples.fresh = seconds 1800 /\
  (seconds 1800 <? Examples.half_hour_later - last_placement Examples.fresh) = false /\
  (week_start Examples.fresh + days 7 - Examples.half_hour_later <? seconds 21600)
  = false /\
  is_free_placement_eligible Examples.half_hour_later Examples.fresh 1
  = (true, Some "inactivity"%string).
Proof. vm_compute. repeat split; congruence. Qed.

End EligibilityTheorems.

(** ** Reports and the freeze flag *)

Section Freeze.

(** A placement on a frozen board is turned down before anything else
    is looked at, the balance included. *)
Lemma place_pixel_frozen now request st :
  board_frozen st = true ->
  place_pixel now request st = (st, HTTPException 403 BoardFrozenDueToReports).
Proof. intros H. unfold place_pixel, is_board_frozen. by rewrite H. Qed.

(** An accepted report freezes the board exactly when the count the
    query returns, the new report included, has reached the threshold;
    a frozen board stays frozen. *)
Lemma report_pixel_freeze_rule now uid x y reason st :
  0 <= x < BOARD_SIZE -> 0 <= y < BOARD_SIZE -> is_Some (users st !! uid) ->
  let filed :=
    set_reports (fun rs => rs ++ [mkReport uid x y reason (sqlite_datetime_now now)])
                st in
  let count := count_week_reports filed in
  snd (report_pixel now uid x y reason st)
  = Ok (mkReportResponse ((REPORT_FREEZE_THRESHOLD <=? count) && negb (board_frozen st))
                         count) /\
  board_frozen (fst (report_pixel now uid x y reason st))
  = board_frozen st || (REPORT_FREEZE_THRESHOLD <=? count).
Proof.
  intros Hx Hy [u Hu]. unfold report_pixel, is_board_frozen.
  replace (0 <=? x) with true by (symmetry; apply Z.leb_le; lia).
  replace (x <? BOARD_SIZE) with true by (symmetry; apply Z.ltb_lt; lia).
  replace (0 <=? y) with true by (symmetry; apply Z.leb_le; lia).
  replace (y <? BOARD_SIZE) with true by (symmetry; apply Z.ltb_lt; lia).
  cbn [andb negb]. rewrite Hu. cbv zeta.
  cbn [board_frozen set_reports].
  destruct (REPORT_FREEZE_THRESHOLD <=? _); destruct (board_frozen st) eqn:Hf;
    cbn [andb negb orb fst snd board_frozen set_board_frozen]; rewrite ?Hf; done.
Qed.

(** No placement, undo or report clears the flag; reading the board
    clears it once the week is over. *)
Lemma frozen_stays_frozen now st :
  board_frozen st = true ->
  (forall request, board_frozen (fst (place_pixel now request st)) = true) /\
  (forall placement_id uid,
      board_frozen (fst (undo_placement now placement_id uid st)) = true) /\
  (forall uid x y reason,
      board_frozen (fst (report_pixel now uid x y reason st)) = true) /\
  (now - week_start st < days 7 -> board_frozen (fst (get_board now st)) = true) /\
  (days 7 <= now - week_start st -> board_frozen (fst (get_board now st)) = false).
Proof.
  intros Hf. split; [|split; [|split; [|split]]]; cycle 3.
  { intros Hweek. unfold get_board. by rewrite check_and_reset_week_idle. }
  { intros Hweek. unfold get_board, check_and_reset_week, get_week_start.
    by replace (days 7 <=? now - week_start st) with true
      by (symmetry; apply Z.leb_le; exact Hweek). }
  - intros request. by rewrite place_pixel_frozen.
  - intros placement_id uid. by rewrite undo_placement_cases, Hf.
  - intros uid x y reason. unfold report_pixel, is_board_frozen.
    repeat match goal with
           | |- context [if ?c then _ else _] => destruct c
           | |- context [match ?o with Some _ => _ | None => _ end] => destruct o
           end; cbn; done.
Qed.

(** C6, where the code leaves it: the cycle of [Examples.almost_frozen]
    started at 22:13:20 and has 2499 reports, all filed after its start
    and on the same calendar day.  The 2500th report, an hour after the
    start and still on that day, is answered with a count of 0 and the
    board is not frozen: the query compares the stored text
    ['YYYY-MM-DD HH:MM:SS'] with the ISO text ['YYYY-MM-DDTHH:MM:SS'] of
    the week start, and a space sorts before the letter T.  With the same
    2499 reports filed a day later the 2500th freezes the board. *)
Theorem reports_of_the_first_day_are_not_counted :
  let st := Examples.almost_frozen in
  let now := Examples.t0 + seconds 3600 in
  let after := fst (report_pixel now 1 0 0 "" st) in
  let later := Examples.almost_frozen_next_day in
  board_frozen st = false /\
  length (reports after) = 2500%nat /\
  forallb (fun r => week_start st <=? reported_at r) (reports after) = true /\
  snd (report_pixel now 1 0 0 "" st) = Ok (mkReportResponse false 0) /\
  board_frozen after = false /\
  count_week_reports after = 0 /\
  snd (report_pixel (Examples.t0 + days 1 + seconds 5) 1 0 0 "" later)
  = Ok (mkReportResponse true 2500) /\
  board_frozen (fst (report_pixel (Examples.t0 + days 1 + seconds 5) 1 0 0 "" later))
  = true.
Proof. vm_compute. repeat split. Qed.

End Freeze.

(** ** The float product of the undo cost *)

Section UndoCostRounding.

(** For a placement of 11000 credits and one earlier undo, 35% is 3850;
    the double nearest to [0.25 + 0.10] lies below 0.35 and the product
    rounds to the double below 3850, so the code charges 3849. *)
Lemma undo_cost_float_slip :
  undo_cost_of 11000 1 = Some 3849 /\ 11000 * (25 + 1 * 10) / 100 = 3850.
Proof. vm_compute. split; reflexivity. Qed.

End UndoCostRounding.

(** * Further properties of the engine *)

(** ** Timestamps as text *)

Section TextOrder.

Lemma text_ge_sql_iso a b :
  text_ge (sql_text a) (isoformat b) = (day_of b <? day_of a).
Proof.
  unfold text_ge, sql_text, isoformat, day_of. cbn [text_compare].
  destruct (Z.compare_spec (a / days 1) (b / days 1)) as [H|H|H].
  - cbn. symmetry. apply Z.ltb_ge. lia.
  - symmetry. apply Z.ltb_ge. lia.
  - symmetry. apply Z.ltb_lt. lia.
Qed.

Lemma text_lt_sql_iso a b :
  text_lt (sql_text a) (isoformat b) = (day_of a <=? day_of b).
Proof.
  unfold text_lt, sql_text, isoformat, day_of. cbn [text_compare].
  destruct (Z.compare_spec (a / days 1) (b / days 1)) as [H|H|H].
  - cbn. symmetry. apply Z.leb_le. lia.
  - symmetry. apply Z.leb_le. lia.
  - symmetry. apply Z.leb_gt. lia.
Qed.

Lemma day_of_sqlite_datetime_now now :
  day_of (sqlite_datetime_now now) = day_of now.
Proof.
  unfold day_of, sqlite_datetime_now, days, MICROS.
  replace (1 * 86400 * 1000000) with (1000000 * 86400) by lia.
  rewrite <- !Z.div_div by lia. by rewrite Z.div_mul by lia.
Qed.

Lemma filter_length_le {A} (f : A -> bool) (l : list A) :
  (length (List.filter f l) <= length l)%nat.
Proof. induction l as [|a l IH]; cbn; [lia|]. destruct (f a); cbn; lia. Qed.

Lemma filter_ext_eq {A} (f g : A -> bool) (l : list A) :
  (forall a, f a = g a) -> List.filter f l = List.filter g l.
Proof. intros H. induction l as [|a l IH]; cbn; [done|]. by rewrite H, IH. Qed.

(** X8: [count_week_reports] compares the stored text of [reported_at]
    with the ISO text of the week start, so it counts exactly the reports
    filed on a calendar day after the day the cycle started, whatever the
    times of day; the count is never above the number of reports. *)
Theorem count_week_reports_by_day (st : State) :
  count_week_reports st
  = Z.of_nat (length (List.filter
      (fun r => day_of (week_start st) <? day_of (reported_at r)) (reports st))) /\
  0 <= count_week_reports st <= Z.of_nat (length (reports st)).
Proof.
  unfold count_week_reports, get_week_start.
  rewrite (filter_ext_eq _ (fun r => day_of (week_start st) <? day_of (reported_at r)))
    by (intros r; apply text_ge_sql_iso).
  split; [reflexivity|].
  pose proof (filter_length_le
    (fun r => day_of (week_start st) <? day_of (reported_at r)) (reports st)). lia.
Qed.

End TextOrder.

(** ** Reports *)

Section Reports.

(** X7: [report_pixel] turns down coordinates outside the board with 400
    and an unknown user with 404, leaving the state as it was.  Any other
    report is stored, whoever files it and however often the cell was
    reported before: the count returned is the count before plus one when
    the report is filed on a later calendar day than the cycle started
    (and the count before otherwise), the board ends frozen exactly when
    it was frozen or the count has reached 2500, and nothing but the
    report table and the flag changes. *)
Theorem report_pixel_counts_every_report (now uid x y : Z) (reason : string)
    (st : State) :
  let res := report_pixel now uid x y reason st in
  let valid := (0 <=? x) && (x <? BOARD_SIZE) && (0 <=? y) && (y <? BOARD_SIZE) in
  let count :=
    count_week_reports st + (if day_of (week_start st) <? day_of now then 1 else 0) in
  if negb valid then res = (st, HTTPException 400 InvalidCoordinates)
  else match users st !! uid with
       | None => res = (st, HTTPException 404 UserNotFound)
       | Some _ =>
           snd res = Ok (mkReportResponse
                           ((REPORT_FREEZE_THRESHOLD <=? count) && negb (board_frozen st))
                           count) /\
           fst res =
             set_board_frozen (board_frozen st || (REPORT_FREEZE_THRESHOLD <=? count))
               (set_reports
                  (fun rs => rs ++ [mkReport uid x y reason (sqlite_datetime_now now)])
                  st) /\
           count_week_reports (fst res) = count
       end.
Proof.
  cbv zeta. unfold report_pixel.
  destruct (negb _) eqn:Hvalid; [reflexivity|].
  destruct (users st !! uid) as [u|] eqn:Hu; [|reflexivity].
  set (filed := set_reports _ st).
  assert (Hcount : count_week_reports filed
                   = count_week_reports st
                     + (if day_of (week_start st) <? day_of now then 1 else 0)).
  { unfold count_week_reports, get_week_start, filed.
    cbn [reports set_reports week_start].
    rewrite List.filter_app, List.length_app. cbn [List.filter reported_at].
    rewrite text_ge_sql_iso, day_of_sqlite_datetime_now.
    destruct (day_of (week_start st) <? day_of now); cbn [length]; lia. }
  rewrite <- Hcount. unfold is_board_frozen.
  change (board_frozen filed) with (board_frozen st).
  destruct (REPORT_FREEZE_THRESHOLD <=? count_week_reports filed) eqn:Hth;
    destruct (board_frozen st) eqn:Hf; cbn [andb negb orb fst snd].
  - split; [reflexivity|]. split; [|reflexivity].
    unfold set_board_frozen, filed, set_reports. cbn. by rewrite Hf.
  - split; [reflexivity|]. split; reflexivity.
  - split; [reflexivity|]. split; [|reflexivity].
    unfold set_board_frozen, filed, set_reports. cbn. by rewrite Hf.
  - split; [reflexivity|]. split; [|reflexivity].
    unfold set_board_frozen, filed, set_reports. cbn. by rewrite Hf.
Qed.

End Reports.

(** ** Archives *)

Section Archives.

Lemma size_list_to_set_le (l : list Z) :
  (size (list_to_set l : gset Z) <= length l)%nat.
Proof.
  induction l as [|a l IH]; cbn [list_to_set length].
  - by rewrite size_empty.
  - rewrite size_union_alt, size_singleton.
    assert (Hs : list_to_set l ∖ {[a]} ⊆ (list_to_set l : gset Z)).
    { intros z Hz. apply elem_of_difference in Hz. tauto. }
    apply subseteq_size in Hs. lia.
Qed.

(** X9: the archive [create_archive_snapshot] appends holds one entry
    for every cell of the board, with the cell's color, owner and ad
    flag.  Its [total_placements] is the number of logged placements
    whose calendar day lies after the day of [week_start] and not after
    the day of [week_end] (the two bounds are compared as text), and
    [unique_contributors] is at most that number; nothing but the archive
    table changes. *)
Theorem create_archive_snapshot_contents (st : State) (ws we : Z) :
  exists a,
    create_archive_snapshot st ws we = set_archives (fun l => l ++ [a]) st /\
    a_week_start a = ws /\ a_week_end a = we /\
    total_placements a
    = Z.of_nat (length (List.filter
        (fun p => (day_of ws <? day_of (placed_at p))
                  && (day_of (placed_at p) <=? day_of we)) (placements st))) /\
    0 <= unique_contributors a <= total_placements a /\
    total_placements a <= Z.of_nat (length (placements st)) /\
    length (snapshot_data a) = size (pixels st) /\
    (forall cx cy c o ad,
        In (mkSnapshotPixel cx cy c o ad) (snapshot_data a) <->
        exists p, pixels st !! (cx, cy) = Some p /\
                  color p = c /\ owner_id p = o /\ is_ad p = ad).
Proof.
  unfold create_archive_snapshot. eexists. split; [reflexivity|].
  cbn [a_week_start a_week_end total_placements unique_contributors snapshot_data].
  split; [reflexivity|]. split; [reflexivity|].
  rewrite (filter_ext_eq _
    (fun p => (day_of ws <? day_of (placed_at p)) && (day_of (placed_at p) <=? day_of we)))
    by (intros p; by rewrite text_ge_sql_iso, text_lt_sql_iso).
  set (in_week := List.filter _ (placements st)).
  split; [reflexivity|].
  split.
  { pose proof (size_list_to_set_le (List.map p_user_id in_week)) as H.
    rewrite List.length_map in H. lia. }
  split.
  { pose proof (filter_length_le
      (fun p => (day_of ws <? day_of (placed_at p)) && (day_of (placed_at p) <=? day_of we))
      (placements st)). fold in_week in H. lia. }
  split.
  { by rewrite List.length_map, length_map_to_list. }
  intros cx cy c o ad. rewrite List.in_map_iff. split.
  - intros ([[kx ky] p] & Heq & Hin). cbn in Heq. injection Heq as -> -> <- <- <-.
    exists p. split; [|done].
    apply elem_of_map_to_list. by apply list_elem_of_In.
  - intros (p & Hp & <- & <- & <-). exists (cx, cy, p). split; [reflexivity|].
    apply list_elem_of_In. by apply elem_of_map_to_list.
Qed.

End Archives.

(** ** The weekly cycle *)

Section Cycle.

(** What the week check keeps whether or not it resets. *)
Lemma check_and_reset_week_kept now st :
  let st1 := snd (check_and_reset_week now st) in
  placements st1 = placements st /\ reports st1 = reports st /\
  last_placement st1 = last_placement st /\
  user_last_placement st1 = user_last_placement st /\
  (board_frozen st = false -> board_frozen st1 = false) /\
  (current_cap st1 = current_cap st \/ current_cap st1 = INITIAL_CAP_CREDITS) /\
  (forall uid, users st1 !! uid = None <-> users st !! uid = None).
Proof.
  unfold check_and_reset_week.
  destruct (days 7 <=? now - get_week_start st); cbn; [|by repeat split; auto].
  repeat split; auto; rewrite lookup_fmap; by destruct (users st !! uid).
Qed.

End Cycle.

(** ** The dynamic cap *)

Section Cap.

(** X1: [update_dynamic_cap] writes nothing but the cap.  It lowers the
    cap to [LOWER_CAP_CREDITS] exactly when the cap stands at
    [INITIAL_CAP_CREDITS] and at least [CAP_TRIGGER_COUNT] cells have a
    [cost_level] of 200000 or more; it never raises the cap, and running
    it a second time changes nothing. *)
Theorem update_dynamic_cap_lowers_once (st : State) :
  let st' := update_dynamic_cap st in
  let at_cap :=
    Z.of_nat (length (List.filter (fun kv : Z * Z * Pixel => 200000 <=? cost_level (snd kv))
                                  (map_to_list (pixels st)))) in
  st' = set_current_cap (current_cap st') st /\
  current_cap st'
  = (if (current_cap st =? INITIAL_CAP_CREDITS) && (CAP_TRIGGER_COUNT <=? at_cap)
     then LOWER_CAP_CREDITS else current_cap st) /\
  current_cap st' <= current_cap st /\
  update_dynamic_cap st' = st'.
Proof.
  cbv zeta. unfold update_dynamic_cap, get_current_cap.
  destruct (Z.eqb_spec (current_cap st) INITIAL_CAP_CREDITS) as [Hcap|Hcap];
    cbn [andb].
  - rewrite Hcap.
    change (INITIAL_CAP_CREDITS / COST_INCREMENT_CREDITS * 1000) with 200000.
    destruct (CAP_TRIGGER_COUNT <=? _) eqn:Hcount.
    + cbn [current_cap set_current_cap]. repeat split.
      * unfold INITIAL_CAP_CREDITS, LOWER_CAP_CREDITS. lia.
    + rewrite Hcap. cbn [Z.eqb]. rewrite Z.eqb_refl.
      change (INITIAL_CAP_CREDITS / COST_INCREMENT_CREDITS * 1000) with 200000.
      rewrite Hcount. destruct st; cbn in *; subst. repeat split; lia.
  - destruct (Z.eqb_spec (current_cap st) INITIAL_CAP_CREDITS); [done|].
    destruct st; cbn in *. repeat split; lia.
Qed.

Lemma update_dynamic_cap_range st :
  current_cap (update_dynamic_cap st) = current_cap st \/
  current_cap (update_dynamic_cap st) = LOWER_CAP_CREDITS.
Proof.
  unfold update_dynamic_cap.
  destruct (get_current_cap st =? INITIAL_CAP_CREDITS); [|by left].
  match goal with |- context [if ?c then _ else _] => destruct c end;
    [by right|by left].
Qed.

(** The cap a placement request leaves: the cap the week check left, or
    the lower cap. *)
Lemma place_pixel_cap now request st :
  current_cap (fst (place_pixel now request st)) = current_cap st \/
  current_cap (fst (place_pixel now request st))
  = current_cap (snd (check_and_reset_week now st)) \/
  current_cap (fst (place_pixel now request st)) = LOWER_CAP_CREDITS.
Proof.
  unfold place_pixel, is_board_frozen.
  destruct (board_frozen st); [by left|]. right.
  set (st1 := snd (check_and_reset_week now st)).
  destruct (users st1 !! user_id request) as [u0|] eqn:Hu0; [|by left].
  destruct (now - default 0 (user_last_placement st1 !! user_id request)
            <? seconds RATE_LIMIT_SECONDS); [by left|].
  destruct (is_free_placement_eligible now _ (user_id request)) as [is_free free_reason].
  set (st2 := set_user_last_placement (insert (user_id request) now) st1).
  change (users st2) with (users st1). rewrite Hu0.
  destruct (if is_free then Some 0 else calculate_pixel_cost st2 (x request) (y request))
    as [c|]; [|by left].
  destruct (negb is_free && (credits u0 <? c)); [by left|].
  cbn [fst].
  match goal with |- context [update_dynamic_cap ?s] =>
    destruct (update_dynamic_cap_range s) as [-> | ->]; [left|by right]
  end.
  destruct (match pixels st2 !! (x request, y request) with
            | Some p => is_ad p | None => false end && negb (req_is_ad request));
    destruct (negb is_free); reflexivity.
Qed.

Lemma calculate_pixel_cost_le_cap st x y c :
  calculate_pixel_cost st x y = Some c -> c <= current_cap st.
Proof.
  unfold calculate_pixel_cost, get_current_cap.
  match goal with |- context [bind_opt ?o _] => destruct o as [c0|] end;
    cbn [bind_opt]; [|discriminate].
  intros [= <-]. lia.
Qed.

(** X2: the cap is always one of its two values.  If it is 200000 or
    150000 before a request, it is so after the week check, a placement,
    an undo, a report or a read of the board; and no committed placement
    is charged more than the cap in force when it was priced, hence never
    more than 200000 credits. *)
Theorem cap_stays_in_range (now : Z) (st : State) :
  cap_in_range st ->
  cap_in_range (snd (check_and_reset_week now st)) /\
  cap_in_range (fst (get_board now st)) /\
  (forall request,
      cap_in_range (fst (place_pixel now request st)) /\
      forall r, snd (place_pixel now request st) = Ok r ->
                cost r <= current_cap (snd (check_and_reset_week now st)) /\
                cost r <= INITIAL_CAP_CREDITS) /\
  (forall placement_id uid,
      cap_in_range (fst (undo_placement now placement_id uid st))) /\
  (forall uid x y reason,
      cap_in_range (fst (report_pixel now uid x y reason st))).
Proof.
  intros Hcap.
  assert (Hreset : cap_in_range (snd (check_and_reset_week now st))).
  { destruct (check_and_reset_week_kept now st) as (_ & _ & _ & _ & _ & [H|H] & _);
      unfold cap_in_range; rewrite H; [exact Hcap|by left]. }
  split; [exact Hreset|]. split; [exact Hreset|]. split; [|split].
  - intros request. split.
    + unfold cap_in_range.
      destruct (place_pixel_cap now request st) as [->|[->| ->]];
        [exact Hcap|exact Hreset|by right].
    + intros r Hr.
      destruct (place_pixel now request st) as [st' res] eqn:Hplace.
      cbn [snd] in Hr. subst res.
      destruct (place_pixel_committed _ _ _ _ _ Hplace) as (u & _ & _ & _ & Hpay & _).
      assert (Hle : cost r <= current_cap (snd (check_and_reset_week now st))).
      { destruct (was_free r).
        - destruct Hpay as [-> _]. destruct Hreset as [-> | ->]; done.
        - destruct Hpay as (Hcost & _).
          by apply (calculate_pixel_cost_le_cap _ _ _ _ Hcost). }
      split; [exact Hle|]. destruct Hreset as [H|H]; rewrite H in Hle;
        unfold INITIAL_CAP_CREDITS, LOWER_CAP_CREDITS in *; lia.
  - intros placement_id uid.
    destruct (undo_placement_rejected now placement_id uid st) as [[r Hr]| ->];
      [|exact Hcap].
    destruct (undo_placement now placement_id uid st) as [st' res] eqn:Hundo.
    cbn [snd] in Hr. subst res.
    destruct (undo_placement_ok _ _ _ _ _ _ Hundo)
      as (pl & u & _ & _ & _ & _ & _ & _ & _ & _ & _ & ->).
    exact Hcap.
  - intros uid x y reason. unfold report_pixel, is_board_frozen.
    repeat match goal with
           | |- context [if ?c then _ else _] => destruct c
           | |- context [match ?o with Some _ => _ | None => _ end] => destruct o
           end; exact Hcap.
Qed.

End Cap.

(** A fresh board under the initial cap. *)
Lemma cap_stays_in_range_witness :
  cap_in_range Examples.fresh /\
  cap_in_range
    (fst (place_pixel (Examples.t0 + seconds 5) Examples.white_at_3_4 Examples.fresh)).
Proof.
  assert (H : cap_in_range Examples.fresh) by (by left).
  split; [exact H|].
  apply (proj1 (proj2 (proj2 (cap_stays_in_range (Examples.t0 + seconds 5)
                                                 Examples.fresh H)))
               Examples.white_at_3_4).
Defined.

(** ** The float computations never fail on database values *)

Section FloatTotality.
Import Float64 Rounding Float64Facts.

Lemma to_int_normal_pos f lo hi :
  normal_pos f lo hi -> exists k, to_int f = Some k /\ 0 <= k.
Proof.
  intros (p & e & -> & _ & _). unfold to_int. eexists. split; [reflexivity|].
  cbn [cond_Zopp]. destruct e as [|k|k].
  - lia.
  - assert (0 < 2 ^ Z.pos k) by (apply Z.pow_pos_nonneg; lia). nia.
  - apply Z.div_pos; [lia|]. apply Z.pow_pos_nonneg; lia.
Qed.

Lemma int_mul_normal_pos c f lo hi :
  0 <= c < 2 ^ 63 -> normal_pos f lo hi -> -1074 <= lo -> hi <= 900 ->
  exists g k, int_mul c f = Some g /\ to_int g = Some k /\ 0 <= k.
Proof.
  intros Hc Hf Hlo Hhi.
  destruct (Z.eq_dec c 0) as [->|Hc0].
  - destruct Hf as (p & e & -> & _). by exists (S754_zero false), 0.
  - destruct (of_int_normal c) as (x & Hx & Hnx); [lia|].
    unfold int_mul. rewrite Hx.
    pose proof (mul_normal_pos _ _ _ _ _ _ Hnx Hf ltac:(lia) ltac:(lia)) as Hm.
    destruct (to_int_normal_pos _ _ _ Hm) as (k & Hk & Hk0).
    by exists (mul x f), k.
Qed.

(** X12: for every original cost and every undo count a SQLite INTEGER
    can hold (from 0 up), the float computation of the undo cost goes
    through and yields a non-negative integer: an undo is never answered
    with an internal error, and it never adds to the balance. *)
Theorem undo_cost_of_defined (original_cost undo_count : Z) :
  0 <= original_cost < 2 ^ 63 -> 0 <= undo_count < 2 ^ 63 ->
  exists k, undo_cost_of original_cost undo_count = Some k /\ 0 <= k.
Proof.
  intros Hc Hn. unfold undo_cost_of.
  assert (Hi : normal_pos UNDO_INCREMENT_PERCENT (-56) (-56)).
  { eexists _, _. split; [reflexivity|]. rewrite pow2_52, pow2_53. lia. }
  assert (Hb : normal_pos UNDO_BASE_PERCENT (-54) (-54)).
  { eexists _, _. split; [reflexivity|]. rewrite pow2_52, pow2_53. lia. }
  assert (Hsum : exists t, int_mul undo_count UNDO_INCREMENT_PERCENT = Some t /\
                           normal_pos (add UNDO_BASE_PERCENT t) (-54) 11).
  { destruct (Z.eq_dec undo_count 0) as [->|Hn0].
    - exists (S754_zero false). split; [reflexivity|].
      eexists _, _. split; [reflexivity|]. rewrite pow2_52, pow2_53. lia.
    - destruct (of_int_normal undo_count) as (x & Hx & Hnx); [lia|].
      exists (mul x UNDO_INCREMENT_PERCENT). unfold int_mul. rewrite Hx.
      split; [reflexivity|].
      pose proof (mul_normal_pos _ _ _ _ _ _ Hnx Hi ltac:(lia) ltac:(lia)) as Ht.
      exact (add_normal_pos _ _ _ _ _ _ Hb Ht ltac:(lia) ltac:(lia)). }
  destruct Hsum as (t & -> & Hs). cbn [bind_opt].
  destruct (int_mul_normal_pos original_cost _ _ _ Hc Hs ltac:(lia) ltac:(lia))
    as (g & k & -> & Hk & Hk0).
  cbn [bind_opt]. by exists k.
Qed.

Lemma undo_cost_of_defined_witness :
  exists k, undo_cost_of 1000 3 = Some k /\ 0 <= k.
Proof. apply undo_cost_of_defined; vm_compute; split; congruence. Defined.

(** X3: for every cell whose level is a non-negative SQLite INTEGER
    below [2^62] and every non-negative cap, [calculate_pixel_cost]
    returns a price (the float discount of an ad never fails), the price
    is at least 0 and at most the cap, and for a cell that is not an ad
    it is the base cost plus the level, cut at the cap. *)
Theorem calculate_pixel_cost_defined (st : State) (x y : Z) :
  0 <= level_of st x y < 2 ^ 62 -> 0 <= current_cap st ->
  exists c,
    calculate_pixel_cost st x y = Some c /\ 0 <= c <= current_cap st /\
    (ad_flag_of st x y = false ->
     c = Z.min (BASE_COST_CREDITS + level_of st x y) (current_cap st)).
Proof.
  unfold level_of, ad_flag_of, calculate_pixel_cost, get_current_cap.
  intros Hl Hcap.
  set (l := match pixels st !! (x, y) with Some p => cost_level p | None => 0 end) in *.
  unfold COST_INCREMENT_CREDITS. rewrite Z.div_mul by lia.
  destruct (match pixels st !! (x, y) with Some p => is_ad p | None => false end).
  - unfold ad_discounted. rewrite one_minus_discount. cbn [bind_opt].
    assert (Hf : normal_pos (S754_finite false 8106479329266893 (-53)) (-53) (-53)).
    { eexists _, _. split; [reflexivity|]. rewrite pow2_52, pow2_53. lia. }
    destruct (int_mul_normal_pos (BASE_COST_CREDITS + l) _ _ _
                ltac:(unfold BASE_COST_CREDITS; change (2 ^ 63) with (2 * 2 ^ 62); lia)
                Hf ltac:(lia) ltac:(lia))
      as (g & k & -> & Hk & Hk0).
    cbn [bind_opt]. rewrite Hk. cbn [bind_opt].
    eexists. split; [reflexivity|]. split; [lia|discriminate].
  - cbn [bind_opt]. eexists. split; [reflexivity|].
    unfold BASE_COST_CREDITS. split; [lia|reflexivity].
Qed.

Lemma calculate_pixel_cost_defined_witness :
  exists c, calculate_pixel_cost Examples.ad_cell 0 0 = Some c /\
            0 <= c <= current_cap Examples.ad_cell.
Proof.
  destruct (calculate_pixel_cost_defined Examples.ad_cell 0 0) as (c & H & Hc & _).
  - vm_compute. split; congruence.
  - vm_compute. congruence.
  - by exists c.
Defined.

End FloatTotality.

(** ** The rate limiter *)

Section RateLimiter.

(** A request that got past the limiter has stamped the user's entry,
    whatever became of it afterwards. *)
Lemma place_pixel_limiter now request st :
  snd (place_pixel now request st) = HTTPException 403 BoardFrozenDueToReports \/
  snd (place_pixel now request st) = HTTPException 404 UserNotFound \/
  snd (place_pixel now request st) = HTTPException 429 RateLimit \/
  (board_frozen (fst (place_pixel now request st)) = false /\
   users (fst (place_pixel now request st)) !! user_id request <> None /\
   user_last_placement (fst (place_pixel now request st))
   = <[user_id request := now]> (user_last_placement st)).
Proof.
  destruct (check_and_reset_week_kept now st) as (_ & _ & _ & Hulp & Hbf & _ & Hus).
  unfold place_pixel, is_board_frozen.
  destruct (board_frozen st) eqn:Hfrozen; [by left|].
  specialize (Hbf eq_refl).
  set (st1 := snd (check_and_reset_week now st)) in *.
  destruct (users st1 !! user_id request) as [u0|] eqn:Hu0; [|by right; left].
  destruct (now - default 0 (user_last_placement st1 !! user_id request)
            <? seconds RATE_LIMIT_SECONDS); [by right; right; left|].
  right; right; right.
  destruct (is_free_placement_eligible now _ (user_id request)) as [is_free free_reason].
  set (st2 := set_user_last_placement (insert (user_id request) now) st1).
  change (users st2) with (users st1). rewrite Hu0.
  assert (Hst2 : board_frozen st2 = false /\ users st2 !! user_id request <> None /\
                 user_last_placement st2
                 = <[user_id request := now]> (user_last_placement st)).
  { unfold st2. cbn. rewrite Hu0, Hulp. by repeat split. }
  destruct (if is_free then Some 0 else calculate_pixel_cost st2 (x request) (y request))
    as [c|]; [|exact Hst2].
  destruct (negb is_free && (credits u0 <? c)); [exact Hst2|].
  cbn [fst].
  match goal with |- context [update_dynamic_cap ?s] =>
    destruct (update_dynamic_cap_frame s) as (-> & _ & _ & _ & _ & _ & _ & -> & ->)
  end.
  destruct Hst2 as (Hf2 & Hu2 & Hl2).
  destruct (match pixels st2 !! (x request, y request) with
            | Some p => is_ad p | None => false end && negb (req_is_ad request));
    destruct (negb is_free); cbn; (split; [exact Hbf|]);
    (split; [|by rewrite Hulp]);
    rewrite ?lookup_alter_eq, Hu0; done.
Qed.

(** X4: a request that was committed, or that got as far as being turned
    down for insufficient credits, has used the user's slot: any request
    of the same user less than [RATE_LIMIT_SECONDS] (one second) after it
    is answered with 429, and changes nothing but what the week check
    does. *)
Theorem rate_limit_blocks_next_request (now now' : Z) (request request' : PlacePixelRequest)
    (st : State) :
  (exists r, snd (place_pixel now request st) = Ok r) \/
  (exists need have,
      snd (place_pixel now request st) = HTTPException 402 (InsufficientCredits need have)) ->
  user_id request' = user_id request ->
  now' - now < seconds RATE_LIMIT_SECONDS ->
  let st' := fst (place_pixel now request st) in
  place_pixel now' request' st'
  = (snd (check_and_reset_week now' st'), HTTPException 429 RateLimit).
Proof.
  intros Hfirst Huid Hsoon st'.
  assert (Hpast : board_frozen st' = false /\ users st' !! user_id request <> None /\
                  user_last_placement st'
                  = <[user_id request := now]> (user_last_placement st)).
  { destruct (place_pixel_limiter now request st) as [H|[H|[H|H]]]; [| | |exact H];
      destruct Hfirst as [[r Hr]|(need & have & Hr)]; congruence. }
  destruct Hpast as (Hf & Hu & Hl).
  destruct (check_and_reset_week_kept now' st') as (_ & _ & _ & Hulp & _ & _ & Hus).
  unfold place_pixel at 1, is_board_frozen. rewrite Hf, Huid.
  set (st1 := snd (check_and_reset_week now' st')) in *.
  destruct (users st1 !! user_id request) as [u1|] eqn:Hu1.
  - rewrite Hulp, Hl, lookup_insert_eq. cbn [default from_option id].
    replace (now' - now <? seconds RATE_LIMIT_SECONDS) with true
      by (symmetry; apply Z.ltb_lt; exact Hsoon).
    reflexivity.
  - apply Hus in Hu1. done.
Qed.

(** Two placements of user 1 half a second apart. *)
Lemma rate_limit_blocks_next_request_witness :
  let st' := fst (place_pixel (Examples.t0 + seconds 5) Examples.white_at_3_4
                              Examples.fresh) in
  place_pixel (Examples.t0 + seconds 5 + 500000) Examples.white_at_3_4 st'
  = (snd (check_and_reset_week (Examples.t0 + seconds 5 + 500000) st'),
     HTTPException 429 RateLimit).
Proof.
  apply (rate_limit_blocks_next_request (Examples.t0 + seconds 5)
           (Examples.t0 + seconds 5 + 500000) Examples.white_at_3_4
           Examples.white_at_3_4 Examples.fresh).
  - left. eexists. vm_compute. reflexivity.
  - reflexivity.
  - vm_compute. reflexivity.
Defined.

End RateLimiter.

(** ** A placement and its undo *)

Section PlacementAndUndo.

(** The state a committed placement leaves, as the undo endpoint reads
    it. *)
Lemma place_pixel_then st st' now request r :
  place_pixel now request st = (st', Ok r) ->
  let st1 := snd (check_and_reset_week now st) in
  let record :=
    mkPlacement (user_id request) (x request) (y request) (req_color request)
                (cost r) (was_free r) (req_is_ad request) true
                (color <$> pixels st1 !! (x request, y request))
                (pixels st1 !! (x request, y request) ≫= owner_id)
                (sqlite_datetime_now now) in
  board_frozen st' = false /\
  lookup_placement (placement_id r) (placements st') = Some record /\
  placements st' = placements st1 ++ [record] /\
  pixels st' =
    <[(x request, y request) :=
        mkPixel (req_color request)
                (level_of st1 (x request) (y request) + COST_INCREMENT_CREDITS)
                (Some (user_id request)) (req_is_ad request)
                (sqlite_datetime_now now)]> (pixels st1) /\
  exists u u',
    users st1 !! user_id request = Some u /\
    users st' !! user_id request = Some u' /\
    credits u' = credits u - cost r /\
    lifetime_paid_placements u'
    = lifetime_paid_placements u + (if was_free r then 0 else 1) /\
    undo_escalation_count u' = undo_escalation_count u /\
    ad_violation_count u'
    = ad_violation_count u
      + (if ad_flag_of st1 (x request) (y request) && negb (req_is_ad request)
         then 1 else 0) /\
    forall other, other <> user_id request -> users st' !! other = users st1 !! other.
Proof.
  intros Hplace.
  destruct (place_pixel_committed _ _ _ _ _ Hplace)
    as (u & Hfrozen & Hu & _ & Hpay & Hid & Hus & Hpx & Hlog & _ & _ & _ & Hbf & _).
  destruct (check_and_reset_week_kept now st) as (_ & _ & _ & _ & Hbf1 & _).
  cbv zeta. split; [rewrite Hbf; by apply Hbf1|].
  split; [rewrite Hlog, Hid; apply lookup_placement_appended|].
  split; [exact Hlog|]. split; [exact Hpx|].
  exists u. rewrite Hus. unfold users_after_placement, ad_flag_of.
  set (ad := match pixels _ !! (x request, y request) with
             | Some p => is_ad p | None => false end).
  assert (Hcost : was_free r = true -> cost r = 0).
  { intros Hfree. rewrite Hfree in Hpay. by destruct Hpay. }
  destruct (ad && negb (req_is_ad request)); destruct (was_free r);
    rewrite ?lookup_alter_eq, ?Hu; cbn; eexists; (split; [reflexivity|]);
    (split; [reflexivity|]); cbn; rewrite ?Hcost by reflexivity;
    repeat split; try lia;
    intros other Hne; by rewrite ?lookup_alter_ne by congruence.
Qed.

(** X11: a committed placement, free or paid, adds one to the user's
    [ad_violation_count] exactly when it paints a cell flagged as an ad
    with a pixel not flagged as one; it debits the cost (0 when free),
    counts a paid placement in [lifetime_paid_placements], leaves the
    undo counter alone and touches no other user. *)
Theorem placement_updates_user_row (now : Z) (request : PlacePixelRequest)
    (st st' : State) (r : PlacePixelResponse) :
  place_pixel now request st = (st', Ok r) ->
  let st1 := snd (check_and_reset_week now st) in
  exists u,
    users st1 !! user_id request = Some u /\
    users st' !! user_id request
    = Some (mkUser (credits u - cost r)
                   (lifetime_paid_placements u + (if was_free r then 0 else 1))
                   (undo_escalation_count u)
                   (ad_violation_count u
                    + (if ad_flag_of st1 (x request) (y request)
                          && negb (req_is_ad request)
                       then 1 else 0))) /\
    new_balance r = credits u - cost r /\
    forall other, other <> user_id request -> users st' !! other = users st1 !! other.
Proof.
  intros Hplace.
  destruct (place_pixel_then _ _ _ _ _ Hplace)
    as (_ & _ & _ & _ & u & u' & Hu & Hu' & Hc & Hl & Hn & Ha & Hother).
  destruct (place_pixel_committed _ _ _ _ _ Hplace) as (u0 & _ & Hu0 & _ & Hpay & _).
  cbv zeta in *. rewrite Hu in Hu0. injection Hu0 as <-.
  exists u. split; [exact Hu|]. split; [|split; [|exact Hother]].
  - rewrite Hu'. f_equal. destruct u'. cbn in *. congruence.
  - destruct (was_free r); [destruct Hpay as [-> ->]; lia|by destruct Hpay as (_ & _ & ->)].
Qed.

(** User 1 paints over the ad at (0, 0) without flagging the pixel. *)
Lemma placement_updates_user_row_witness :
  users (fst (place_pixel (Examples.t0 + seconds 5) MoreExamples.over_the_ad
                          MoreExamples.ad_board)) !! 1
  = Some (mkUser 4600 1 0 1).
Proof.
  destruct (placement_updates_user_row (Examples.t0 + seconds 5)
             MoreExamples.over_the_ad MoreExamples.ad_board
             (fst (place_pixel (Examples.t0 + seconds 5) MoreExamples.over_the_ad
                               MoreExamples.ad_board))
             (mkPlacePixelResponse 5400 false 4600 "Pixel placed" 1))
    as (u & Hu & Hu' & _).
  - vm_compute. reflexivity.
  - change (user_id MoreExamples.over_the_ad) with 1 in Hu'. rewrite Hu'.
    vm_compute in Hu. injection Hu as <-. vm_compute. reflexivity.
Defined.

End PlacementAndUndo.

Section UndoAfterPlacement.

(** X6: a placement followed by its undo leaves the board as the
    placement found it when the cell was empty.  When the cell was
    painted, its color and owner are back, but its [cost_level] stays
    [COST_INCREMENT_CREDITS] higher and its ad flag is the one of the
    undone request; a cell whose stored color was the empty string is
    deleted.  No other cell changes and the log keeps the record, marked
    as undone. *)
Theorem place_then_undo_board (now now' : Z) (request : PlacePixelRequest)
    (st st' st'' : State) (r : PlacePixelResponse) (r' : UndoResponse) :
  place_pixel now request st = (st', Ok r) ->
  undo_placement now' (placement_id r) (user_id request) st' = (st'', Ok r') ->
  let st1 := snd (check_and_reset_week now st) in
  let xy := (x request, y request) in
  pixels st'' =
    match pixels st1 !! xy with
    | None => pixels st1
    | Some p =>
        if truthy (Some (color p))
        then <[xy := mkPixel (color p) (cost_level p + COST_INCREMENT_CREDITS)
                             (owner_id p) (req_is_ad request)
                             (sqlite_datetime_now now')]> (pixels st1)
        else delete xy (pixels st1)
    end /\
  exists record,
    placements st'' = placements st1 ++ [record] /\
    can_undo record = false /\ p_cost record = cost r /\
    p_user_id record = user_id request.
Proof.
  intros Hplace Hundo.
  destruct (place_pixel_then _ _ _ _ _ Hplace) as (_ & Hlook & Hlog & Hpx & _).
  destruct (undo_placement_ok _ _ _ _ _ _ Hundo)
    as (pl & u & _ & Hlook' & _ & _ & _ & _ & _ & _ & _ & ->).
  cbv zeta in *. rewrite Hlook in Hlook'. injection Hlook' as <-.
  cbn [undone_state pixels placements]. split.
  - rewrite Hpx. unfold pixels_after_undo, level_of.
    cbn [previous_color previous_owner_id p_x p_y].
    destruct (pixels (snd (check_and_reset_week now st)) !! (x request, y request))
      as [p|] eqn:Hp; cbn [fmap option_fmap option_map mbind option_bind].
    + destruct (truthy (Some (color p))).
      * by rewrite alter_insert_eq.
      * by rewrite delete_insert_eq.
    + cbn [truthy]. by rewrite delete_insert_id.
  - eexists. split.
    + rewrite Hlog.
      destruct (place_pixel_committed _ _ _ _ _ Hplace) as (_ & _ & _ & _ & _ & -> & _).
      replace (Z.to_nat (Z.of_nat (length (placements (snd (check_and_reset_week now st))))
                         + 1 - 1))
        with (length (placements (snd (check_and_reset_week now st))) + 0)%nat by lia.
      rewrite alter_app_r. reflexivity.
    + by repeat split.
Qed.

(** User 1 paints the empty cell (3, 4) and undoes it a second later:
    the board is empty again. *)
Lemma place_then_undo_board_witness :
  pixels Examples.after_undo = pixels Examples.fresh.
Proof.
  destruct (place_then_undo_board (Examples.t0 + seconds 5) (Examples.t0 + seconds 6)
              Examples.white_at_3_4 Examples.fresh
              (fst (place_pixel (Examples.t0 + seconds 5) Examples.white_at_3_4
                                Examples.fresh))
              Examples.after_undo
              (mkPlacePixelResponse 1000 false 4000 "Pixel placed" 1)
              (mkUndoResponse 250 3750)) as [H _].
  - vm_compute. reflexivity.
  - vm_compute. reflexivity.
  - rewrite H. vm_compute. reflexivity.
Defined.

End UndoAfterPlacement.

(** ** Free placements over time *)

Section FreeModeOverTime.

Lemma check_and_reset_week_user now st uid u :
  users st !! uid = Some u ->
  exists u1, users (snd (check_and_reset_week now st)) !! uid = Some u1 /\
             credits u1 = credits u /\
             lifetime_paid_placements u1 = lifetime_paid_placements u.
Proof.
  intros Hu. unfold check_and_reset_week.
  destruct (days 7 <=? now - get_week_start st); cbn; [|by eauto].
  rewrite lookup_fmap, Hu. cbn. by eexists.
Qed.

(** How [lifetime_paid_placements] of any user moves over one placement
    request: up by one for the placer of a paid placement, not at all
    otherwise. *)
Lemma place_pixel_lifetime now request st uid u :
  users st !! uid = Some u ->
  exists u',
    users (fst (place_pixel now request st)) !! uid = Some u' /\
    lifetime_paid_placements u <= lifetime_paid_placements u' <=
      lifetime_paid_placements u + 1.
Proof.
  intros Hu.
  destruct (check_and_reset_week_user now st uid u Hu) as (u1 & Hu1 & _ & Hl1).
  destruct (place_pixel now request st) as [st' res] eqn:Hplace. cbn [fst].
  destruct res as [r| |].
  - destruct (place_pixel_then _ _ _ _ _ Hplace)
      as (_ & _ & _ & _ & v & v' & Hv & Hv' & _ & Hl & _ & _ & Hother).
    cbv zeta in *.
    destruct (decide (uid = user_id request)) as [->|Hne].
    + rewrite Hu1 in Hv. injection Hv as <-. exists v'. split; [exact Hv'|].
      destruct (was_free r); lia.
    + exists u1. rewrite Hother by exact Hne. split; [exact Hu1|lia].
  - destruct (place_pixel_rejected now request st) as [[r Hr]|Hst];
      rewrite Hplace in *; cbn [fst snd] in *; [discriminate|].
    destruct Hst as [->|[->| ->]]; [exists u|exists u1|exists u1];
      (split; [assumption|lia]).
  - destruct (place_pixel_rejected now request st) as [[r Hr]|Hst];
      rewrite Hplace in *; cbn [fst snd] in *; [discriminate|].
    destruct Hst as [->|[->| ->]]; [exists u|exists u1|exists u1];
      (split; [assumption|lia]).
Qed.

(** X23: a user with more than [FREE_ELIGIBILITY_MAX_PAID] (500) paid
    placements never places for free, and stays above the ceiling for
    good: no placement, undo, report or weekly reset lowers
    [lifetime_paid_placements]. *)
Theorem free_eligibility_is_lost_for_good (now : Z) (st : State) (uid : Z) (u : User) :
  users st !! uid = Some u ->
  FREE_ELIGIBILITY_MAX_PAID < lifetime_paid_placements u ->
  (forall request r,
      user_id request = uid -> snd (place_pixel now request st) = Ok r ->
      was_free r = false) /\
  (forall request,
      exists u', users (fst (place_pixel now request st)) !! uid = Some u' /\
                 FREE_ELIGIBILITY_MAX_PAID < lifetime_paid_placements u') /\
  (forall placement_id who,
      exists u', users (fst (undo_placement now placement_id who st)) !! uid = Some u' /\
                 lifetime_paid_placements u' = lifetime_paid_placements u) /\
  (forall who x y reason, users (fst (report_pixel now who x y reason st)) !! uid = Some u) /\
  (exists u', users (snd (check_and_reset_week now st)) !! uid = Some u' /\
              lifetime_paid_placements u' = lifetime_paid_placements u).
Proof.
  intros Hu Hpaid.
  destruct (check_and_reset_week_user now st uid u Hu) as (u1 & Hu1 & _ & Hl1).
  split; [|split; [|split; [|split]]].
  - intros request r <- Hr.
    destruct (place_pixel now request st) as [st' res] eqn:Hplace. cbn [snd] in Hr.
    subst res.
    destruct (place_pixel_committed _ _ _ _ _ Hplace) as (_ & _ & _ & -> & _).
    rewrite is_free_placement_eligible_cases.
    assert (Hc : under_ceiling (snd (check_and_reset_week now st)) (user_id request)
                 = false).
    { unfold under_ceiling. rewrite Hu1. apply Z.leb_gt. lia. }
    rewrite Hc, !andb_false_r. reflexivity.
  - intros request.
    destruct (place_pixel_lifetime now request st uid u Hu) as (u' & Hu' & Hl).
    exists u'. split; [exact Hu'|lia].
  - intros placement_id who.
    destruct (undo_placement_rejected now placement_id who st) as [[r Hr]|Hst].
    + destruct (undo_placement now placement_id who st) as [st' res] eqn:Hundo.
      cbn [fst snd] in *. subst res.
      destruct (undo_placement_ok _ _ _ _ _ _ Hundo)
        as (pl & v & _ & _ & _ & _ & _ & Hv & _ & _ & _ & ->).
      cbn [undone_state users].
      destruct (decide (who = uid)) as [->|Hne].
      * rewrite lookup_alter_eq, Hu. cbn. by eexists.
      * rewrite lookup_alter_ne by exact Hne. by exists u.
    + rewrite Hst. by exists u.
  - intros who x y reason. unfold report_pixel, is_board_frozen.
    repeat match goal with
           | |- context [if ?c then _ else _] => destruct c
           | |- context [match ?o with Some _ => _ | None => _ end] => destruct o
           end; exact Hu.
  - by exists u1.
Qed.

(** A user with 501 paid placements asks for a pixel after half an hour
    of silence on the board, and pays for it. *)
Lemma free_eligibility_is_lost_for_good_witness :
  exists u',
    users (fst (place_pixel Examples.half_hour_later Examples.white_at_3_4
                            MoreExamples.veteran_board)) !! 1 = Some u' /\
    FREE_ELIGIBILITY_MAX_PAID < lifetime_paid_placements u'.
Proof.
  apply (proj1 (proj2 (free_eligibility_is_lost_for_good Examples.half_hour_later
                         MoreExamples.veteran_board 1 MoreExamples.veteran
                         ltac:(vm_compute; reflexivity) ltac:(vm_compute; reflexivity)))
               Examples.white_at_3_4).
Defined.

End FreeModeOverTime.

(** * The host's two clocks *)

Section HostClocks.

(** On a host whose local time is UTC the two readings are one, and
    [Host] is the program as given first. *)
Lemma host_on_utc now :
  Host.check_and_reset_week (mkClock now now) = check_and_reset_week now /\
  Host.place_pixel (mkClock now now) = place_pixel now /\
  Host.undo_placement (mkClock now now) = undo_placement now /\
  Host.get_board (mkClock now now) = get_board now.
Proof. by repeat split. Qed.

Lemma host_check_and_reset_week_idle c st :
  local_now c - week_start st < days 7 -> Host.check_and_reset_week c st = (false, st).
Proof.
  intros H. unfold Host.check_and_reset_week, get_week_start.
  by replace (days 7 <=? local_now c - week_start st) with false
    by (symmetry; apply Z.leb_gt; exact H).
Qed.

(** What the week check keeps whether or not it resets. *)
Lemma host_check_and_reset_week_kept c st :
  let st1 := snd (Host.check_and_reset_week c st) in
  placements st1 = placements st /\
  last_placement st1 = last_placement st /\
  (board_frozen st = false -> board_frozen st1 = false).
Proof.
  unfold Host.check_and_reset_week.
  destruct (days 7 <=? local_now c - get_week_start st); cbn; by repeat split.
Qed.

(** Everything a committed placement has checked and written. *)
Lemma host_place_pixel_committed c request st st' r :
  Host.place_pixel c request st = (st', Ok r) ->
  let st1 := snd (Host.check_and_reset_week c st) in
  exists u,
    board_frozen st = false /\
    users st1 !! user_id request = Some u /\
    was_free r = fst (is_free_placement_eligible (local_now c) st1 (user_id request)) /\
    (if was_free r then cost r = 0 /\ new_balance r = credits u
     else calculate_pixel_cost st1 (x request) (y request) = Some (cost r) /\
          cost r <= credits u /\ new_balance r = credits u - cost r) /\
    placement_id r = Z.of_nat (length (placements st1)) + 1 /\
    users st' = users_after_placement request (was_free r) (cost r) st1 /\
    pixels st' =
      <[(x request, y request) :=
          mkPixel (req_color request)
                  (level_of st1 (x request) (y request) + COST_INCREMENT_CREDITS)
                  (Some (user_id request)) (req_is_ad request)
                  (sqlite_datetime_now (utc_now c))]> (pixels st1) /\
    placements st' =
      placements st1 ++
        [mkPlacement (user_id request) (x request) (y request) (req_color request)
                     (cost r) (was_free r) (req_is_ad request) true
                     (color <$> pixels st1 !! (x request, y request))
                     (pixels st1 !! (x request, y request) ≫= owner_id)
                     (sqlite_datetime_now (utc_now c))] /\
    reports st' = reports st1 /\ archives st' = archives st1 /\
    week_start st' = week_start st1 /\ board_frozen st' = board_frozen st1 /\
    last_placement st' = sqlite_datetime_now (utc_now c).
Proof.
  unfold Host.place_pixel, is_board_frozen.
  destruct (board_frozen st) eqn:Hfrozen; [discriminate|].
  set (st1 := snd (Host.check_and_reset_week c st)).
  destruct (users st1 !! user_id request) as [u0|] eqn:Hu0; [|discriminate].
  cbv zeta.
  destruct (utc_now c - default 0 (user_last_placement st1 !! user_id request)
            <? seconds RATE_LIMIT_SECONDS); [discriminate|].
  rewrite is_free_placement_eligible_frame.
  destruct (is_free_placement_eligible (local_now c) st1 (user_id request))
    as [is_free free_reason] eqn:Hfree.
  set (st2 := set_user_last_placement (insert (user_id request) (utc_now c)) st1).
  change (users st2) with (users st1). rewrite Hu0.
  assert (Hcost : calculate_pixel_cost st2 (x request) (y request)
                  = calculate_pixel_cost st1 (x request) (y request)) by reflexivity.
  rewrite Hcost. clear Hcost.
  destruct (if is_free then Some 0
            else calculate_pixel_cost st1 (x request) (y request))
    as [cst|] eqn:Hc; [|discriminate].
  destruct (negb is_free && (credits u0 <? cst)) eqn:Hfunds; [discriminate|].
  intros H. injection H as Hst' Hr. subst r. cbn [was_free cost new_balance placement_id].
  exists u0. split; [reflexivity|]. split; [reflexivity|]. split; [reflexivity|].
  split.
  { destruct is_free; cbn in Hfunds, Hc |- *.
    - injection Hc as <-. done.
    - apply Z.ltb_ge in Hfunds. done. }
  pose proof (update_dynamic_cap_frame) as Hframe.
  match type of Hst' with update_dynamic_cap ?s = _ =>
    specialize (Hframe s); rewrite Hst' in Hframe;
    destruct Hframe as (Hu & Hp & Hpl & Hre & Har & Hws & Hlp & Hbf & _)
  end.
  rewrite Hu, Hp, Hpl, Hre, Har, Hws, Hlp, Hbf. clear.
  unfold users_after_placement, level_of.
  change (pixels st2) with (pixels st1).
  destruct (pixels st1 !! (x request, y request)) as [p|];
    destruct is_free; cbn;
    repeat match goal with |- context [if ?c then _ else _] => destruct c end;
    by repeat split.
Qed.

(** The checks [Host.undo_placement] makes, in the order it makes them:
    the window is judged on the local clock, the cell is stamped with
    SQLite's. *)
Lemma host_undo_placement_cases c placement_id user_id st :
  Host.undo_placement c placement_id user_id st =
    if board_frozen st then (st, HTTPException 403 BoardFrozen)
    else match lookup_placement placement_id (placements st) with
         | None => (st, HTTPException 404 PlacementNotFound)
         | Some placement =>
           if negb (p_user_id placement =? user_id)
           then (st, HTTPException 403 NotYourPlacement)
           else if negb (can_undo placement)
           then (st, HTTPException 400 CannotUndoThisPlacement)
           else if seconds UNDO_WINDOW_SECONDS <? local_now c - placed_at placement
           then (st, HTTPException 400 UndoWindowExpired)
           else match users st !! user_id with
                | None => (st, HTTPException 404 UserNotFound)
                | Some u =>
                  match undo_cost_of (p_cost placement) (undo_escalation_count u) with
                  | None => (st, Uncaught)
                  | Some undo_cost =>
                    if credits u <? undo_cost
                    then (st, HTTPException 402 (InsufficientCreditsForUndo undo_cost))
                    else (undone_state (utc_now c) placement_id user_id undo_cost
                                       placement st,
                          Ok (mkUndoResponse undo_cost (credits u - undo_cost)))
                  end
                end
         end.
Proof.
  unfold Host.undo_placement, is_board_frozen, undone_state, pixels_after_undo.
  destruct (board_frozen st) eqn:Hfrozen; [reflexivity|].
  destruct (lookup_placement placement_id (placements st)) as [pl|]; [|reflexivity].
  destruct (negb (p_user_id pl =? user_id)); [reflexivity|].
  destruct (negb (can_undo pl)); [reflexivity|].
  destruct (seconds UNDO_WINDOW_SECONDS <? local_now c - placed_at pl); [reflexivity|].
  destruct (users st !! user_id) as [u|]; [|reflexivity].
  destruct (undo_cost_of (p_cost pl) (undo_escalation_count u)) as [cst|]; [|reflexivity].
  destruct (credits u <? cst); [reflexivity|].
  unfold set_placements, set_pixels, set_users.
  cbn [users pixels placements reports archives week_start last_placement
       current_cap board_frozen user_last_placement].
  rewrite Hfrozen.
  destruct (truthy (previous_color pl)); reflexivity.
Qed.

(** X10: once [check_and_reset_week] has reset the cycle, it has stored
    SQLite's UTC second as the new [week_start] and archived the week up
    to the host's local [datetime.now()].  A second check (directly or
    through [GET /board]) changes nothing as long as the local clock it
    reads is less than seven days past that stored UTC second: one
    archive is added per reset, and the week it records spans seven days
    or more. *)
Theorem week_reset_once (c c' : Clock) (st : State) :
  days 7 <= local_now c - week_start st ->
  local_now c' - sqlite_datetime_now (utc_now c) < days 7 ->
  let st1 := snd (Host.check_and_reset_week c st) in
  week_start st1 = sqlite_datetime_now (utc_now c) /\
  Host.check_and_reset_week c' st1 = (false, st1) /\
  fst (Host.get_board c' st1) = st1 /\
  exists a, archives st1 = archives st ++ [a] /\
            a_week_start a = week_start st /\ a_week_end a = local_now c /\
            days 7 <= a_week_end a - a_week_start a.
Proof.
  intros Hweek Hnext st1.
  assert (Hst1 : week_start st1 = sqlite_datetime_now (utc_now c) /\
                 exists a, archives st1 = archives st ++ [a] /\
                           a_week_start a = week_start st /\
                           a_week_end a = local_now c).
  { unfold st1, Host.check_and_reset_week, get_week_start.
    replace (days 7 <=? local_now c - week_start st) with true
      by (symmetry; apply Z.leb_le; exact Hweek).
    cbn. split; [reflexivity|]. eexists. split; [reflexivity|]. by split. }
  destruct Hst1 as (Hws & a & Ha & Has & Hae).
  assert (Hidle : Host.check_and_reset_week c' st1 = (false, st1)).
  { apply host_check_and_reset_week_idle. by rewrite Hws. }
  split; [exact Hws|]. split; [exact Hidle|]. split.
  - unfold Host.get_board. by rewrite Hidle.
  - exists a. rewrite Has, Hae. by repeat split.
Qed.

(** A week that ended eight days after its start, checked twice one
    minute apart on a host one hour east of UTC. *)
Lemma week_reset_once_witness :
  let st := Examples.painted in
  let c := HostExamples.east (Examples.t0 + days 8) in
  let c' := HostExamples.east (Examples.t0 + days 8 + seconds 60) in
  let st1 := snd (Host.check_and_reset_week c st) in
  Host.check_and_reset_week c' st1 = (false, st1) /\
  length (archives st1) = 1%nat.
Proof.
  cbv zeta. split.
  - apply (week_reset_once (HostExamples.east (Examples.t0 + days 8))
                           (HostExamples.east (Examples.t0 + days 8 + seconds 60))
                           Examples.painted); vm_compute; congruence.
  - reflexivity.
Defined.

(** X5: after a committed placement, the placer's undo request for the
    returned [placement_id] is judged on the host's local clock against
    the stored time of the placement, which is SQLite's UTC clock cut to
    the whole second.  The request is turned down with 400 "Undo window
    expired", the state unchanged, exactly when the local
    [datetime.now()] of the undo is more than [UNDO_WINDOW_SECONDS]
    (300 s) past that UTC second; otherwise it is charged [undo_cost_of]
    the placement's cost at the user's undo count, and goes through
    unless the balance is below that amount (402, state unchanged).  On
    a host whose local time is UTC the window is 300 s of real time; on
    a host [d] ahead of UTC it is [300 s - d]. *)
Theorem undo_window_after_placement (c c' : Clock) (request : PlacePixelRequest)
    (st st' : State) (r : PlacePixelResponse) :
  Host.place_pixel c request st = (st', Ok r) ->
  exists u record,
    users st' !! user_id request = Some u /\
    lookup_placement (placement_id r) (placements st') = Some record /\
    placed_at record = sqlite_datetime_now (utc_now c) /\
    Host.undo_placement c' (placement_id r) (user_id request) st'
    = if seconds UNDO_WINDOW_SECONDS <? local_now c' - sqlite_datetime_now (utc_now c)
      then (st', HTTPException 400 UndoWindowExpired)
      else match undo_cost_of (cost r) (undo_escalation_count u) with
           | None => (st', Uncaught)
           | Some amount =>
               if credits u <? amount
               then (st', HTTPException 402 (InsufficientCreditsForUndo amount))
               else (undone_state (utc_now c') (placement_id r) (user_id request)
                                  amount record st',
                     Ok (mkUndoResponse amount (credits u - amount)))
           end.
Proof.
  intros Hplace.
  destruct (host_place_pixel_committed _ _ _ _ _ Hplace)
    as (u & Hfrozen & Hu & _ & _ & Hid & Hus & _ & Hlog & _ & _ & _ & Hbf & _).
  destruct (host_check_and_reset_week_kept c st) as (_ & _ & Hbf1).
  cbv zeta in *.
  destruct (users_after_placement_self request (was_free r) (cost r) _ u Hu)
    as (u' & Hu' & _).
  rewrite <- Hus in Hu'.
  assert (Hlook : lookup_placement (placement_id r) (placements st') = Some
            (mkPlacement (user_id request) (x request) (y request) (req_color request)
               (cost r) (was_free r) (req_is_ad request) true
               (color <$> pixels (snd (Host.check_and_reset_week c st))
                            !! (x request, y request))
               (pixels (snd (Host.check_and_reset_week c st))
                  !! (x request, y request) ≫= owner_id)
               (sqlite_datetime_now (utc_now c)))).
  { rewrite Hlog, Hid. apply lookup_placement_appended. }
  exists u'. eexists. split; [exact Hu'|]. split; [exact Hlook|].
  split; [reflexivity|].
  rewrite host_undo_placement_cases, Hbf, (Hbf1 Hfrozen), Hlook, Hu'.
  cbn [p_user_id can_undo placed_at p_cost negb]. rewrite Z.eqb_refl. reflexivity.
Qed.

(** On a host whose local time is UTC, a pixel painted at [t0 + 5 s]
    can still be undone 300 seconds later and no longer 301 seconds
    later; on a host one hour east of UTC the undo asked for one second
    after the placement is already too late. *)
Lemma undo_window_after_placement_witness :
  let st' := fst (Host.place_pixel (HostExamples.on_utc (Examples.t0 + seconds 5))
                                   Examples.white_at_3_4 Examples.fresh) in
  let east' := fst (Host.place_pixel (HostExamples.east (Examples.t0 + seconds 5))
                                     Examples.white_at_3_4 Examples.fresh) in
  snd (Host.undo_placement (HostExamples.on_utc (Examples.t0 + seconds 305)) 1 1 st')
  = Ok (mkUndoResponse 250 3750) /\
  Host.undo_placement (HostExamples.on_utc (Examples.t0 + seconds 306)) 1 1 st'
  = (st', HTTPException 400 UndoWindowExpired) /\
  Host.undo_placement (HostExamples.east (Examples.t0 + seconds 6)) 1 1 east'
  = (east', HTTPException 400 UndoWindowExpired).
Proof.
  cbv zeta.
  pose proof (fun c' =>
    undo_window_after_placement (HostExamples.on_utc (Examples.t0 + seconds 5)) c'
      Examples.white_at_3_4 Examples.fresh
      (fst (Host.place_pixel (HostExamples.on_utc (Examples.t0 + seconds 5))
                             Examples.white_at_3_4 Examples.fresh))
      (mkPlacePixelResponse 1000 false 4000 "Pixel placed" 1)
      ltac:(vm_compute; reflexivity)) as H.
  split; [|split].
  - vm_compute. reflexivity.
  - destruct (H (HostExamples.on_utc (Examples.t0 + seconds 306)))
      as (u & record & Hu & _ & _ & Hundo).
    exact Hundo.
  - vm_compute. reflexivity.
Defined.

(** X24: a committed placement, free or paid, restarts the inactivity
    clock at the UTC second SQLite stored for it.  A placement that
    follows while the host's local [datetime.now()] is less than
    [INACTIVITY_THRESHOLD_SECONDS] (1800 s) past that second, and six
    hours or more before the end of the week, is never free. *)
Theorem placement_restarts_inactivity_clock (c c' : Clock)
    (request request' : PlacePixelRequest) (st st' : State)
    (r r' : PlacePixelResponse) :
  Host.place_pixel c request st = (st', Ok r) ->
  local_now c' - sqlite_datetime_now (utc_now c) < seconds INACTIVITY_THRESHOLD_SECONDS ->
  seconds 21600 <= week_start st' + days 7 - local_now c' ->
  snd (Host.place_pixel c' request' st') = Ok r' ->
  last_placement st' = sqlite_datetime_now (utc_now c) /\ was_free r' = false.
Proof.
  intros Hplace Hsoon Hweek Hr'.
  destruct (host_place_pixel_committed _ _ _ _ _ Hplace)
    as (_ & _ & _ & _ & _ & _ & _ & _ & _ & _ & _ & _ & _ & Hlast).
  split; [exact Hlast|].
  destruct (Host.place_pixel c' request' st') as [st'' res] eqn:Hplace'.
  cbn [snd] in Hr'. subst res.
  destruct (host_place_pixel_committed _ _ _ _ _ Hplace') as (_ & _ & _ & -> & _).
  rewrite host_check_and_reset_week_idle by (unfold seconds, days, MICROS in *; lia).
  cbn [snd]. rewrite is_free_placement_eligible_cases, Hlast.
  replace (seconds 1800 <=? local_now c' - sqlite_datetime_now (utc_now c)) with false
    by (symmetry; apply Z.leb_gt; exact Hsoon).
  replace (week_start st' + days 7 - local_now c' <? seconds 21600) with false
    by (symmetry; apply Z.ltb_ge; exact Hweek).
  reflexivity.
Qed.

(** Half an hour into the cycle user 1 paints for free; ten minutes
    later the next pixel is paid for. *)
Lemma placement_restarts_inactivity_clock_witness :
  let st' := fst (Host.place_pixel (HostExamples.on_utc Examples.half_hour_later)
                                   Examples.white_at_3_4 Examples.fresh) in
  last_placement st' = Examples.t0 + seconds 1800 /\
  was_free (mkPlacePixelResponse 1000 false 4000 "Pixel placed" 2) = false.
Proof.
  apply (placement_restarts_inactivity_clock
           (HostExamples.on_utc Examples.half_hour_later)
           (HostExamples.on_utc (Examples.half_hour_later + seconds 600))
           Examples.white_at_3_4
           MoreExamples.other_cell Examples.fresh
           (fst (Host.place_pixel (HostExamples.on_utc Examples.half_hour_later)
                                  Examples.white_at_3_4 Examples.fresh))
           (mkPlacePixelResponse 0 true 5000 "Pixel placed (free: inactivity)" 1)
           (mkPlacePixelResponse 1000 false 4000 "Pixel placed" 2)).
  - vm_compute. reflexivity.
  - vm_compute. reflexivity.
  - vm_compute. congruence.
  - vm_compute. reflexivity.
Defined.

End HostClocks.

(** * Accounts, the shop and the monthly vote *)

(** ** Users *)

Section Users.

Lemma foldr_max_ge (l : list Z) (k : Z) : k ∈ l -> k <= foldr Z.max 0 l.
Proof.
  induction l as [|a l IH]; intros Hin.
  - by apply elem_of_nil in Hin.
  - apply elem_of_cons in Hin as [->|Hin]; cbn [foldr]; [lia|].
    specialize (IH Hin). lia.
Qed.

Lemma next_user_id_fresh s :
  users (db s) !! next_user_id s = None /\ 0 < next_user_id s.
Proof.
  unfold next_user_id.
  set (l := fst <$> map_to_list (users (db s))).
  assert (H0 : 0 <= foldr Z.max 0 l).
  { clear. induction l as [|a l IH]; cbn [foldr]; lia. }
  split; [|lia].
  destruct (users (db s) !! (foldr Z.max 0 l + 1)) as [u|] eqn:Hu; [|reflexivity].
  apply elem_of_map_to_list in Hu.
  assert (Hin : foldr Z.max 0 l + 1 ∈ l).
  { unfold l. apply list_elem_of_fmap. by eexists (_, u). }
  apply foldr_max_ge in Hin. lia.
Qed.

Lemma username_taken_spec name s :
  username_taken name s = true <->
  exists i p, profiles s !! i = Some p /\ username p = name.
Proof.
  unfold username_taken. rewrite existsb_exists. split.
  - intros ([i p] & Hin & Heq). exists i, p. split.
    + apply elem_of_map_to_list. by apply list_elem_of_In.
    + by apply String.eqb_eq.
  - intros (i & p & Hp & Heq). exists (i, p). split.
    + apply list_elem_of_In. by apply elem_of_map_to_list.
    + by apply String.eqb_eq.
Qed.

(** X13: a user that [create_user] has created is found by [get_user]
    under the returned id, with the name given, exactly the credits
    given (they are not validated: a negative amount is stored as it
    is), no paid placement and the second of creation.  The id is
    positive and was not in use, every other user reads as before, and
    the board, the log, the purchases and the votes stay. *)
Theorem create_user_then_get_user (now : Z) (name : string) (initial_credits : Z)
    (s s' : Site) (r : CreateUserResponse) :
  rows_agree s ->
  create_user now name initial_credits s = (s', Reply_ok r) ->
  r = mkCreateUserResponse (next_user_id s) name initial_credits /\
  0 < created_user_id r /\
  get_user (created_user_id r) s = Reply_error 404 "User not found" /\
  get_user (created_user_id r) s'
  = Reply_ok (mkUserInfo (created_user_id r) name initial_credits 0
                         (sqlite_datetime_now now)) /\
  (forall other, other <> created_user_id r -> get_user other s' = get_user other s) /\
  db s' = set_users (insert (created_user_id r) (mkUser initial_credits 0 0 0)) (db s) /\
  purchases s' = purchases s /\ votes s' = votes s /\
  rows_agree s'.
Proof.
  intros Hrows. unfold create_user.
  destruct (username_taken name s); [discriminate|].
  intros [= <- <-]. cbn [created_user_id].
  destruct (next_user_id_fresh s) as [Hfresh Hpos].
  split; [reflexivity|]. split; [exact Hpos|].
  split; [unfold get_user, user_row; by rewrite Hfresh|].
  split.
  { unfold get_user, user_row. cbn. by rewrite !lookup_insert_eq. }
  split.
  { intros other Hne. unfold get_user, user_row. cbn.
    by rewrite !lookup_insert_ne by congruence. }
  split; [reflexivity|]. split; [reflexivity|]. split; [reflexivity|].
  intros id. cbn.
  destruct (decide (id = next_user_id s)) as [->|Hne].
  - by rewrite !lookup_insert_eq.
  - rewrite !lookup_insert_ne by congruence. apply Hrows.
Qed.

(** No two rows of [users] hold the same name. *)
Lemma usernames_unique_insert name id created s :
  username_taken name s = false ->
  usernames_unique s ->
  usernames_unique (set_profiles (insert id (mkProfile name None created)) s).
Proof.
  intros Hfree Huniq i j p q. cbn.
  assert (Hno : forall k r, profiles s !! k = Some r -> username r <> name).
  { intros k r Hr Heq.
    assert (username_taken name s = true) by (apply username_taken_spec; eauto).
    congruence. }
  destruct (decide (i = id)) as [->|Hi]; destruct (decide (j = id)) as [->|Hj];
    rewrite ?lookup_insert_eq, ?lookup_insert_ne by congruence.
  - done.
  - intros [= <-] Hq Heq. cbn in Heq. by destruct (Hno _ _ Hq).
  - intros Hp [= <-] Heq. cbn in Heq. by destruct (Hno _ _ Hp).
  - apply Huniq.
Qed.

(** X14: [create_user] turns down a name some user already holds with
    400 "Username already exists" and changes nothing; whatever the
    request, the names of the users stay pairwise different. *)
Theorem create_user_keeps_usernames_unique (now : Z) (name : string)
    (initial_credits : Z) (s : Site) :
  usernames_unique s ->
  usernames_unique (fst (create_user now name initial_credits s)) /\
  (username_taken name s = true ->
   create_user now name initial_credits s
   = (s, Reply_error 400 "Username already exists")) /\
  (username_taken name s = false ->
   exists r, snd (create_user now name initial_credits s) = Reply_ok r).
Proof.
  intros Huniq. unfold create_user.
  destruct (username_taken name s) eqn:Htaken; cbn [fst snd].
  - split; [exact Huniq|]. split; [done|discriminate].
  - split; [|split; [discriminate|by eexists]].
    apply (usernames_unique_insert name _ _
             (set_db (set_users (insert (next_user_id s) (mkUser initial_credits 0 0 0))) s)
             Htaken Huniq).
Qed.

(** Bob signs up at launch with 700 credits and is user 2. *)
Lemma create_user_then_get_user_witness :
  get_user 2 (fst (create_user (Examples.t0 + seconds 5) "bob" 700 SiteExamples.launch))
  = Reply_ok (mkUserInfo 2 "bob" 700 0 (Examples.t0 + seconds 5)).
Proof.
  destruct (create_user_then_get_user (Examples.t0 + seconds 5) "bob" 700
              SiteExamples.launch
              (fst (create_user (Examples.t0 + seconds 5) "bob" 700 SiteExamples.launch))
              (mkCreateUserResponse 2 "bob" 700)) as (_ & _ & _ & H & _).
  - intros id. unfold SiteExamples.launch, Examples.fresh. cbn [db users profiles].
    by rewrite !lookup_singleton_None.
  - vm_compute. reflexivity.
  - exact H.
Defined.

(** A second alice is turned down. *)
Lemma create_user_keeps_usernames_unique_witness :
  create_user (Examples.t0 + seconds 5) "alice" 0 SiteExamples.launch
  = (SiteExamples.launch, Reply_error 400 "Username already exists").
Proof.
  apply (create_user_keeps_usernames_unique (Examples.t0 + seconds 5) "alice" 0
           SiteExamples.launch).
  - intros i j p q Hp Hq _. unfold SiteExamples.launch in Hp, Hq. cbn [profiles] in Hp, Hq.
    apply lookup_singleton_Some in Hp as [<- _].
    by apply lookup_singleton_Some in Hq as [<- _].
  - vm_compute. reflexivity.
Defined.

End Users.

(** ** Buying credits *)

Section Shop.

Lemma find_purchase_completed sid pi now log i p :
  find_purchase sid log = Some (i, p) ->
  find_purchase sid (alter (complete_purchase pi now) i log)
  = Some (i, complete_purchase pi now p).
Proof.
  unfold find_purchase. rewrite !list_find_Some.
  intros (Hi & HP & Hleast). split; [|split].
  - by rewrite list_lookup_alter_eq, Hi.
  - exact HP.
  - intros j y Hj Hlt. rewrite list_lookup_alter_ne in Hj by lia.
    by apply (Hleast j).
Qed.

Lemma find_purchase_appended sid log p :
  find_purchase sid log = None -> stripe_session_id p = sid ->
  find_purchase sid (log ++ [p]) = Some (length log, p).
Proof.
  intros Hnone Hsid. unfold find_purchase in *.
  rewrite list_find_app_r by exact Hnone. cbn.
  destruct (decide (stripe_session_id p = sid)); [|done]. reflexivity.
Qed.

Lemma credit_package_values package info :
  dict_get CREDIT_PACKAGES package = Some info ->
  (package = "small"%string /\ info = mkPackage 50000 500 "$5 - 50k credits") \/
  (package = "medium"%string /\ info = mkPackage 110000 1000 "$10 - 110k credits") \/
  (package = "large"%string /\ info = mkPackage 250000 2000 "$20 - 250k credits").
Proof.
  unfold CREDIT_PACKAGES. cbn [dict_get].
  destruct (String.eqb_spec "small" package) as [<-|_].
  { intros [= <-]. by left. }
  destruct (String.eqb_spec "medium" package) as [<-|_].
  { intros [= <-]. right. by left. }
  destruct (String.eqb_spec "large" package) as [<-|_].
  { intros [= <-]. right. by right. }
  discriminate.
Qed.

(** X15: [create_checkout_session] never touches a balance, a user or a
    vote.  A request that is answered with an error leaves the whole
    state as it was; one that succeeds was made with a configured key,
    for an existing user and one of the three packages, and adds a
    single purchase, pending, with the price and the credits of that
    package under the session id Stripe returned. *)
Theorem create_checkout_session_effects (STRIPE_SECRET_KEY : string)
    (checkout_session : CheckoutSession) (user_id : Z) (package : string) (s : Site) :
  let res := create_checkout_session STRIPE_SECRET_KEY checkout_session user_id package s in
  db (fst res) = db s /\ profiles (fst res) = profiles s /\ votes (fst res) = votes s /\
  match snd res with
  | Reply_ok r =>
      exists info,
        checkout_session = SessionCreated (session_id r) (checkout_url r) /\
        STRIPE_SECRET_KEY <> ""%string /\
        dict_get CREDIT_PACKAGES package = Some info /\
        (package_credits info = 50000 /\ package_price info = 500 \/
         package_credits info = 110000 /\ package_price info = 1000 \/
         package_credits info = 250000 /\ package_price info = 2000) /\
        users (db s) !! user_id <> None /\
        find_purchase (session_id r) (purchases s) = None /\
        purchases (fst res)
        = purchases s ++ [mkPurchase user_id (session_id r) None (package_price info)
                                     (package_credits info) "pending" None]
  | _ => fst res = s
  end.
Proof.
  cbv zeta. unfold create_checkout_session.
  destruct (String.eqb_spec STRIPE_SECRET_KEY "") as [Hkey|Hkey]; [done|].
  destruct (dict_get CREDIT_PACKAGES package) as [info|] eqn:Hinfo; [|done].
  destruct (users (db s) !! user_id) as [u|] eqn:Hu; [|done].
  destruct checkout_session as [id url|e]; [|done].
  destruct (find_purchase id (purchases s)) eqn:Hfind; [done|].
  cbn. repeat split. exists info. repeat split; try done.
  destruct (credit_package_values _ _ Hinfo) as [[_ ->]|[[_ ->]|[_ ->]]]; cbn; lia.
Qed.

(** What a checkout that succeeded has checked and written. *)
Lemma create_checkout_session_ok key checkout_session user_id package s s1 r :
  create_checkout_session key checkout_session user_id package s = (s1, Reply_ok r) ->
  exists info,
    checkout_session = SessionCreated (session_id r) (checkout_url r) /\
    key <> ""%string /\
    dict_get CREDIT_PACKAGES package = Some info /\
    users (db s) !! user_id <> None /\
    find_purchase (session_id r) (purchases s) = None /\
    s1 = set_purchases
           (fun log => log ++
              [mkPurchase user_id (session_id r) None (package_price info)
                          (package_credits info) "pending" None]) s.
Proof.
  unfold create_checkout_session.
  destruct (String.eqb_spec key "") as [Hkey|Hkey]; [discriminate|].
  destruct (dict_get CREDIT_PACKAGES package) as [info|] eqn:Hinfo; [|discriminate].
  destruct (users (db s) !! user_id) as [u|] eqn:Hu; [|discriminate].
  destruct checkout_session as [id url|e]; [|discriminate].
  destruct (find_purchase id (purchases s)) eqn:Hfind; [discriminate|].
  intros [= <- <-]. exists info. cbn. by repeat split.
Qed.

(** X16: a purchase started by [create_checkout_session] and completed
    by the webhook's [checkout.session.completed] event for the session
    adds exactly the credits of the package (50000, 110000 or 250000) to
    the buyer's balance, marks the purchase completed, and changes no
    other user. *)
Theorem checkout_then_webhook (key secret : string) (checkout_session : CheckoutSession)
    (user_id : Z) (package : string) (now : Z) (payment_intent : option string)
    (s s1 : Site) (r : CheckoutResponse) :
  create_checkout_session key checkout_session user_id package s = (s1, Reply_ok r) ->
  secret <> ""%string ->
  let event := Event "checkout.session.completed" (session_id r) payment_intent in
  let s2 := fst (stripe_webhook secret now event s1) in
  exists info u,
    dict_get CREDIT_PACKAGES package = Some info /\
    users (db s) !! user_id = Some u /\
    users (db s2) !! user_id
    = Some (with_credits (fun c => c + package_credits info) u) /\
    (forall other, other <> user_id -> users (db s2) !! other = users (db s) !! other) /\
    purchases s2
    = purchases s ++ [mkPurchase user_id (session_id r) payment_intent
                                 (package_price info) (package_credits info)
                                 "completed" (Some (sqlite_datetime_now now))] /\
    snd (stripe_webhook secret now event s1) = Reply_ok "success"%string.
Proof.
  intros Hcheckout Hsecret.
  destruct (create_checkout_session_ok _ _ _ _ _ _ _ Hcheckout)
    as (info & _ & _ & Hinfo & Hu & Hnone & ->).
  assert (Hdb : db (set_purchases
                      (fun log => log ++
                         [mkPurchase user_id (session_id r) None (package_price info)
                                     (package_credits info) "pending" None]) s)
                = db s) by reflexivity.
  assert (Hlog : purchases (set_purchases
                      (fun log => log ++
                         [mkPurchase user_id (session_id r) None (package_price info)
                                     (package_credits info) "pending" None]) s)
                 = purchases s ++
                   [mkPurchase user_id (session_id r) None (package_price info)
                               (package_credits info) "pending" None]) by reflexivity.
  set (s1 := set_purchases _ s) in *.
  destruct (users (db s) !! user_id) as [u|] eqn:Hu'; [|done].
  cbv zeta. exists info, u. split; [exact Hinfo|]. split; [reflexivity|].
  unfold stripe_webhook.
  destruct (String.eqb_spec secret "") as [?|_]; [done|].
  cbn [String.eqb Ascii.eqb Bool.eqb andb].
  rewrite Hlog.
  rewrite (find_purchase_appended (session_id r) (purchases s)
             (mkPurchase user_id (session_id r) None (package_price info)
                         (package_credits info) "pending" None) Hnone eq_refl).
  cbn [fst snd db users set_db set_users set_purchases purchases purchase_user_id
       credits_purchased].
  rewrite Hdb, Hlog. split; [by rewrite lookup_alter_eq, Hu'|].
  split; [intros other Hne; by rewrite lookup_alter_ne by congruence|].
  split; [|reflexivity].
  replace (length (purchases s)) with (length (purchases s) + 0)%nat by lia.
  by rewrite alter_app_r.
Qed.

(** Alice buys the medium package. *)
Lemma checkout_then_webhook_witness :
  let s1 := fst (create_checkout_session "sk_test" (SessionCreated "cs_1" "https://pay")
                   1 "medium" SiteExamples.launch) in
  users (db (fst (stripe_webhook "whsec" (Examples.t0 + seconds 9)
                    (Event "checkout.session.completed" "cs_1" None) s1))) !! 1
  = Some (mkUser 115000 0 0 0).
Proof.
  cbv zeta.
  destruct (checkout_then_webhook "sk_test" "whsec" (SessionCreated "cs_1" "https://pay")
              1 "medium" (Examples.t0 + seconds 9) None SiteExamples.launch
              (fst (create_checkout_session "sk_test" (SessionCreated "cs_1" "https://pay")
                      1 "medium" SiteExamples.launch))
              (mkCheckoutResponse "https://pay" "cs_1"))
    as (info & u & Hinfo & Hu & Hu2 & _).
  - vm_compute. reflexivity.
  - discriminate.
  - vm_compute. reflexivity.
Defined.

Lemma with_credits_add a b u :
  with_credits (fun c => c + a) (with_credits (fun c => c + b) u)
  = with_credits (fun c => c + (b + a)) u.
Proof. destruct u. unfold with_credits. cbn. f_equal. lia. Qed.

(** X17: the webhook does not look at the status of the purchase: every
    delivery of a [checkout.session.completed] event for a recorded
    session adds the purchased credits to the buyer again, so [n]
    deliveries add [n] times the amount.  Events of another type and
    events for an unknown session change nothing. *)
Theorem webhook_credits_every_delivery (secret : string) (now : Z) (sid : string)
    (payment_intent : option string) (n : nat) (s : Site) (i : nat) (p : Purchase)
    (u : User) :
  secret <> ""%string ->
  find_purchase sid (purchases s) = Some (i, p) ->
  users (db s) !! purchase_user_id p = Some u ->
  users (db (deliver secret now (Event "checkout.session.completed" sid payment_intent)
                     n s)) !! purchase_user_id p
  = Some (with_credits (fun c => c + Z.of_nat n * credits_purchased p) u) /\
  (forall ty, ty <> "checkout.session.completed"%string ->
     stripe_webhook secret now (Event ty sid payment_intent) s
     = (s, Reply_ok "success"%string)) /\
  (forall other, find_purchase other (purchases s) = None ->
     stripe_webhook secret now (Event "checkout.session.completed" other payment_intent) s
     = (s, Reply_ok "success"%string)).
Proof.
  intros Hsecret Hfind Hu. split; [|split].
  - revert s p u Hfind Hu. induction n as [|n IH]; intros s p u Hfind Hu.
    + cbn [deliver]. rewrite Hu. f_equal. destruct u. unfold with_credits. cbn.
      f_equal. lia.
    + cbn [deliver]. unfold stripe_webhook at 1.
      destruct (String.eqb_spec secret "") as [?|_]; [done|].
      cbn [String.eqb Ascii.eqb Bool.eqb andb]. rewrite Hfind. cbn [fst].
      set (s1 := set_purchases _ _).
      specialize (IH s1 (complete_purchase payment_intent now p)
                     (with_credits (fun c => c + credits_purchased p) u)).
      cbn [complete_purchase purchase_user_id credits_purchased] in IH.
      rewrite IH.
      * f_equal. rewrite with_credits_add. destruct u. unfold with_credits. cbn.
        f_equal. lia.
      * unfold s1. cbn [purchases set_purchases set_db].
        by apply find_purchase_completed.
      * unfold s1. cbn. by rewrite lookup_alter_eq, Hu.
  - intros ty Hty. unfold stripe_webhook.
    destruct (String.eqb_spec secret "") as [?|_]; [done|].
    destruct (String.eqb_spec ty "checkout.session.completed"); done.
  - intros other Hother. unfold stripe_webhook.
    destruct (String.eqb_spec secret "") as [?|_]; [done|].
    cbn [String.eqb Ascii.eqb Bool.eqb andb]. by rewrite Hother.
Qed.

(** The event for alice's order, delivered twice. *)
Lemma webhook_credits_every_delivery_witness :
  users (db (deliver "whsec" (Examples.t0 + seconds 9) SiteExamples.paid 2
                     SiteExamples.medium_ordered)) !! 1
  = Some (mkUser 225000 0 0 0).
Proof.
  destruct (webhook_credits_every_delivery "whsec" (Examples.t0 + seconds 9) "cs_1" None 2
              SiteExamples.medium_ordered 0
              (mkPurchase 1 "cs_1" None 1000 110000 "pending" None) Examples.alice)
    as [H _].
  - discriminate.
  - vm_compute. reflexivity.
  - vm_compute. reflexivity.
  - exact H.
Defined.

End Shop.

(** ** Voting *)

Section Voting.

Lemma already_voted_spec uid month year log :
  already_voted uid month year log = true <->
  exists i v, log !! i = Some v /\ vote_user_id v = uid /\
              vote_month v = month /\ vote_year v = year.
Proof.
  unfold already_voted. rewrite existsb_exists. split.
  - intros (v & Hin & Hv). apply list_elem_of_In, list_elem_of_lookup in Hin as [i Hi].
    exists i, v. split; [exact Hi|]. lia.
  - intros (i & v & Hi & <- & <- & <-). exists v. split.
    + apply list_elem_of_In. by eapply list_elem_of_lookup_2.
    + rewrite !Z.eqb_refl. reflexivity.
Qed.

(** The checks [vote_for_archive] makes, in their order. *)
Lemma vote_for_archive_ok uid aid s s1 msg :
  vote_for_archive uid aid s = (s1, Reply_ok msg) ->
  exists archive,
    users (db s) !! uid <> None /\
    lookup_archive aid (archives (db s)) = Some archive /\
    already_voted uid (month_of (a_week_end archive)) (year_of (a_week_end archive))
                  (votes s) = false /\
    s1 = set_votes (fun log => log ++ [mkVote uid aid (month_of (a_week_end archive))
                                              (year_of (a_week_end archive))]) s.
Proof.
  unfold vote_for_archive.
  destruct (users (db s) !! uid) as [u|]; [|discriminate].
  destruct (lookup_archive aid (archives (db s))) as [archive|]; [|discriminate].
  destruct (already_voted _ _ _ _) eqn:Hvoted; [discriminate|].
  intros [= <- _]. by exists archive.
Qed.

(** X18: a user has one vote for each calendar month of archives.  A
    vote that is recorded adds one row, holding the month and the year in
    which the archive's week ended, and nothing else; from then on every
    vote of the same user for an archive whose week ended in that month
    of that year (the same archive or another) is turned down with 400
    "Already voted this month" and changes nothing. *)
Theorem one_vote_per_month (user_id archive_id : Z) (s s1 : Site) (msg : string) :
  vote_for_archive user_id archive_id s = (s1, Reply_ok msg) ->
  exists archive,
    lookup_archive archive_id (archives (db s)) = Some archive /\
    db s1 = db s /\ profiles s1 = profiles s /\ purchases s1 = purchases s /\
    votes s1 = votes s ++ [mkVote user_id archive_id (month_of (a_week_end archive))
                                  (year_of (a_week_end archive))] /\
    forall archive_id' archive',
      lookup_archive archive_id' (archives (db s)) = Some archive' ->
      month_of (a_week_end archive') = month_of (a_week_end archive) ->
      year_of (a_week_end archive') = year_of (a_week_end archive) ->
      vote_for_archive user_id archive_id' s1
      = (s1, Reply_error 400 "Already voted this month").
Proof.
  intros Hvote.
  destruct (vote_for_archive_ok _ _ _ _ _ Hvote) as (archive & Hu & Ha & _ & ->).
  exists archive. split; [exact Ha|]. cbn [db profiles purchases votes set_votes].
  repeat split.
  intros aid' archive' Ha' Hm Hy. unfold vote_for_archive.
  cbn [db votes set_votes].
  destruct (users (db s) !! user_id) as [u|]; [|done].
  rewrite Ha', Hm, Hy.
  replace (already_voted _ _ _ _) with true; [reflexivity|].
  symmetry. apply already_voted_spec.
  exists (length (votes s)), (mkVote user_id archive_id (month_of (a_week_end archive))
                                     (year_of (a_week_end archive))).
  split; [|done].
  by rewrite list_lookup_middle.
Qed.

(** Alice votes for the first archive of November 2023 and then tries
    the second. *)
Lemma one_vote_per_month_witness :
  let s1 := fst (vote_for_archive 1 1 SiteExamples.archived) in
  votes s1 = [mkVote 1 1 11 2023] /\
  vote_for_archive 1 2 s1 = (s1, Reply_error 400 "Already voted this month").
Proof.
  cbv zeta.
  destruct (one_vote_per_month 1 1 SiteExamples.archived
              (fst (vote_for_archive 1 1 SiteExamples.archived)) "Vote recorded")
    as (archive & Ha & _ & _ & _ & Hv & Hagain).
  - vm_compute. reflexivity.
  - vm_compute in Ha. injection Ha as <-. split.
    + vm_compute. reflexivity.
    + apply (Hagain 2 (mkArchive (Examples.t0 + days 8) (Examples.t0 + days 15) [] 0 0));
        vm_compute; reflexivity.
Defined.

(** X19: [vote_for_archive] keeps the table of votes free of two votes
    of one user for the same month and year.  A vote that is turned down
    (unknown user, unknown archive, already voted) changes nothing. *)
Theorem vote_for_archive_keeps_votes_unique (user_id archive_id : Z) (s : Site) :
  votes_unique (votes s) ->
  votes_unique (votes (fst (vote_for_archive user_id archive_id s))) /\
  (fst (vote_for_archive user_id archive_id s) = s \/
   snd (vote_for_archive user_id archive_id s) = Reply_ok "Vote recorded"%string).
Proof.
  intros Huniq.
  destruct (vote_for_archive user_id archive_id s) as [s1 res] eqn:Hvote.
  cbn [fst snd].
  assert (Hcases : s1 = s \/ res = Reply_ok "Vote recorded"%string).
  { revert Hvote. unfold vote_for_archive.
    destruct (users (db s) !! user_id) as [u|]; [|intros [= <- _]; by left].
    destruct (lookup_archive archive_id (archives (db s))) as [archive|];
      [|intros [= <- _]; by left].
    destruct (already_voted _ _ _ _); intros [= <- <-]; [by left|by right]. }
  split; [|exact Hcases].
  destruct Hcases as [->| ->]; [exact Huniq|].
  destruct (vote_for_archive_ok _ _ _ _ _ Hvote) as (archive & _ & _ & Hnot & ->).
  cbn [votes set_votes]. intros i j v w Hi Hj Hu Hm Hy.
  assert (Hfree : forall k x, votes s !! k = Some x ->
            vote_user_id x = user_id -> vote_month x = month_of (a_week_end archive) ->
            vote_year x = year_of (a_week_end archive) -> False).
  { intros k x Hk Hxu Hxm Hxy.
    assert (already_voted user_id (month_of (a_week_end archive))
                          (year_of (a_week_end archive)) (votes s) = true)
      by (apply already_voted_spec; by exists k, x).
    congruence. }
  apply lookup_app_Some in Hi as [Hi|[Hil Hi]];
    apply lookup_app_Some in Hj as [Hj|[Hjl Hj]].
  - by apply (Huniq i j v w).
  - apply list_lookup_singleton_Some in Hj as [_ <-]. cbn in Hu, Hm, Hy.
    by destruct (Hfree i v).
  - apply list_lookup_singleton_Some in Hi as [_ <-]. cbn in Hu, Hm, Hy.
    by destruct (Hfree j w).
  - apply list_lookup_singleton_Some in Hi as [Hi _].
    apply list_lookup_singleton_Some in Hj as [Hj _]. lia.
Qed.

Lemma vote_for_archive_keeps_votes_unique_witness :
  votes_unique (votes (fst (vote_for_archive 1 1 SiteExamples.archived))).
Proof.
  apply (vote_for_archive_keeps_votes_unique 1 1 SiteExamples.archived).
  intros i j v w Hi. unfold SiteExamples.archived in Hi. cbn [votes] in Hi.
  by rewrite lookup_nil in Hi.
Defined.

(** X20: [get_archive] answers 404 for an id no archive has, and
    otherwise returns the archive with the number of votes cast for it.
    A recorded vote raises that number by one for the archive voted for
    and leaves every other archive's answer as it was. *)
Theorem vote_counts_in_get_archive (user_id archive_id : Z) (s s1 : Site) (msg : string) :
  vote_for_archive user_id archive_id s = (s1, Reply_ok msg) ->
  exists row,
    lookup_archive archive_id (archives (db s)) = Some row /\
    get_archive archive_id s1
    = Reply_ok (mkArchiveInfo archive_id (a_week_start row) (a_week_end row)
                              (snapshot_data row) (total_placements row)
                              (unique_contributors row)
                              (count_votes archive_id (votes s) + 1)) /\
    (forall other, other <> archive_id -> get_archive other s1 = get_archive other s) /\
    (forall other, lookup_archive other (archives (db s)) = None ->
                   get_archive other s1 = Reply_error 404 "Archive not found").
Proof.
  intros Hvote.
  destruct (vote_for_archive_ok _ _ _ _ _ Hvote) as (archive & _ & Ha & _ & ->).
  exists archive. split; [exact Ha|].
  unfold get_archive, count_votes. cbn [db votes set_votes].
  split; [|split].
  - rewrite Ha. do 2 f_equal.
    rewrite List.filter_app, List.length_app. cbn [List.filter vote_archive_id].
    rewrite Z.eqb_refl. cbn [length]. lia.
  - intros other Hne.
    destruct (lookup_archive other (archives (db s))) as [row|]; [|reflexivity].
    do 2 f_equal.
    rewrite List.filter_app, List.length_app. cbn [List.filter vote_archive_id].
    replace (archive_id =? other) with false by (symmetry; apply Z.eqb_neq; congruence).
    cbn [length]. lia.
  - intros other ->. reflexivity.
Qed.

Lemma vote_counts_in_get_archive_witness :
  get_archive 1 (fst (vote_for_archive 1 1 SiteExamples.archived))
  = Reply_ok (mkArchiveInfo 1 Examples.t0 (Examples.t0 + days 8) [] 0 0 1).
Proof.
  destruct (vote_counts_in_get_archive 1 1 SiteExamples.archived
              (fst (vote_for_archive 1 1 SiteExamples.archived)) "Vote recorded")
    as (row & Ha & Hget & _).
  - vm_compute. reflexivity.
  - rewrite Hget. vm_compute in Ha. injection Ha as <-. vm_compute. reflexivity.
Defined.

End Voting.

(** ** The monthly winner *)

Section MonthlyWinnerReward.

(** X21: [get_monthly_winner] changes the state only when it rewards.
    It names a winner only for a month with a voted archive and a paid
    placement of its week; the winner is rewarded exactly when the user
    was never rewarded or the month asked for lies six months or more
    after the month of the last reward, counting twelve months to the
    year.  A reward adds 100000 credits to the winner's balance and
    records the month asked for; nobody else changes. *)
Theorem monthly_reward_rule (year month : Z) (winner_row : option WinnerRow)
    (top_contributor : option (Z * Z)) (s s' : Site) (w : MonthlyWinner) :
  get_monthly_winner year month winner_row top_contributor s = (s', Reply_ok w) ->
  match w with
  | Winner archive_id vote_count uid name paid_count reward_given reward_amount
           cooldown_active =>
      exists row u p,
        winner_row = Some row /\ winner_vote_count row <> 0 /\
        archive_id = winner_archive_id row /\ vote_count = winner_vote_count row /\
        top_contributor = Some (uid, paid_count) /\
        user_row s uid = Some (u, p) /\ name = username p /\
        cooldown_active = negb reward_given /\
        reward_amount = (if reward_given then 100000 else 0) /\
        reward_given
        = match last_reward_month p with
          | None => true
          | Some (last_year, last_month) =>
              6 <=? (year - last_year) * 12 + (month - last_month)
          end /\
        if reward_given
        then users (db s') !! uid = Some (with_credits (fun c => c + 100000) u) /\
             profiles s' !! uid = Some (with_last_reward_month (Some (year, month)) p) /\
             (forall other, other <> uid ->
                users (db s') !! other = users (db s) !! other /\
                profiles s' !! other = profiles s !! other) /\
             purchases s' = purchases s /\ votes s' = votes s /\
             pixels (db s') = pixels (db s) /\ placements (db s') = placements (db s)
        else s' = s
  | _ => s' = s
  end.
Proof.
  unfold get_monthly_winner.
  destruct winner_row as [row|]; [|by intros [= <- <-]].
  destruct (Z.eqb_spec (winner_vote_count row) 0) as [|Hvotes]; [by intros [= <- <-]|].
  destruct top_contributor as [[uid n]|]; [|by intros [= <- <-]].
  destruct (user_row s uid) as [[u p]|] eqn:Hrow; [|discriminate].
  assert (Hup : users (db s) !! uid = Some u /\ profiles s !! uid = Some p).
  { unfold user_row in Hrow.
    destruct (users (db s) !! uid), (profiles s !! uid); try discriminate.
    by injection Hrow as -> ->. }
  destruct Hup as [Hu Hp].
  destruct (last_reward_month p) as [[ly lm]|] eqn:Hlast.
  - unfold parse_reward_key. cbn [fst snd].
    destruct ((0 <=? ly) && (0 <=? lm)); [|discriminate].
    intros [= <- <-]. exists row, u, p. rewrite Hlast.
    replace (negb ((year - ly) * 12 + (month - lm) <? 6))
      with (6 <=? (year - ly) * 12 + (month - lm))
      by (destruct (Z.leb_spec 6 ((year - ly) * 12 + (month - lm)));
          destruct (Z.ltb_spec ((year - ly) * 12 + (month - lm)) 6); try reflexivity; lia).
    do 10 (split; [done|]).
    destruct (6 <=? _); [|reflexivity]. cbn.
    rewrite !lookup_alter_eq, Hu, Hp. repeat split;
      by rewrite lookup_alter_ne by congruence.
  - intros [= <- <-]. exists row, u, p. rewrite Hlast.
    do 10 (split; [done|]). cbn.
    rewrite !lookup_alter_eq, Hu, Hp. repeat split;
      by rewrite lookup_alter_ne by congruence.
Qed.

(** Alice, never rewarded, wins November 2023. *)
Lemma monthly_reward_rule_witness :
  let res := get_monthly_winner 2023 11 (Some SiteExamples.november_row) (Some (1, 7))
                                SiteExamples.launch in
  snd res = Reply_ok (Winner 1 3 1 "alice" 7 true 100000 false) /\
  users (db (fst res)) !! 1 = Some (mkUser 105000 0 0 0).
Proof.
  cbv zeta.
  pose proof (monthly_reward_rule 2023 11 (Some SiteExamples.november_row) (Some (1, 7))
                SiteExamples.launch
                (fst (get_monthly_winner 2023 11 (Some SiteExamples.november_row)
                        (Some (1, 7)) SiteExamples.launch))
                (Winner 1 3 1 "alice" 7 true 100000 false)
                ltac:(vm_compute; reflexivity)) as H.
  cbv beta iota in H.
  destruct H as (row & u & p & _ & _ & _ & _ & _ & Hrow & _ & _ & _ & _ & Hu & _).
  split; [vm_compute; reflexivity|].
  rewrite Hu. vm_compute in Hrow. injection Hrow as <-. vm_compute. reflexivity.
Defined.

(** What a reward leaves in the winner's row. *)
Lemma get_monthly_winner_rewarded year month winner_row top_contributor s s'
    archive_id vote_count uid name paid_count reward_amount cooldown_active :
  get_monthly_winner year month winner_row top_contributor s
  = (s', Reply_ok (Winner archive_id vote_count uid name paid_count true reward_amount
                          cooldown_active)) ->
  exists u p, user_row s' uid = Some (u, p) /\ last_reward_month p = Some (year, month).
Proof.
  unfold get_monthly_winner.
  destruct winner_row as [row|]; [|discriminate].
  destruct (winner_vote_count row =? 0); [discriminate|].
  destruct top_contributor as [[uid0 n]|]; [|discriminate].
  destruct (user_row s uid0) as [[u p]|] eqn:Hrow; [|discriminate].
  assert (Hup : users (db s) !! uid0 = Some u /\ profiles s !! uid0 = Some p).
  { unfold user_row in Hrow.
    destruct (users (db s) !! uid0), (profiles s !! uid0); try discriminate.
    by injection Hrow as -> ->. }
  destruct Hup as [Hu Hp].
  destruct (match last_reward_month p with
            | None => Some true
            | Some key => _
            end) as [[|]|]; [|discriminate|discriminate].
  intros H. injection H as <- _ _ <- _ _ _ _. eexists _, _. unfold user_row. cbn.
  rewrite !lookup_alter_eq, Hu, Hp. cbn. split; reflexivity.
Qed.

(** X22: once [get_monthly_winner] has rewarded a user for a month, no
    call that finds the same user on top for a month less than six
    months later than that month (the same month asked again, or an
    earlier one) rewards again: the state stays as it is, and a winner
    that is reported has [reward_given] false, an amount of 0 and the
    cooldown flag set. *)
Theorem monthly_reward_not_repeated (year month year' month' : Z)
    (winner_row winner_row' : option WinnerRow) (top_contributor : option (Z * Z))
    (s s' : Site) (archive_id vote_count uid : Z) (name : string)
    (paid_count paid_count' reward_amount : Z) (cooldown_active : bool) :
  get_monthly_winner year month winner_row top_contributor s
  = (s', Reply_ok (Winner archive_id vote_count uid name paid_count true reward_amount
                          cooldown_active)) ->
  (year' - year) * 12 + (month' - month) < 6 ->
  let res := get_monthly_winner year' month' winner_row' (Some (uid, paid_count')) s' in
  fst res = s' /\
  match snd res with
  | Reply_ok (Winner _ _ _ _ _ reward_given' reward_amount' cooldown_active') =>
      reward_given' = false /\ reward_amount' = 0 /\ cooldown_active' = true
  | _ => True
  end.
Proof.
  intros Hfirst Hsoon.
  destruct (get_monthly_winner_rewarded _ _ _ _ _ _ _ _ _ _ _ _ _ Hfirst)
    as (u & p & Hrow & Hlast).
  cbv zeta. unfold get_monthly_winner.
  destruct winner_row' as [row'|]; [|done].
  destruct (winner_vote_count row' =? 0); [done|].
  rewrite Hrow, Hlast. unfold parse_reward_key. cbn [fst snd].
  destruct ((0 <=? year) && (0 <=? month)); [|done].
  replace ((year' - year) * 12 + (month' - month) <? 6) with true
    by (symmetry; apply Z.ltb_lt; exact Hsoon).
  done.
Qed.

(** Asked a second time for November 2023, the endpoint does not reward
    alice again. *)
Lemma monthly_reward_not_repeated_witness :
  let s' := fst (get_monthly_winner 2023 11 (Some SiteExamples.november_row) (Some (1, 7))
                                    SiteExamples.launch) in
  get_monthly_winner 2023 11 (Some SiteExamples.november_row) (Some (1, 7)) s'
  = (s', Reply_ok (Winner 1 3 1 "alice" 7 false 0 true)).
Proof.
  cbv zeta.
  destruct (monthly_reward_not_repeated 2023 11 2023 11 (Some SiteExamples.november_row)
              (Some SiteExamples.november_row) (Some (1, 7)) SiteExamples.launch
              (fst (get_monthly_winner 2023 11 (Some SiteExamples.november_row)
                      (Some (1, 7)) SiteExamples.launch))
              1 3 1 "alice" 7 7 100000 false) as [Hst _].
  - vm_compute. reflexivity.
  - vm_compute. reflexivity.
  - vm_compute. reflexivity.
Defined.

End MonthlyWinnerReward.
